(** * Identifier resolution and extraction pipeline: a shallow embedding

    The development follows the Python sources file by file:
    [config.py], [storage.py], [extractor.py], [help.py],
    [batch_processor.py] and the handlers [/extract] and [/papers] of
    [api.py].

    Python strings are modelled by [string]; a character is a code point
    below 256 and the case operations are the ASCII ones.  Everything the
    code does to the outside world (HTTP requests, sleeping, files, DuckDB
    statements) is recorded as an [event] in a chronological trace; what
    the outside world answers is given by an environment of oracles that
    may depend on the whole history so far.  Python exceptions are values
    of type [exn]; a computation returns either [Ok] or [Raise] together
    with the world it leaves behind, so effects made before an exception
    are kept, as in Python.  Calls to [logger] are not modelled. *)

From Stdlib Require Import String Ascii List Bool Arith ZArith Lia.
From Stdlib Require Import DecimalString Sorted Permutation.
Import ListNotations.
Open Scope string_scope.
Open Scope nat_scope.
Open Scope list_scope.

(** ** Python string operations *)

Module Py.

Definition is_lower (c : ascii) : bool :=
  (97 <=? nat_of_ascii c) && (nat_of_ascii c <=? 122).

Definition upper_char (c : ascii) : ascii :=
  if is_lower c then ascii_of_nat (nat_of_ascii c - 32) else c.

(** [str.upper()] *)
Fixpoint upper (s : string) : string :=
  match s with
  | EmptyString => EmptyString
  | String c s' => String (upper_char c) (upper s')
  end.

(** [s.isascii()]: on these strings [upper] is [str.upper()] *)
Fixpoint isascii (s : string) : bool :=
  match s with
  | EmptyString => true
  | String c s' => (nat_of_ascii c <? 128) && isascii s'
  end.

(** [s.startswith(p)] *)
Definition startswith (s p : string) : bool := String.prefix p s.

(** [bool(s)] for a string *)
Definition nonempty (s : string) : bool :=
  match s with EmptyString => false | String _ _ => true end.

(** Characters removed by [str.strip()] *)
Definition is_space (c : ascii) : bool :=
  let n := nat_of_ascii c in
  ((9 <=? n) && (n <=? 13)) || ((28 <=? n) && (n <=? 32))
  || (n =? 133) || (n =? 160).

Fixpoint lstrip (s : string) : string :=
  match s with
  | EmptyString => EmptyString
  | String c s' => if is_space c then lstrip s' else s
  end.

Fixpoint rev (s : string) : string :=
  match s with
  | EmptyString => EmptyString
  | String c s' => (rev s' ++ String c EmptyString)%string
  end.

Definition rstrip (s : string) : string := rev (lstrip (rev s)).

(** [str.strip()] *)
Definition strip (s : string) : string := rstrip (lstrip s).

(** [s.split(sep)] for a one-character separator *)
Fixpoint split (sep : ascii) (s : string) : list string :=
  match s with
  | EmptyString => [EmptyString]
  | String c s' =>
      if Ascii.eqb c sep then EmptyString :: split sep s'
      else match split sep s' with
           | [] => [String c EmptyString]
           | h :: t => String c h :: t
           end
  end.

(** [sub in s] *)
Fixpoint contains (sub s : string) : bool :=
  String.prefix sub s
  || match s with
     | EmptyString => false
     | String _ s' => contains sub s'
     end.

(** [s.replace(old, new)] for a non-empty [old]: occurrences are
    replaced from the left and do not overlap; [skip] counts the
    characters of an occurrence still to be dropped. *)
Fixpoint replace_from (old new : string) (skip : nat) (s : string) : string :=
  match s with
  | EmptyString => EmptyString
  | String c s' =>
      match skip with
      | S k => replace_from old new k s'
      | O =>
          if String.prefix old s
          then (new ++ replace_from old new (String.length old - 1) s')%string
          else String c (replace_from old new 0 s')
      end
  end.

Definition replace (old new s : string) : string := replace_from old new 0 s.

Definition is_digit (c : ascii) : bool :=
  (48 <=? nat_of_ascii c) && (nat_of_ascii c <=? 57).

Fixpoint take_digits (s : string) : string :=
  match s with
  | EmptyString => EmptyString
  | String c s' => if is_digit c then String c (take_digits s') else EmptyString
  end.

Fixpoint drop (n : nat) (s : string) : string :=
  match n, s with
  | O, _ => s
  | S k, String _ s' => drop k s'
  | S _, EmptyString => EmptyString
  end.

(** [re.findall(r'PMC(\d+)', s)]: the captured digits of the leftmost
    match, if any (the source only uses element 0 of the list and its
    emptiness). *)
Fixpoint re_first_pmc (s : string) : option string :=
  match s with
  | EmptyString => None
  | String _ s' =>
      if String.prefix "PMC" s && nonempty (take_digits (drop 3 s))
      then Some (take_digits (drop 3 s))
      else re_first_pmc s'
  end.

(** [str(n)] for a non-negative integer *)
Definition str_of_nat (n : nat) : string :=
  NilEmpty.string_of_uint (Nat.to_uint n).

(** [range(0, n, step)]: [None] stands for the [ValueError] raised on a
    zero step; a negative step gives the empty range. *)
Fixpoint range_from (fuel i n step : nat) : list nat :=
  match fuel with
  | O => []
  | S fuel' => if i <? n then i :: range_from fuel' (i + step) n step else []
  end.

Definition range_step (n : nat) (step : Z) : option (list nat) :=
  if (step =? 0)%Z then None
  else if (step <? 0)%Z then Some []
  else Some (range_from n 0 n (Z.to_nat step)).

(** [l[i:i+k]] for [0 <= i] and [0 < k] *)
Definition slice {A} (l : list A) (i k : nat) : list A := firstn k (skipn i l).

End Py.

(** ** config.py *)

Record Config := {
  DUCKDB_PATH : string;
  NCBI_API_KEY : string;
  BATCH_SIZE : Z;
  ENABLE_ENTITY_EXTRACTION : bool
}.

(** ** Documents, figures and entities (the dictionaries of extractor.py) *)

Record entity := {
  e_text : string;
  e_type : string;
  e_identifier : option string;
  e_start : Z;
  e_end : Z
}.

Record figure := {
  caption : string;
  url : option string;
  entities : list entity
}.

Record paper := {
  pmcid : string;
  title : string;
  abstract : string;
  figures : list figure
}.

(** One element of the ["annotations"] list of the annotation service;
    a key that is absent is [None] (or the empty list for ["id"]). *)
Record annotation := {
  mention : option string;
  obj : option string;
  id_list : list string;
  span_begin : option Z;
  span_end : option Z
}.

(** ** xml.etree.ElementTree *)

Module ET.

#[warnings="-register-all"] Inductive element :=
| Element (tag : string) (attrib : list (string * string))
          (text : option string) (children : list element)
          (tail : option string).

Definition tag_of (e : element) : string :=
  match e with Element t _ _ _ _ => t end.
Definition attrib_of (e : element) : list (string * string) :=
  match e with Element _ a _ _ _ => a end.
Definition text_of (e : element) : option string :=
  match e with Element _ _ t _ _ => t end.
Definition children_of (e : element) : list element :=
  match e with Element _ _ _ c _ => c end.
Definition tail_of (e : element) : option string :=
  match e with Element _ _ _ _ t => t end.

Definition or_empty (o : option string) : string :=
  match o with Some s => s | None => "" end.

(** [elem.get(key)] *)
Fixpoint assoc (key : string) (l : list (string * string)) : option string :=
  match l with
  | [] => None
  | (k, v) :: l' => if String.eqb k key then Some v else assoc key l'
  end.

Definition get (e : element) (key : string) : option string :=
  assoc key (attrib_of e).

(** [elem.iter()]: the element and its descendants in document order *)
Fixpoint iter (e : element) : list element :=
  match e with
  | Element _ _ _ cs _ => e :: flat_map iter cs
  end.

(** [.//tag]: the proper descendants carrying the tag *)
Definition descendants (tg : string) (e : element) : list element :=
  filter (fun d => String.eqb (tag_of d) tg) (flat_map iter (children_of e)).

(** [elem.findall(tag)]: the children carrying the tag *)
Definition findall_children (tg : string) (e : element) : list element :=
  filter (fun d => String.eqb (tag_of d) tg) (children_of e).

(** [elem.find(tag)] *)
Definition find (tg : string) (e : element) : option element :=
  List.find (fun d => String.eqb (tag_of d) tg) (children_of e).

(** ["".join(elem.itertext())] *)
Fixpoint itertext (e : element) : string :=
  match e with
  | Element _ _ t cs _ =>
      (or_empty t
       ++ String.concat "" (map (fun c => itertext c ++ or_empty (tail_of c)) cs))%string
  end.

(** The predicate chain [infon[@key='k'][.='v']] on one element *)
Definition infon_matches (k v : string) (i : element) : bool :=
  String.eqb (tag_of i) "infon"
  && match get i "key" with Some k' => String.eqb k' k | None => false end
  && String.eqb (itertext i) v.

(** [doc.findall(".//passage/infon[@key='k'][.='v']/..")]: the parent
    step yields every parent once, in the order of its first matching
    child; as the children of one passage are visited together, these
    are the descendant passages having a matching [infon] child, in
    document order. *)
Definition findall_passages (k v : string) (doc : element) : list element :=
  filter (fun p => existsb (infon_matches k v) (children_of p))
         (descendants "passage" doc).

(** [root.findall(".//infon[@key='k']")] *)
Definition findall_infons (k : string) (root : element) : list element :=
  filter (fun i => match get i "key" with
                   | Some k' => String.eqb k' k
                   | None => false
                   end)
         (descendants "infon" root).

End ET.

(** ** Exceptions, events, and the world *)

(** The exception classes the code tells apart.  [HTTPError] is a subclass
    of [RequestException]; every class is a subclass of [Exception]. *)
Inductive exn :=
| RequestException (msg : string)
| HTTPError (status : nat) (msg : string)
| ValueError (msg : string)
| OtherException (msg : string).

Definition is_RequestException (e : exn) : bool :=
  match e with
  | RequestException _ | HTTPError _ _ => true
  | _ => false
  end.

Definition is_HTTPError (e : exn) : bool :=
  match e with HTTPError _ _ => true | _ => false end.

(** [str(e)] *)
Definition str_exn (e : exn) : string :=
  match e with
  | RequestException m | HTTPError _ m | ValueError m | OtherException m => m
  end.

Inductive result (A : Type) :=
| Ok (a : A)
| Raise (e : exn).
Arguments Ok {A} a.
Arguments Raise {A} e.

Inductive event :=
| EvHttpGet (url : string)
| EvHttpHead (url : string)
| EvHttpPost (url : string) (text : string)
| EvIdconv (ids : string)
| EvSearch (term : string)
| EvSummary (pmids : list string)
| EvSleep (seconds : nat)
| EvSleepMillis (milliseconds : nat)
| EvExists (path : string)
| EvRead (path : string)
| EvWrite (path : string) (content : option string)
| EvRename (src dst : string)
| EvGlob (pattern : string)
| EvMakedirs (db_path : string)
| EvDbConnect
| EvDbExecute (sql : string)
| EvDbClose.

(** The events that are requests to a remote service *)
Definition is_network (e : event) : bool :=
  match e with
  | EvHttpGet _ | EvHttpHead _ | EvHttpPost _ _ | EvIdconv _ | EvSearch _
  | EvSummary _ => true
  | _ => false
  end.

(** A [requests] response: the status code, and what decoding the body
    gives ([response.json()] or [ET.fromstring(response.text)] followed by
    the accesses the caller makes), which may itself raise. *)
Record response (B : Type) := {
  status_code : nat;
  body : result B
}.
Arguments status_code {B} r.
Arguments body {B} r.

(** A row of table [publications]; column [figures_json] holds
    [json.dumps(figures)], kept here as the list it encodes. *)
Record pub_row := {
  row_pmcid : string;
  row_title : string;
  row_abstract : string;
  row_figures : list figure
}.

(** The DuckDB file: a table is [None] until it is created. *)
Record database := {
  publications : option (list pub_row);
  pmid_to_pmcid : option (list (string * string))
}.

(** The answers of the outside world; the first argument is the history
    up to and including the request.  [pubmed_search] gives the
    identifiers the search request finds, none also when the request or
    its decoding fails; [pubmed_summary] the identifiers the summary
    request has an entry for.  When [read_lines] raises, [read_partial]
    gives the lines an iteration over the open file had delivered before
    the failure (none when the file cannot be opened). *)
Record Env := {
  bioc_get : list event -> string -> result (response ET.element);
  bioc_head : list event -> string -> result nat;
  bern_post : list event -> string -> string -> result (response (list annotation));
  idconv_get : list event -> string -> result (response (list (option string)));
  pubmed_search : list event -> string -> list string;
  pubmed_summary : list event -> list string -> result (list string);
  os_path_exists : list event -> string -> bool;
  glob_glob : list event -> string -> list string;
  read_lines : list event -> string -> result (list string);
  read_partial : list event -> string -> list string;
  write_file : list event -> string -> result unit;
  os_rename : list event -> string -> string -> result unit;
  os_makedirs : list event -> string -> result unit;
  db_fault : list event -> option exn
}.

Record World := {
  trace : list event;
  db : database
}.

(** ** The monad of effectful Python code *)

Definition M (A : Type) : Type := World -> result A * World.

Definition ret {A} (a : A) : M A := fun w => (Ok a, w).

Definition bind {A B} (m : M A) (k : A -> M B) : M B :=
  fun w =>
    match m w with
    | (Ok a, w') => k a w'
    | (Raise e, w') => (Raise e, w')
    end.

Definition raise {A} (e : exn) : M A := fun w => (Raise e, w).

(** [try: m  except E as e: h e] where [catches] tells the members of [E] *)
Definition try_except {A} (m : M A) (catches : exn -> bool) (h : exn -> M A) : M A :=
  fun w =>
    match m w with
    | (Ok a, w') => (Ok a, w')
    | (Raise e, w') => if catches e then h e w' else (Raise e, w')
    end.

(** [except Exception] *)
Definition any_Exception (e : exn) : bool := true.

(** [try: m  finally: f] *)
Definition try_finally {A} (m : M A) (f : M unit) : M A :=
  fun w =>
    match m w with
    | (r, w') =>
        match f w' with
        | (Ok _, w'') => (r, w'')
        | (Raise e, w'') => (Raise e, w'')
        end
    end.

Declare Scope py_scope.
Delimit Scope py_scope with py.
Notation "x <- m ;; k" := (bind m (fun x => k))
  (at level 100, m at next level, right associativity) : py_scope.
Notation "m ;; k" := (bind m (fun _ => k))
  (at level 100, right associativity) : py_scope.
Open Scope py_scope.

Definition emit (e : event) : M unit :=
  fun w => (Ok tt, {| trace := trace w ++ [e]; db := db w |}).

(** Ask an oracle about the history so far *)
Definition ask {A} (o : list event -> A) : M A :=
  fun w => (Ok (o (trace w)), w).

Definition lift {A} (r : result A) : M A := fun w => (r, w).

Definition get_db : M database := fun w => (Ok (db w), w).

Definition put_db (d : database) : M unit :=
  fun w => (Ok tt, {| trace := trace w; db := d |}).

(** [for x in l: body], threading the loop variables [s] *)
Fixpoint for_each {A S} (l : list A) (body : A -> S -> M S) (s : S) : M S :=
  match l with
  | [] => ret s
  | x :: l' => s' <- body x s ;; for_each l' body s'
  end.

(** ** SQL statements on the two tables *)

Module Sql.

(** [INSERT OR REPLACE] on a table with a primary key: the rows in
    conflict with the new one are deleted, then the row is inserted. *)
Definition insert_or_replace {R} (key : R -> string) (r : R) (t : list R) : list R :=
  filter (fun x => negb (String.eqb (key x) (key r))) t ++ [r].

(** [SELECT ... WHERE key = ?] *)
Definition select_where {R} (key : R -> string) (k : string) (t : list R) : list R :=
  filter (fun x => String.eqb (key x) k) t.

Definition no_table {A} (name : string) : result A :=
  Raise (OtherException ("Catalog Error: Table with name " ++ name ++ " does not exist!")).

Definition create_publications (d : database) : result (unit * database) :=
  Ok (tt, {| publications := match publications d with
                             | Some t => Some t
                             | None => Some []
                             end;
             pmid_to_pmcid := pmid_to_pmcid d |}).

Definition upsert_publication (r : pub_row) (d : database) : result (unit * database) :=
  match publications d with
  | Some t => Ok (tt, {| publications := Some (insert_or_replace row_pmcid r t);
                         pmid_to_pmcid := pmid_to_pmcid d |})
  | None => no_table "publications"
  end.

(** [SELECT pmcid FROM publications WHERE pmcid = ?] then [fetchone()] *)
Definition select_publication (k : string) (d : database) : result (option string * database) :=
  match publications d with
  | Some t => Ok (hd_error (map row_pmcid (select_where row_pmcid k t)), d)
  | None => no_table "publications"
  end.

(** [SHOW TABLES] *)
Definition show_tables (d : database) : result (list string * database) :=
  Ok ((match pmid_to_pmcid d with Some _ => ["pmid_to_pmcid"] | None => [] end)
      ++ (match publications d with Some _ => ["publications"] | None => [] end), d).

(** [SELECT pmcid FROM pmid_to_pmcid WHERE pmid = ?] then [fetchone()] *)
Definition select_pmcid (k : string) (d : database) : result (option string * database) :=
  match pmid_to_pmcid d with
  | Some t => Ok (hd_error (map snd (select_where fst k t)), d)
  | None => no_table "pmid_to_pmcid"
  end.

Definition drop_mapping (d : database) : result (unit * database) :=
  Ok (tt, {| publications := publications d; pmid_to_pmcid := None |}).

Definition create_mapping (d : database) : result (unit * database) :=
  match pmid_to_pmcid d with
  | None => Ok (tt, {| publications := publications d; pmid_to_pmcid := Some [] |})
  | Some _ => Raise (OtherException "Catalog Error: Table with name pmid_to_pmcid already exists!")
  end.

(** [executemany] of [INSERT OR REPLACE INTO pmid_to_pmcid]: one
    statement per row, in order. *)
Definition upsert_mappings (rows : list (string * string)) (d : database)
  : result (unit * database) :=
  match pmid_to_pmcid d with
  | Some t => Ok (tt, {| publications := publications d;
                         pmid_to_pmcid :=
                           Some (fold_left (fun t r => insert_or_replace fst r t) rows t) |})
  | None => no_table "pmid_to_pmcid"
  end.

End Sql.

Definition row_of_paper (data : paper) : pub_row :=
  {| row_pmcid := pmcid data; row_title := title data;
     row_abstract := abstract data; row_figures := figures data |}.

(** [bool(x)] for a value that is a string or [None] *)
Definition truthy (x : option string) : bool :=
  match x with Some s => Py.nonempty s | None => false end.

(** The loop variables of the parsing loop of [fetch_bioc_paper];
    [st_title] may become Python's [None]. *)
Record parse_state := {
  st_title : option string;
  st_abstract : string;
  st_figures : list figure
}.

Record paper_info := {
  info_id : string;
  info_pmcid : string
}.

Record ExtractResponse := {
  resp_id : string;
  resp_status : string;
  resp_error : option string;
  resp_note : option string
}.

Definition bern_url : string := "http://bern2.korea.ac.kr/plain".

Definition bioc_url (key format pmc_id encoding : string) : string :=
  let base_url :=
    ("https://www.ncbi.nlm.nih.gov/research/bionlp/RESTful/pmcoa.cgi/BioC_"
       ++ format ++ "/" ++ pmc_id ++ "/" ++ encoding)%string in
  if Py.nonempty key then (base_url ++ "?api_key=" ++ key)%string else base_url.

(** [if not s.startswith("PMC"): s = f"PMC{s}"] (case-sensitive test) *)
Definition ensure_prefix_exact (s : string) : string :=
  if negb (Py.startswith s "PMC") then ("PMC" ++ s)%string else s.

(** [if not s.upper().startswith("PMC"): s = f"PMC{s}"] *)
Definition ensure_prefix_upper (s : string) : string :=
  if negb (Py.startswith (Py.upper s) "PMC") then ("PMC" ++ s)%string else s.

Section Program.

Context (cfg : Config) (env : Env).

(** *** Primitive operations *)

(** [time.sleep(n)] *)
Definition sleep (n : nat) : M unit := emit (EvSleep n).

(** [time.sleep(0.3)], the duration in milliseconds *)
Definition sleep_millis (ms : nat) : M unit := emit (EvSleepMillis ms).

(** [response.raise_for_status()] *)
Definition raise_for_status {B} (r : response B) : M unit :=
  if (400 <=? status_code r) && (status_code r <? 600)
  then raise (HTTPError (status_code r) (Py.str_of_nat (status_code r) ++ " Error"))
  else ret tt.

Definition db_check_fault : M unit :=
  f <- ask (db_fault env) ;;
  match f with
  | Some e => raise e
  | None => ret tt
  end.

(** [duckdb.connect(DUCKDB_PATH)] *)
Definition db_connect : M unit := emit EvDbConnect ;; db_check_fault.

(** [conn.execute(sql, ...)] with the meaning [sem] of the statement *)
Definition conn_execute {A} (sql : string)
           (sem : database -> result (A * database)) : M A :=
  emit (EvDbExecute sql) ;;
  db_check_fault ;;
  d <- get_db ;;
  match sem d with
  | Ok (a, d') => put_db d' ;; ret a
  | Raise e => raise e
  end.

(** [conn.close()] *)
Definition conn_close : M unit := emit EvDbClose.

(** [with open(path, "w") as f: f.write(content)] *)
Definition write_text (path : string) (content : option string) : M unit :=
  emit (EvWrite path content) ;;
  r <- ask (fun h => write_file env h path) ;;
  lift r.

(** [os.rename(src, dst)] *)
Definition rename (src dst : string) : M unit :=
  emit (EvRename src dst) ;;
  r <- ask (fun h => os_rename env h src dst) ;;
  lift r.

(** [with open(path, "r") as f: [line for line in f]] *)
Definition read_text_lines (path : string) : M (list string) :=
  emit (EvRead path) ;;
  r <- ask (fun h => read_lines env h path) ;;
  lift r.

(** *** storage.py *)

Definition init_db : M unit :=
  emit (EvMakedirs (DUCKDB_PATH cfg)) ;;
  r <- ask (fun h => os_makedirs env h (DUCKDB_PATH cfg)) ;;
  lift r ;;
  db_connect ;;
  conn_execute "CREATE TABLE IF NOT EXISTS publications" Sql.create_publications.

Definition insert_paper (data : paper) : M unit :=
  try_except
    (conn_execute "INSERT OR REPLACE INTO publications"
                  (Sql.upsert_publication (row_of_paper data)))
    any_Exception
    (fun _ => ret tt).

(** *** extractor.py: the entity annotator *)

Definition entity_of_annotation (ann : annotation) : entity :=
  {| e_text := match mention ann with Some m => m | None => "" end;
     e_type := match obj ann with Some t => t | None => "unknown" end;
     e_identifier := hd_error (id_list ann);
     e_start := match span_begin ann with Some b => b | None => 0%Z end;
     e_end := match span_end ann with Some b => b | None => 0%Z end |}.

(** The body of the [try] of one attempt *)
Definition bern_attempt (caption : string) : M (list entity) :=
  emit (EvHttpPost bern_url caption) ;;
  r <- ask (fun h => bern_post env h bern_url caption) ;;
  response <- lift r ;;
  raise_for_status response ;;
  data <- lift (body response) ;;
  ret (map entity_of_annotation data).

(** [for attempt in range(max_retries)]: [Some] is the [return] inside
    the [try], [None] the end of the handler. *)
Fixpoint bern_loop (caption : string) (attempts : list nat) : M (list entity) :=
  match attempts with
  | [] => ret []
  | attempt :: rest =>
      r <- try_except
             (entities <- bern_attempt caption ;; ret (Some entities))
             any_Exception
             (fun _ => sleep (2 * (attempt + 1)) ;; ret None) ;;
      match r with
      | Some entities => ret entities
      | None => bern_loop caption rest
      end
  end.

Definition fetch_entities_from_bern (caption : string) (max_retries : nat)
  : M (list entity) :=
  if negb (ENABLE_ENTITY_EXTRACTION cfg) then ret []
  else if String.length caption <? 20 then ret []
  else bern_loop caption (seq 0 max_retries).

(** *** extractor.py: the existence probe *)

Definition check_pmc_id_exists (pmc_id : string) : M bool :=
  let pmc_id := ensure_prefix_upper pmc_id in
  let url := bioc_url (NCBI_API_KEY cfg) "xml" pmc_id "unicode" in
  try_except
    (emit (EvHttpHead url) ;;
     r <- ask (fun h => bioc_head env h url) ;;
     status <- lift r ;;
     ret (status =? 200))
    is_RequestException
    (fun _ => ret false).

(** *** extractor.py: the document fetcher *)

(** [text_elem = p.find("text")] with the test
    [text_elem is not None and text_elem.text] *)
Definition passage_text (p : ET.element) : option string :=
  match ET.find "text" p with
  | Some text_elem =>
      match ET.text_of text_elem with
      | Some s => if Py.nonempty s then Some s else None
      | None => None
      end
  | None => None
  end.

(** The loop over [title_elements] that stops at the first text *)
Fixpoint first_text (elems : list ET.element) : option string :=
  match elems with
  | [] => None
  | elem :: rest =>
      match passage_text elem with
      | Some s => Some s
      | None => first_text rest
      end
  end.

Definition title_elements (document : ET.element) : list ET.element :=
  ET.findall_passages "section_type" "TITLE" document
  ++ ET.findall_passages "type" "title" document.

Definition abstract_elements (document : ET.element) : list ET.element :=
  ET.findall_passages "section_type" "ABSTRACT" document
  ++ ET.findall_passages "type" "abstract" document.

Definition figure_elements (document : ET.element) : list ET.element :=
  ET.findall_passages "section_type" "FIG" document
  ++ ET.findall_passages "section_type" "FIGURE" document
  ++ ET.findall_passages "type" "fig" document
  ++ ET.findall_passages "type" "figure-caption" document.

(** One round of the loop over [abstract_elements] *)
Definition add_abstract (abstract : string) (elem : ET.element) : string :=
  match passage_text elem with
  | Some s => if Py.nonempty abstract then (abstract ++ " " ++ s)%string else s
  | None => abstract
  end.

Definition is_url_key (k : option string) : bool :=
  match k with
  | Some k => String.eqb k "url" || String.eqb k "file" || String.eqb k "fig_url"
  | None => false
  end.

(** The loop over [fig_elem.findall("infon")], without [break] *)
Definition figure_url (fig_elem : ET.element) : option string :=
  fold_left (fun u infon => if is_url_key (ET.get infon "key")
                            then ET.text_of infon else u)
            (ET.findall_children "infon" fig_elem) None.

(** One round of the loop over [figure_elements] *)
Definition add_figure (fig_elem : ET.element) (figures : list figure)
  : M (list figure) :=
  match passage_text fig_elem with
  | Some figure_caption =>
      entities <- fetch_entities_from_bern figure_caption 3 ;;
      ret (figures ++ [{| caption := figure_caption;
                          url := figure_url fig_elem;
                          entities := entities |}])
  | None => ret figures
  end.

(** The first [infon] child with key [article-title], if any *)
Definition document_title_infon (document : ET.element) : option ET.element :=
  List.find (fun infon => match ET.get infon "key" with
                          | Some k => String.eqb k "article-title"
                          | None => false
                          end)
            (ET.findall_children "infon" document).

(** The body of [for document in documents] *)
Definition parse_document (document : ET.element) (st : parse_state)
  : M parse_state :=
  let title := match first_text (title_elements document) with
               | Some s => Some s
               | None => st_title st
               end in
  let abstract := fold_left add_abstract (abstract_elements document)
                            (st_abstract st) in
  figures <- for_each (figure_elements document) add_figure (st_figures st) ;;
  let title := if negb (truthy title)
               then match document_title_infon document with
                    | Some infon => ET.text_of infon
                    | None => title
                    end
               else title in
  ret {| st_title := title; st_abstract := abstract; st_figures := figures |}.

(** The XML branch, from [ET.fromstring] to the [return].  The title may
    be [None] after the fallbacks ([infon.text] of an empty element), and
    then [len(title)] in the logging call raises. *)
Definition parse_bioc (pmc_id : string) (root : ET.element) : M (option paper) :=
  let documents := ET.descendants "document" root in
  st <- for_each documents parse_document
                 {| st_title := Some ""; st_abstract := ""; st_figures := [] |} ;;
  let title := if negb (truthy (st_title st))
               then match ET.findall_infons "article-title" root with
                    | infon :: _ => ET.text_of infon
                    | [] => st_title st
                    end
               else st_title st in
  match title with
  | None => raise (OtherException "object of type 'NoneType' has no len()")
  | Some title =>
      if Py.nonempty title || Py.nonempty (st_abstract st)
         || negb (Nat.eqb (List.length (st_figures st)) 0)
      then ret (Some {| pmcid := pmc_id; title := title;
                        abstract := st_abstract st;
                        figures := st_figures st |})
      else ret None
  end.

Definition fetch_bioc_paper (pmc_id format encoding : string) : M (option paper) :=
  let pmc_id := ensure_prefix_exact pmc_id in
  let url := bioc_url (NCBI_API_KEY cfg) format pmc_id encoding in
  try_except
    (emit (EvHttpGet url) ;;
     r <- ask (fun h => bioc_get env h url) ;;
     response <- lift r ;;
     raise_for_status response ;;
     write_text (pmc_id ++ "_response.xml") None ;;
     if String.eqb format "json" then
       ret None
     else
       root <- lift (body response) ;;
       parse_bioc pmc_id root)
    any_Exception
    (fun e => if is_HTTPError e then ret None else ret None).

(** *** extractor.py: the local mapping lookup *)

Definition get_pmcid_from_database (pmid : string) : M (option string) :=
  try_except
    (db_connect ;;
     try_finally
       (tables <- conn_execute "SHOW TABLES" Sql.show_tables ;;
        if negb (existsb (String.eqb "pmid_to_pmcid") tables) then ret None
        else
          result <- conn_execute "SELECT pmcid FROM pmid_to_pmcid WHERE pmid = ?"
                                 (Sql.select_pmcid (Py.strip pmid)) ;;
          match result with
          | Some pmcid => ret (Some (ensure_prefix_upper pmcid))
          | None => ret None
          end)
       conn_close)
    any_Exception
    (fun _ => ret None).

(** *** help.py: the remote conversion service *)

(** The first record having a ["pmcid"] key gives the result *)
Fixpoint first_pmcid (records : list (option string)) : option string :=
  match records with
  | [] => None
  | Some v :: _ => Some v
  | None :: rest => first_pmcid rest
  end.

(** [inl v] is a [return v]; [inr d] goes to the next round with the
    new [retry_delay]. *)
Fixpoint idconv_loop (pmid : string) (max_retries : nat) (attempts : list nat)
         (retry_delay : nat) : M (option string) :=
  match attempts with
  | [] => ret None
  | attempt :: rest =>
      r <- try_except
             (emit (EvIdconv pmid) ;;
              r <- ask (fun h => idconv_get env h pmid) ;;
              response <- lift r ;;
              raise_for_status response ;;
              records <- lift (body response) ;;
              ret (inl (first_pmcid records)))
             is_RequestException
             (fun _ => if attempt <? max_retries - 1
                       then sleep retry_delay ;; ret (inr (retry_delay * 2))
                       else ret (inl None)) ;;
      match r with
      | inl v => ret v
      | inr d => idconv_loop pmid max_retries rest d
      end
  end.

Definition convert_pmid_to_pmcid (pmid : string) : M (option string) :=
  let max_retries := 3 in
  let retry_delay := 2 in
  idconv_loop pmid max_retries (seq 0 max_retries) retry_delay.

(** [search_pubmed]: the search request and, when it finds identifiers,
    a pause of 0.3 s, the summary request and the dump of its answer to
    [pubmed_response.json]; the result lists the identifiers found that
    the summary has an entry for.  Every exception is caught and gives
    the empty list. *)
Definition search_pubmed (query : string) (max_results : nat) : M (list string) :=
  try_except
    (emit (EvSearch query) ;;
     r <- ask (fun h => pubmed_search env h query) ;;
     let pmids := firstn max_results r in
     if Nat.eqb (List.length pmids) 0 then ret []
     else
       sleep_millis 300 ;;
       emit (EvSummary pmids) ;;
       s <- ask (fun h => pubmed_summary env h pmids) ;;
       summary_data <- lift s ;;
       write_text "pubmed_response.json" None ;;
       ret (filter (fun pmid => existsb (String.eqb pmid) summary_data) pmids))
    any_Exception
    (fun _ => ret []).

(** *** extractor.py: the pipeline *)

(** Step 1 and Step 2 of [process_paper_id]: the identifier handed to
    the fetch. *)
Definition resolve_paper_id (pmc_id : string) : M string :=
  pmc_id <-
    (if negb (Py.startswith (Py.upper pmc_id) "PMC") then
       db_pmcid <- get_pmcid_from_database pmc_id ;;
       if truthy db_pmcid then
         ret (match db_pmcid with Some p => p | None => pmc_id end)
       else
         api_pmcid <- convert_pmid_to_pmcid pmc_id ;;
         if truthy api_pmcid then
           ret (match api_pmcid with Some p => p | None => pmc_id end)
         else
           raise (ValueError ("Failed to fetch paper: PMID " ++ pmc_id
                                ++ " has no corresponding PMCID"))
     else ret pmc_id) ;;
  ret (ensure_prefix_upper pmc_id).

(** The body of [for figure in paper_data["figures"]] *)
Definition annotate_figure (fig : figure) (done : list figure) : M (list figure) :=
  if 20 <? String.length (caption fig) then
    entities <- try_except (fetch_entities_from_bern (caption fig) 3)
                           any_Exception
                           (fun _ => ret []) ;;
    ret (done ++ [{| caption := caption fig; url := url fig;
                     entities := entities |}])
  else
    ret (done ++ [{| caption := caption fig; url := url fig; entities := [] |}]).

(** The entity-extraction block *)
Definition annotate_paper (paper_data : paper) : M paper :=
  if ENABLE_ENTITY_EXTRACTION cfg
     && negb (Nat.eqb (List.length (figures paper_data)) 0)
  then
    figs <- for_each (figures paper_data) annotate_figure [] ;;
    ret {| pmcid := pmcid paper_data; title := title paper_data;
           abstract := abstract paper_data; figures := figs |}
  else ret paper_data.

Definition process_paper_id (pmc_id : string) : M paper :=
  pmc_id <- resolve_paper_id pmc_id ;;
  paper_data <- fetch_bioc_paper pmc_id "xml" "unicode" ;;
  match paper_data with
  | None => raise (ValueError ("Failed to fetch paper with ID: " ++ pmc_id))
  | Some paper_data =>
      paper_data <- annotate_paper paper_data ;;
      init_db ;;
      insert_paper paper_data ;;
      conn_close ;;
      ret paper_data
  end.

(** *** batch_processor.py *)

(** [examine_error_responses]: every file the pattern finds is opened
    and its first 500 characters are read; what is read only feeds the
    log, and what opening or reading raises is caught. *)
Definition examine_error_responses : M unit :=
  emit (EvGlob "PMC*_response.xml") ;;
  response_files <- ask (fun h => glob_glob env h "PMC*_response.xml") ;;
  for_each response_files
    (fun file_path _ =>
       try_except (read_text_lines file_path ;; ret tt)
                  any_Exception
                  (fun _ => ret tt))
    tt.

(** The body of [for paper_id in paper_ids]; every [append] is the last
    action of its path, so the lists seen by the handler are those of
    the start of the round. *)
Definition check_paper (paper_id : string)
           (st : list paper_info * list string)
  : M (list paper_info * list string) :=
  let available := fst st in
  let unavailable := snd st in
  let is_available pmcid :=
    (available ++ [{| info_id := paper_id; info_pmcid := pmcid |}], unavailable) in
  let is_unavailable := (available, unavailable ++ [paper_id]) in
  try_except
    (if Py.startswith (Py.upper paper_id) "PMC" then
       ok <- check_pmc_id_exists paper_id ;;
       if ok then ret (is_available paper_id) else ret is_unavailable
     else
       db_pmcid <- get_pmcid_from_database paper_id ;;
       if truthy db_pmcid then
         ret (is_available
                (ensure_prefix_upper
                   (match db_pmcid with Some p => p | None => "" end)))
       else
         api_pmcid <- convert_pmid_to_pmcid paper_id ;;
         found <-
           (if truthy api_pmcid then
              let api_pmcid :=
                ensure_prefix_upper
                  (match api_pmcid with Some p => p | None => "" end) in
              ok <- check_pmc_id_exists api_pmcid ;;
              if ok then ret (Some api_pmcid) else ret None
            else ret None) ;;
         match found with
         | Some api_pmcid => ret (is_available api_pmcid)
         | None =>
             search_pubmed ("[uid] " ++ paper_id) 1 ;;
             ret is_unavailable
         end)
    any_Exception
    (fun _ => ret is_unavailable).

Definition check_available_papers (paper_ids : list string)
  : M (list paper_info * list string) :=
  for_each paper_ids check_paper ([], []).

(** The body of [for paper_info in batch]; the loop variables are
    [(success_count, fail_count)]. *)
Definition process_one (info : paper_info) (counts : nat * nat) : M (nat * nat) :=
  try_except
    (process_paper_id (info_pmcid info) ;;
     ret (fst counts + 1, snd counts))
    any_Exception
    (fun _ => ret (fst counts, snd counts + 1)).

(** The text written to the sidecar file *)
Definition newline : string := String (ascii_of_nat 10) "".

Definition summary (total available success failed skipped : nat) : string :=
  ("Total: " ++ Py.str_of_nat total ++ newline
   ++ "Available: " ++ Py.str_of_nat available ++ newline
   ++ "Success: " ++ Py.str_of_nat success ++ newline
   ++ "Failed: " ++ Py.str_of_nat failed ++ newline
   ++ "Skipped: " ++ Py.str_of_nat skipped ++ newline)%string.

(** The statements of [process_file] inside its [try] *)
Definition process_file_body (file_path : string) : M unit :=
  lines <- read_text_lines file_path ;;
  let paper_ids := map Py.strip (filter (fun l => Py.nonempty (Py.strip l)) lines) in
  examine_error_responses ;;
  checked <- check_available_papers paper_ids ;;
  let available_papers := fst checked in
  let unavailable_papers := snd checked in
  let skipped_count := List.length unavailable_papers in
  starts <- match Py.range_step (List.length available_papers) (BATCH_SIZE cfg) with
            | Some l => ret l
            | None => raise (ValueError "range() arg 3 must not be zero")
            end ;;
  counts <- for_each starts
              (fun i counts =>
                 let batch := Py.slice available_papers i (Z.to_nat (BATCH_SIZE cfg)) in
                 for_each batch process_one counts)
              (0, 0) ;;
  write_text (file_path ++ ".processed")
             (Some (summary (List.length paper_ids) (List.length available_papers)
                            (fst counts) (snd counts) skipped_count)) ;;
  rename file_path (file_path ++ ".completed").

Definition process_file (file_path : string) : M unit :=
  try_except
    (process_file_body file_path)
    any_Exception
    (fun _ => rename file_path (file_path ++ ".failed")).

(** *** api.py: the [/extract] handler *)

(** [connect], [SELECT pmcid FROM publications WHERE pmcid = ?],
    [fetchone], [close] *)
Definition publication_exists (pmcid : string) : M bool :=
  db_connect ;;
  paper_result <- conn_execute "SELECT pmcid FROM publications WHERE pmcid = ?"
                               (Sql.select_publication pmcid) ;;
  conn_close ;;
  ret (match paper_result with Some _ => true | None => false end).

(** The look-up made before the pipeline is called: [Some note] when the
    paper is already stored (the [continue] paths). *)
Definition stored_note (pid : string) : M (option string) :=
  if Py.startswith (Py.upper pid) "PMC" then
    found <- publication_exists (Py.upper pid) ;;
    if found then ret (Some "Retrieved from database") else ret None
  else
    pmcid <- get_pmcid_from_database pid ;;
    if truthy pmcid then
      let p := match pmcid with Some p => p | None => "" end in
      found <- publication_exists (Py.upper p) ;;
      if found
      then ret (Some ("Retrieved from database as " ++ p)%string)
      else ret None
    else ret None.

(** The body of [for pid in req.paper_ids] *)
Definition extract_one (pid : string) : M ExtractResponse :=
  try_except
    (note <- stored_note pid ;;
     match note with
     | Some n => ret {| resp_id := pid; resp_status := "success";
                        resp_error := None; resp_note := Some n |}
     | None =>
         process_paper_id pid ;;
         ret {| resp_id := pid; resp_status := "success";
                resp_error := None; resp_note := None |}
     end)
    any_Exception
    (fun e => ret {| resp_id := pid; resp_status := "failed";
                     resp_error := Some (str_exn e); resp_note := None |}).

Definition extract_papers (paper_ids : list string) : M (list ExtractResponse) :=
  for_each paper_ids
           (fun pid results => r <- extract_one pid ;; ret (results ++ [r])) [].

(** *** help.py: the mapping-file import *)

Definition tab : ascii := ascii_of_nat 9.

(** The three shapes of a line (already stripped); [None] counts as an
    error. *)
Definition parse_mapping_line (line : string) : option (string * string) :=
  let parts := Py.split tab line in
  if (4 <=? List.length parts) && Py.contains "PMID:" (nth 3 parts "") then
    let pmid := Py.strip (Py.replace "PMID:" "" (nth 3 parts "")) in
    let pmcid := Py.strip (nth 2 parts "") in
    Some (pmid, ensure_prefix_exact pmcid)
  else if (2 <=? List.length parts)
          && Py.startswith (Py.upper (Py.strip (nth 1 parts ""))) "PMC" then
    let pmid := Py.strip (nth 0 parts "") in
    let pmcid := Py.upper (Py.strip (nth 1 parts "")) in
    Some (pmid, ensure_prefix_exact pmcid)
  else if Py.contains "PMC" line then
    match Py.re_first_pmc line with
    | Some digits => Some (digits, ("PMC" ++ digits)%string)
    | None => None
    end
  else None.

(** The loop variables of the import *)
Record import_state := {
  mappings : list (string * string);
  count : nat;
  errors : nat
}.

Definition executemany_mappings (rows : list (string * string)) : M unit :=
  conn_execute "INSERT OR REPLACE INTO pmid_to_pmcid (pmid, pmcid) VALUES (?, ?)"
               (Sql.upsert_mappings rows).

(** The body of [for line in f] *)
Definition import_line (line : string) (st : import_state) : M import_state :=
  let line := Py.strip line in
  if negb (Py.nonempty line) || Py.startswith line "#" then ret st
  else
    let st := match parse_mapping_line line with
              | Some m => {| mappings := mappings st ++ [m];
                             count := count st + 1;
                             errors := errors st |}
              | None => {| mappings := mappings st;
                           count := count st;
                           errors := errors st + 1 |}
              end in
    if 1000 <=? List.length (mappings st) then
      executemany_mappings (mappings st) ;;
      ret {| mappings := []; count := count st; errors := errors st |}
    else ret st.

(** The lines the loop visits: the first line is dropped unless it
    starts with [oa_package]. *)
Definition data_lines (lines : list string) : list string :=
  let first_line := Py.strip (hd "" lines) in
  if negb (Py.startswith first_line "oa_package") then tl lines else lines.

Definition build_pmid_to_pmcid_mapping (mapping_file_path : string) : M nat :=
  emit (EvExists mapping_file_path) ;;
  found <- ask (fun h => os_path_exists env h mapping_file_path) ;;
  if negb found then ret 0
  else
    db_connect ;;
    conn_execute "DROP TABLE IF EXISTS pmid_to_pmcid" Sql.drop_mapping ;;
    conn_execute "CREATE TABLE pmid_to_pmcid" Sql.create_mapping ;;
    try_finally
      (try_except
         (emit (EvRead mapping_file_path) ;;
          r <- ask (fun h => read_lines env h mapping_file_path) ;;
          match r with
          | Ok lines =>
              st <- for_each (data_lines lines) import_line
                             {| mappings := []; count := 0; errors := 0 |} ;;
              (if negb (Nat.eqb (List.length (mappings st)) 0)
               then executemany_mappings (mappings st)
               else ret tt) ;;
              ret (count st)
          | Raise e =>
              delivered <- ask (fun h => read_partial env h mapping_file_path) ;;
              for_each (data_lines delivered) import_line
                       {| mappings := []; count := 0; errors := 0 |} ;;
              raise e
          end)
         any_Exception
         (fun _ => ret 0))
      conn_close.

(** [lookup_pmcid]: [None] also when the lookup raises *)
Definition lookup_pmcid (pmid : string) : M (option string) :=
  try_except
    (db_connect ;;
     result <- conn_execute "SELECT pmcid FROM pmid_to_pmcid WHERE pmid = ?"
                            (Sql.select_pmcid pmid) ;;
     conn_close ;;
     ret result)
    any_Exception
    (fun _ => ret None).

End Program.

(** The line of the mapping file used as example in the specification *)
Definition oa_line : string :=
  String.concat (String tab "") ["file.pdf"; "Some Title"; "PMC123"; "PMID:999"; "CC-BY"].

(** ** Vocabulary of the statements *)

(** The world after some more events *)
Definition add_events (w : World) (evs : list event) : World :=
  {| trace := trace w ++ evs; db := db w |}.

(** Every run of [m] only appends events, all of them in [P] *)
Definition emits {A} (P : event -> Prop) (m : M A) : Prop :=
  forall w r w', m w = (r, w') ->
    exists evs, trace w' = trace w ++ evs /\ Forall P evs.

(** [m] returns normally from every world *)
Definition never_raises {A} (m : M A) : Prop :=
  forall w, exists a w', m w = (Ok a, w').

(** The durations slept, in order *)
Definition sleeps (evs : list event) : list nat :=
  flat_map (fun e => match e with EvSleep n => [n] | _ => [] end) evs.

(** The number of requests sent to remote services *)
Definition requests_made (evs : list event) : nat :=
  List.length (filter is_network evs).

(** The events of [k] failed annotation attempts numbered from [i] *)
Definition failed_attempts (caption : string) (i k : nat) : list event :=
  flat_map (fun attempt => [EvHttpPost bern_url caption; EvSleep (2 * (attempt + 1))])
           (seq i k).

(** The request of a last, successful attempt *)
Definition last_attempt (caption : string) (success : bool) : list event :=
  if success then [EvHttpPost bern_url caption] else [].

(** The events a sub-operation of the watcher may emit: anything but a
    rename of a file *)
Definition not_rename (e : event) : Prop :=
  match e with EvRename _ _ => False | _ => True end.

(** *** Sample configuration, environment and world *)

Definition cfg_on : Config :=
  {| DUCKDB_PATH := "data/store.db"; NCBI_API_KEY := "";
     BATCH_SIZE := 10%Z; ENABLE_ENTITY_EXTRACTION := true |}.

Definition cfg_off : Config :=
  {| DUCKDB_PATH := "data/store.db"; NCBI_API_KEY := "";
     BATCH_SIZE := 10%Z; ENABLE_ENTITY_EXTRACTION := false |}.

(** Every remote service is unreachable, the file system and the
    database work, no file exists. *)
Definition env_offline : Env :=
  {| bioc_get := fun _ _ => Raise (RequestException "connection refused");
     bioc_head := fun _ _ => Raise (RequestException "connection refused");
     bern_post := fun _ _ _ => Raise (RequestException "connection refused");
     idconv_get := fun _ _ => Raise (RequestException "connection refused");
     pubmed_search := fun _ _ => [];
     pubmed_summary := fun _ pmids => Ok pmids;
     os_path_exists := fun _ _ => false;
     glob_glob := fun _ _ => [];
     read_lines := fun _ _ => Raise (OtherException "No such file or directory");
     read_partial := fun _ _ => [];
     write_file := fun _ _ => Ok tt;
     os_rename := fun _ _ _ => Ok tt;
     os_makedirs := fun _ _ => Ok tt;
     db_fault := fun _ => None |}.

Definition empty_db : database :=
  {| publications := None; pmid_to_pmcid := None |}.

Definition w0 : World := {| trace := []; db := empty_db |}.

(** The rows of [publications] stored under a key *)
Definition stored_rows (k : string) (d : database) : list pub_row :=
  match publications d with
  | Some t => Sql.select_where row_pmcid k t
  | None => []
  end.

(** The database never refuses a connection or a statement *)
Definition db_healthy (env : Env) : Prop := forall h, db_fault env h = None.

Definition upsert_sql : string := "INSERT OR REPLACE INTO publications".

Definition paper_v1 : paper :=
  {| pmcid := "PMC123"; title := "First title"; abstract := "First abstract";
     figures := [] |}.

Definition paper_v2 : paper :=
  {| pmcid := "PMC123"; title := "Second title"; abstract := "";
     figures := [{| caption := "Figure 1"; url := None; entities := [] |}] |}.

Definition paper_other : paper :=
  {| pmcid := "PMC9"; title := "Another paper"; abstract := ""; figures := [] |}.

(** A world whose [publications] table holds one other paper *)
Definition w_stored : World :=
  {| trace := [];
     db := {| publications := Some [row_of_paper paper_other];
              pmid_to_pmcid := None |} |}.

(** *** What the parsing loop computes, as functions of the documents *)

Definition texts_of (elems : list ET.element) : list string :=
  flat_map (fun e => match passage_text e with Some s => [s] | None => [] end) elems.

(** The captions of the figure passages of a document, in order *)
Definition figure_captions (document : ET.element) : list string :=
  texts_of (figure_elements document).

(** The texts of the abstract passages of a document, in order *)
Definition abstract_texts (document : ET.element) : list string :=
  texts_of (abstract_elements document).

(** The title after a document, given the title before it *)
Definition title_after (document : ET.element) (title : option string) : option string :=
  let title := match first_text (title_elements document) with
               | Some s => Some s
               | None => title
               end in
  if truthy title then title
  else match document_title_infon document with
       | Some infon => ET.text_of infon
       | None => title
       end.

Definition documents_of (root : ET.element) : list ET.element :=
  ET.descendants "document" root.

(** The title at the end of [parse_bioc], before [len(title)] *)
Definition final_title (root : ET.element) : option string :=
  let t := fold_left (fun t d => title_after d t) (documents_of root) (Some "") in
  if truthy t then t
  else match ET.findall_infons "article-title" root with
       | infon :: _ => ET.text_of infon
       | [] => t
       end.

(** A response with none of title, abstract and figures populated *)
Definition nothing_extracted (root : ET.element) : Prop :=
  truthy (final_title root) = false
  /\ flat_map abstract_texts (documents_of root) = []
  /\ flat_map figure_captions (documents_of root) = [].

(** Follows the specification's wording ("first-found-wins per field
    across documents"): the value of the first document that has one. *)
Fixpoint first_found {A} (f : ET.element -> option A) (docs : list ET.element)
  : option A :=
  match docs with
  | [] => None
  | d :: rest => match f d with
                 | Some a => Some a
                 | None => first_found f rest
                 end
  end.

Definition spec_first_found_title (docs : list ET.element) : option string :=
  first_found (fun d => first_text (title_elements d)) docs.

Definition spec_first_found_abstract (docs : list ET.element) : option string :=
  first_found (fun d => match abstract_texts d with
                        | [] => None
                        | ts => Some (String.concat " " ts)
                        end) docs.

(** *** Sample documents *)

Definition xml_infon (k v : string) : ET.element :=
  ET.Element "infon" [("key", k)] (Some v) [] None.

Definition xml_text (s : string) : ET.element :=
  ET.Element "text" [] (Some s) [] None.

Definition xml_passage (section_type txt : string) : ET.element :=
  ET.Element "passage" [] None [xml_infon "section_type" section_type; xml_text txt] None.

Definition xml_document (passages : list ET.element) : ET.element :=
  ET.Element "document" [] None passages None.

Definition xml_collection (documents : list ET.element) : ET.element :=
  ET.Element "collection" [] None documents None.

(** Two documents, each with a title and an abstract passage *)
Definition two_documents : ET.element :=
  xml_collection
    [xml_document [xml_passage "TITLE" "First title";
                   xml_passage "ABSTRACT" "First abstract."];
     xml_document [xml_passage "TITLE" "Second title";
                   xml_passage "ABSTRACT" "Second abstract."]].

(** A collection without any document *)
Definition empty_collection : ET.element := xml_collection [].

(** One document with a caption of exactly 20 characters and a longer one *)
Definition caption20 : string := "Fig. 1: HER2 and p53".
Definition caption_long : string := "Fig. 2: staining for p53 in tumor cells".

Definition one_document : ET.element :=
  xml_collection
    [xml_document [xml_passage "TITLE" "A title";
                   xml_passage "FIG" caption20;
                   xml_passage "FIG" caption_long]].

(** The address [fetch_bioc_paper] requests for an identifier *)
Definition document_url (cfg : Config) (pmc_id : string) : string :=
  bioc_url (NCBI_API_KEY cfg) "xml" (ensure_prefix_exact pmc_id) "unicode".

(** The answer of the document service to the request made from [w] *)
Definition document_response (cfg : Config) (env : Env) (pmc_id : string) (w : World)
  : result (response ET.element) :=
  bioc_get env (trace w ++ [EvHttpGet (document_url cfg pmc_id)])
           (document_url cfg pmc_id).

(** *** Sample environments *)

(** The document service gives [answer], the annotation service [bern];
    the probe finds every document, the conversion service is down, the
    file system and the database work. *)
Definition env_serving (answer : result (response ET.element))
           (bern : result (response (list annotation))) : Env :=
  {| bioc_get := fun _ _ => answer;
     bioc_head := fun _ _ => Ok 200;
     bern_post := fun _ _ _ => bern;
     idconv_get := fun _ _ => Raise (RequestException "connection refused");
     pubmed_search := fun _ _ => [];
     pubmed_summary := fun _ pmids => Ok pmids;
     os_path_exists := fun _ _ => true;
     glob_glob := fun _ _ => [];
     read_lines := fun _ _ => Ok [];
     read_partial := fun _ _ => [];
     write_file := fun _ _ => Ok tt;
     os_rename := fun _ _ _ => Ok tt;
     os_makedirs := fun _ _ => Ok tt;
     db_fault := fun _ => None |}.

Definition bern_down : result (response (list annotation)) :=
  Raise (RequestException "connection refused").

Definition one_annotation : annotation :=
  {| mention := Some "p53"; obj := Some "gene"; id_list := ["NCBIGene:7157"];
     span_begin := Some 17%Z; span_end := Some 20%Z |}.

Definition bern_up : result (response (list annotation)) :=
  Ok {| status_code := 200; body := Ok [one_annotation] |}.

Definition answer_not_found : response ET.element :=
  {| status_code := 404; body := Raise (OtherException "not well-formed") |}.

Definition answer_of (root : ET.element) : response ET.element :=
  {| status_code := 200; body := Ok root |}.

Definition env_not_found : Env := env_serving (Ok answer_not_found) bern_down.
Definition env_empty : Env := env_serving (Ok (answer_of empty_collection)) bern_down.
Definition env_two_documents : Env := env_serving (Ok (answer_of two_documents)) bern_down.
Definition env_one_document : Env := env_serving (Ok (answer_of one_document)) bern_up.

Definition merged_two_documents : paper :=
  {| pmcid := "PMC1"; title := "Second title";
     abstract := "First abstract. Second abstract."; figures := [] |}.

(** The database refuses exactly the upsert into [publications] *)
Definition refuse_upsert (h : list event) : option exn :=
  match List.rev h with
  | EvDbExecute sql :: _ =>
      if String.eqb sql upsert_sql
      then Some (OtherException "IO Error: could not write to the database file")
      else None
  | _ => None
  end.

Definition env_upsert_fails : Env :=
  {| bioc_get := fun _ _ => Ok (answer_of one_document);
     bioc_head := fun _ _ => Ok 200;
     bern_post := fun _ _ _ => bern_up;
     idconv_get := fun _ _ => Raise (RequestException "connection refused");
     pubmed_search := fun _ _ => [];
     pubmed_summary := fun _ pmids => Ok pmids;
     os_path_exists := fun _ _ => true;
     glob_glob := fun _ _ => [];
     read_lines := fun _ _ => Ok ["PMC1"];
     read_partial := fun _ _ => [];
     write_file := fun _ _ => Ok tt;
     os_rename := fun _ _ _ => Ok tt;
     os_makedirs := fun _ _ => Ok tt;
     db_fault := refuse_upsert |}.

(** What the pipeline returns for the one-document response *)
Definition annotated_one_document : paper :=
  {| pmcid := "PMC1"; title := "A title"; abstract := "";
     figures :=
       [{| caption := caption20; url := None; entities := [] |};
        {| caption := caption_long; url := None;
           entities := [{| e_text := "p53"; e_type := "gene";
                           e_identifier := Some "NCBIGene:7157";
                           e_start := 17%Z; e_end := 20%Z |}] |}] |}.

(** What the fetch returns for the one-document response: here the
    caption of 20 characters has the entities of the first round. *)
Definition fetched_one_document : paper :=
  {| pmcid := "PMC1"; title := "A title"; abstract := "";
     figures :=
       [{| caption := caption20; url := None;
           entities := [entity_of_annotation one_annotation] |};
        {| caption := caption_long; url := None;
           entities := [entity_of_annotation one_annotation] |}] |}.

(** The worlds of a run on [PMC1] in which the upsert is refused *)
Definition w_fetched : World :=
  snd (fetch_bioc_paper cfg_on env_upsert_fails "PMC1" "xml" "unicode" w0).
Definition w_annotated : World :=
  snd (annotate_paper cfg_on env_upsert_fails fetched_one_document w_fetched).
Definition w_connected : World := snd (init_db cfg_on env_upsert_fails w_annotated).
Definition w_refused : World :=
  snd (conn_execute env_upsert_fails upsert_sql
         (Sql.upsert_publication (row_of_paper annotated_one_document)) w_connected).

(** *** The mapping-file import *)

(** The mapping a line of the file contributes, if any *)
Definition mapping_of_line (line : string) : option (string * string) :=
  let line := Py.strip line in
  if negb (Py.nonempty line) || Py.startswith line "#" then None
  else parse_mapping_line line.

Definition mappings_of (lines : list string) : list (string * string) :=
  flat_map (fun l => match mapping_of_line l with Some m => [m] | None => [] end) lines.

(** The key under which a line is stored, if it is stored *)
Definition line_pmid (line : string) : option string :=
  match mapping_of_line line with Some m => Some (fst m) | None => None end.

(** The value [lookup_pmcid] finds in the mapping table *)
Definition stored_mapping (pmid : string) (d : database) : option string :=
  match pmid_to_pmcid d with
  | Some t => hd_error (map snd (Sql.select_where fst pmid t))
  | None => None
  end.

Definition upsert_row (t : list (string * string)) (r : string * string)
  : list (string * string) :=
  Sql.insert_or_replace fst r t.

(** A world in which the file at any path holds [lines] *)
Definition env_with_file (lines : list string) : Env :=
  {| bioc_get := fun _ _ => Raise (RequestException "connection refused");
     bioc_head := fun _ _ => Raise (RequestException "connection refused");
     bern_post := fun _ _ _ => Raise (RequestException "connection refused");
     idconv_get := fun _ _ => Raise (RequestException "connection refused");
     pubmed_search := fun _ _ => [];
     pubmed_summary := fun _ pmids => Ok pmids;
     os_path_exists := fun _ _ => true;
     glob_glob := fun _ _ => [];
     read_lines := fun _ _ => Ok lines;
     read_partial := fun _ _ => [];
     write_file := fun _ _ => Ok tt;
     os_rename := fun _ _ _ => Ok tt;
     os_makedirs := fun _ _ => Ok tt;
     db_fault := fun _ => None |}.

Definition timestamp_line : string := "2024-01-01 00:00:00".

(** A later line of the same shape for the same PMID *)
Definition oa_line_again : string :=
  String.concat (String tab "") ["other.pdf"; "Other"; "PMC456"; "PMID:999"; "CC0"].

(** The table that will be there once the buffered rows are written *)
Definition pending (st : import_state) (t : list (string * string))
  : list (string * string) :=
  fold_left upsert_row (mappings st) t.

(** *** The batch watcher *)

(** The identifiers read from a batch file *)
Definition paper_ids_of (lines : list string) : list string :=
  map Py.strip (filter (fun l => Py.nonempty (Py.strip l)) lines).

(** [m] returns normally from every world, with a value in [Q] *)
Definition always_returns {A} (Q : A -> Prop) (m : M A) : Prop :=
  forall w, exists a w', m w = (Ok a, w') /\ Q a.

(** Whenever [m] returns normally, its value is in [Q] *)
Definition returns {A} (Q : A -> Prop) (m : M A) : Prop :=
  forall w a w', m w = (Ok a, w') -> Q a.

(** The number of identifiers handled so far by the loops of the watcher *)
Definition handled (counts : nat * nat) : nat := fst counts + snd counts.

Definition sorted_out (st : list paper_info * list string) : nat :=
  List.length (fst st) + List.length (snd st).

Fixpoint sum (l : list nat) : nat :=
  match l with
  | [] => 0
  | x :: l' => x + sum l'
  end.

(** The document service is up for the probe but has no document for the
    full fetch; a batch file with two identifiers. *)
Definition env_batch : Env :=
  {| bioc_get := fun _ _ => Ok answer_not_found;
     bioc_head := fun _ u =>
       if String.eqb u (bioc_url "" "xml" "PMC1" "unicode") then Ok 200 else Ok 404;
     bern_post := fun _ _ _ => bern_down;
     idconv_get := fun _ _ => Raise (RequestException "connection refused");
     pubmed_search := fun _ _ => [];
     pubmed_summary := fun _ pmids => Ok pmids;
     os_path_exists := fun _ _ => true;
     glob_glob := fun _ _ => [];
     read_lines := fun _ _ => Ok ["PMC1"; ""; "PMC2"];
     read_partial := fun _ _ => [];
     write_file := fun _ _ => Ok tt;
     os_rename := fun _ _ _ => Ok tt;
     os_makedirs := fun _ _ => Ok tt;
     db_fault := fun _ => None |}.

Definition cfg_zero_batch : Config :=
  {| DUCKDB_PATH := "data/store.db"; NCBI_API_KEY := "";
     BATCH_SIZE := 0%Z; ENABLE_ENTITY_EXTRACTION := true |}.

(** ** Further functions of the sources *)

(** [s.endswith(suffix)] *)
Definition endswith (s suffix : string) : bool :=
  String.prefix (Py.rev suffix) (Py.rev s).

(** The row of [publications] read back as a dictionary *)
Definition paper_of_row (r : pub_row) : paper :=
  {| pmcid := row_pmcid r; title := row_title r;
     abstract := row_abstract r; figures := row_figures r |}.

(** [SELECT pmcid, title, abstract, figures_json FROM publications
    WHERE pmcid = ?] then [fetchone()] *)
Definition select_paper (k : string) (d : database)
  : result (option pub_row * database) :=
  match publications d with
  | Some t => Ok (hd_error (Sql.select_where row_pmcid k t), d)
  | None => Sql.no_table "publications"
  end.

(** [SELECT pmcid, title, abstract, figures_json FROM publications] then
    [fetchall()] *)
Definition select_all_papers (d : database) : result (list pub_row * database) :=
  match publications d with
  | Some t => Ok (t, d)
  | None => Sql.no_table "publications"
  end.

(** The event handed to [on_created] by the observer *)
Record fs_event := {
  is_directory : bool;
  src_path : string
}.

Section Readers.

Context (cfg : Config) (env : Env).

(** *** storage.py: reading back *)

Definition get_paper_data (paper_id : string) : M (option paper) :=
  let paper_id := ensure_prefix_exact paper_id in
  try_except
    (db_connect env ;;
     try_finally
       (result <- conn_execute env
                    "SELECT pmcid, title, abstract, figures_json FROM publications WHERE pmcid = ?"
                    (select_paper paper_id) ;;
        match result with
        | None => ret None
        | Some row => ret (Some (paper_of_row row))
        end)
       conn_close)
    any_Exception
    (fun _ => ret None).

Definition get_all_papers : M (list paper) :=
  try_except
    (db_connect env ;;
     try_finally
       (results <- conn_execute env
                     "SELECT pmcid, title, abstract, figures_json FROM publications"
                     select_all_papers ;;
        for_each results (fun row papers => ret (papers ++ [paper_of_row row])) [])
       conn_close)
    any_Exception
    (fun _ => ret []).

(** *** batch_processor.py: the observer's callback *)

Definition on_created (event : fs_event) : M unit :=
  if is_directory event then ret tt
  else if endswith (src_path event) ".txt"
       then process_file cfg env (src_path event)
       else ret tt.

(** *** api.py: [GET /papers/{paper_id}]; the second component is the
    ["pmid"] entry added when the paper was found through the mapping. *)
Definition get_paper (paper_id : string) : M (paper * option string) :=
  data <- get_paper_data paper_id ;;
  data <-
    (match data with
     | Some d => ret (Some (d, None))
     | None =>
         if negb (Py.startswith (Py.upper paper_id) "PMC") then
           pmcid <- get_pmcid_from_database env paper_id ;;
           if truthy pmcid then
             data <- get_paper_data (match pmcid with Some p => p | None => "" end) ;;
             match data with
             | Some d => ret (Some (d, Some paper_id))
             | None => ret None
             end
           else ret None
         else ret None
     end) ;;
  match data with
  | Some d => ret d
  | None => raise (OtherException "404: Paper not found")
  end.

End Readers.

(** *** Vocabulary of the further properties *)

(** Every run of [m] leaves the tables as they were *)
Definition keeps_db {A} (m : M A) : Prop :=
  forall w r w', m w = (r, w') -> db w' = db w.

(** Classes of events *)
Definition is_db_event (e : event) : bool :=
  match e with
  | EvDbConnect | EvDbExecute _ | EvDbClose => true
  | _ => false
  end.

Definition is_conversion_event (e : event) : bool :=
  match e with
  | EvIdconv _ | EvSleep _ => true
  | _ => false
  end.

Definition is_post (e : event) : bool :=
  match e with EvHttpPost _ _ => true | _ => false end.

Definition is_file_write (e : event) : bool :=
  match e with EvWrite _ _ => true | _ => false end.

(** The address the existence probe requests for an identifier *)
Definition probe_url (cfg : Config) (pmc_id : string) : string :=
  bioc_url (NCBI_API_KEY cfg) "xml" (ensure_prefix_upper pmc_id) "unicode".

(** A collection whose only title is an attribute of the collection *)
Definition titled_collection : ET.element :=
  ET.Element "collection" [] None
    [xml_infon "article-title" "Collection title";
     xml_document [xml_passage "INTRO" "Some text."]] None.

(** A figure passage with two address attributes *)
Definition passage_two_urls : ET.element :=
  ET.Element "passage" [] None
    [xml_infon "section_type" "FIG"; xml_infon "file" "fig1.jpg";
     xml_text "A caption"; xml_infon "url" "http://example.org/fig1"] None.

(** What the availability check may do: requests to the probe, the
    conversion and the search services with their pauses, database
    operations, and the dump of the search summary *)
Definition is_check_event (e : event) : bool :=
  match e with
  | EvHttpHead _ | EvIdconv _ | EvSearch _ | EvSummary _
  | EvSleep _ | EvSleepMillis _
  | EvDbConnect | EvDbExecute _ | EvDbClose => true
  | EvWrite path _ => String.eqb path "pubmed_response.json"
  | _ => false
  end.

(** What the scan of the response files does *)
Definition is_scan_event (e : event) : bool :=
  match e with
  | EvGlob _ | EvRead _ => true
  | _ => false
  end.

(** The events of [k] failed conversion attempts, and the delays slept
    after them *)
Definition failed_conversions (pmid : string) (k : nat) : list event :=
  flat_map (fun delay => [EvIdconv pmid; EvSleep delay]) (firstn k [2; 4]).

(** The events of the local mapping lookup on a working database *)
Definition lookup_events : list event :=
  [EvDbConnect; EvDbExecute "SHOW TABLES";
   EvDbExecute "SELECT pmcid FROM pmid_to_pmcid WHERE pmid = ?"; EvDbClose].

(** A world whose mapping table knows PMID 999 *)
Definition w_mapped : World :=
  {| trace := [];
     db := {| publications := None;
              pmid_to_pmcid := Some [("111", "PMC1"); ("999", "PMC123")] |} |}.

(** The conversion service answers with a server error at every attempt *)
Definition env_conversion_down : Env :=
  {| bioc_get := fun _ _ => Raise (RequestException "connection refused");
     bioc_head := fun _ _ => Raise (RequestException "connection refused");
     bern_post := fun _ _ _ => Raise (RequestException "connection refused");
     idconv_get := fun _ _ => Ok {| status_code := 503; body := Ok [] |};
     pubmed_search := fun _ _ => [];
     pubmed_summary := fun _ pmids => Ok pmids;
     os_path_exists := fun _ _ => false;
     glob_glob := fun _ _ => [];
     read_lines := fun _ _ => Raise (OtherException "No such file or directory");
     read_partial := fun _ _ => [];
     write_file := fun _ _ => Ok tt;
     os_rename := fun _ _ _ => Ok tt;
     os_makedirs := fun _ _ => Ok tt;
     db_fault := fun _ => None |}.

(** What one attempt of the conversion makes of the answer of the service *)
Definition conversion_outcome (answer : result (response (list (option string))))
  : result (option string) :=
  match answer with
  | Raise e => Raise e
  | Ok resp =>
      if (400 <=? status_code resp) && (status_code resp <? 600)
      then Raise (HTTPError (status_code resp)
                            (Py.str_of_nat (status_code resp) ++ " Error"))
      else match body resp with
           | Ok records => Ok (first_pmcid records)
           | Raise e => Raise e
           end
  end.

(** *** The mapping-file import, further *)

(** The rows a line adds to the buffer *)
Definition rows_of_line (line : string) : list (string * string) :=
  match mapping_of_line line with Some m => [m] | None => [] end.

(** The events of an import up to the reading of the file, and the
    closing of the connection *)
Definition import_events (path : string) : list event :=
  [EvExists path; EvDbConnect;
   EvDbExecute "DROP TABLE IF EXISTS pmid_to_pmcid";
   EvDbExecute "CREATE TABLE pmid_to_pmcid"].

(** A table with a primary key whose values all carry the prefix *)
Definition well_formed_mapping (t : list (string * string)) : Prop :=
  NoDup (map fst t)
  /\ Forall (fun r => Py.startswith (snd r) "PMC" = true) t.

(** The statements inside the [try] of the import *)
Definition import_body (env : Env) (mapping_file_path : string) : M nat :=
  emit (EvRead mapping_file_path) ;;
  r <- ask (fun h => read_lines env h mapping_file_path) ;;
  match r with
  | Ok lines =>
      st <- for_each (data_lines lines) (import_line env)
                     {| mappings := []; count := 0; errors := 0 |} ;;
      (if negb (Nat.eqb (List.length (mappings st)) 0)
       then executemany_mappings env (mappings st)
       else ret tt) ;;
      ret (count st)
  | Raise e =>
      delivered <- ask (fun h => read_partial env h mapping_file_path) ;;
      for_each (data_lines delivered) (import_line env)
               {| mappings := []; count := 0; errors := 0 |} ;;
      raise e
  end.

(** The rows the loop has written when it stops after the rows [ms]:
    the full batches of 1000 *)
Definition flushed (ms : list (string * string)) : list (string * string) :=
  firstn (1000 * (List.length ms / 1000)) ms.

(** Reading the mapping file fails after the lines [delivered] *)
Definition env_broken_file (delivered : list string) : Env :=
  {| bioc_get := fun _ _ => Raise (RequestException "connection refused");
     bioc_head := fun _ _ => Raise (RequestException "connection refused");
     bern_post := fun _ _ _ => Raise (RequestException "connection refused");
     idconv_get := fun _ _ => Raise (RequestException "connection refused");
     pubmed_search := fun _ _ => [];
     pubmed_summary := fun _ pmids => Ok pmids;
     os_path_exists := fun _ _ => true;
     glob_glob := fun _ _ => [];
     read_lines := fun _ _ => Raise (OtherException "'utf-8' codec can't decode byte");
     read_partial := fun _ _ => delivered;
     write_file := fun _ _ => Ok tt;
     os_rename := fun _ _ _ => Ok tt;
     os_makedirs := fun _ _ => Ok tt;
     db_fault := fun _ => None |}.

(** The example line as it is read from a file, with its line end *)
Definition oa_line_nl : string := (oa_line ++ newline)%string.

Definition timestamp_line_nl : string := (timestamp_line ++ newline)%string.

(** *** The pipeline and the readers, further *)

(** The events of reading one paper back *)
Definition read_events : list event :=
  [EvDbConnect;
   EvDbExecute
     "SELECT pmcid, title, abstract, figures_json FROM publications WHERE pmcid = ?";
   EvDbClose].

(** The events of the look-up the [/extract] handler makes first *)
Definition cache_events : list event :=
  [EvDbConnect; EvDbExecute "SELECT pmcid FROM publications WHERE pmcid = ?";
   EvDbClose].

(** No figure carries an entity *)
Definition bare (figs : list figure) : Prop :=
  Forall (fun fig => entities fig = []) figs.

(** Whenever [m] raises, the tables are as they were *)
Definition raises_clean {A} (m : M A) : Prop :=
  forall w e w', m w = (Raise e, w') -> db w' = db w.

(** *** The batch watcher, further *)

(** The identifiers sorted out so far by the availability check *)
Definition sorted_ids (st : list paper_info * list string) : list string :=
  map info_id (fst st) ++ snd st.

(** The identifier under which an available paper will be fetched
    carries the prefix, in any case of the letters *)
Definition prefixed_info (info : paper_info) : Prop :=
  Py.startswith (Py.upper (info_pmcid info)) "PMC" = true.

(** The suffixes the watcher gives to the files it writes or renames *)
Definition output_suffixes : list string := [".processed"; ".completed"; ".failed"].

Definition cfg_negative_batch : Config :=
  {| DUCKDB_PATH := "data/store.db"; NCBI_API_KEY := "";
     BATCH_SIZE := (-1)%Z; ENABLE_ENTITY_EXTRACTION := true |}.

(** The answer of the probe to the request made from [w] *)
Definition probe_answer (cfg : Config) (env : Env) (w : World) (pmc_id : string)
  : result nat :=
  bioc_head env (trace w ++ [EvHttpHead (probe_url cfg pmc_id)]) (probe_url cfg pmc_id).

(** The verdicts of the availability check on the identifiers that
    carry the prefix are those of the probe: such an identifier is
    available under its own name after a probe answered 200, and
    unavailable after a probe did not. *)
Definition verdicts_follow_probes (cfg : Config) (env : Env)
           (st : list paper_info * list string) : Prop :=
  (forall info, In info (fst st) ->
     Py.startswith (Py.upper (info_id info)) "PMC" = true ->
     info_pmcid info = info_id info
     /\ exists w1, probe_answer cfg env w1 (info_id info) = Ok 200)
  /\ (forall id, In id (snd st) ->
        Py.startswith (Py.upper id) "PMC" = true ->
        exists w1, probe_answer cfg env w1 id <> Ok 200).

(** What the watcher does before it handles the first paper: the scan
    of the response files and the availability check *)
Definition is_preparation_event (e : event) : bool :=
  is_scan_event e || is_check_event e.

(** The pipeline run on the papers one after the other from [w]:
    [true] for a run that returns, [false] for one that raises *)
Fixpoint pipeline_outcomes (cfg : Config) (env : Env) (papers : list paper_info)
         (w : World) : list bool * World :=
  match papers with
  | [] => ([], w)
  | info :: rest =>
      match process_paper_id cfg env (info_pmcid info) w with
      | (r, w1) =>
          match pipeline_outcomes cfg env rest w1 with
          | (outcomes, w2) =>
              (match r with Ok _ => true | Raise _ => false end :: outcomes, w2)
          end
      end
  end.

Definition successes (outcomes : list bool) : nat :=
  List.length (filter (fun b => b) outcomes).

Definition failures (outcomes : list bool) : nat :=
  List.length (filter negb outcomes).

(** The summary file of a batch file and its content *)
Definition sidecar_event (path : string) (total available : nat)
           (outcomes : list bool) (skipped : nat) : event :=
  EvWrite (path ++ ".processed")
          (Some (summary total available (successes outcomes) (failures outcomes)
                         skipped)).

(** Two response files are lying around *)
Definition env_scanning : Env :=
  {| bioc_get := fun _ _ => Ok answer_not_found;
     bioc_head := fun _ u =>
       if String.eqb u (bioc_url "" "xml" "PMC1" "unicode") then Ok 200 else Ok 404;
     bern_post := fun _ _ _ => bern_down;
     idconv_get := fun _ _ => Raise (RequestException "connection refused");
     pubmed_search := fun _ _ => ["31452104"];
     pubmed_summary := fun _ pmids => Ok pmids;
     os_path_exists := fun _ _ => true;
     glob_glob := fun _ _ => ["PMC1_response.xml"; "PMC2_response.xml"];
     read_lines := fun _ _ => Ok ["PMC1"; "31452104"];
     read_partial := fun _ _ => [];
     write_file := fun _ _ => Ok tt;
     os_rename := fun _ _ _ => Ok tt;
     os_makedirs := fun _ _ => Ok tt;
     db_fault := fun _ => None |}.

(** The events of [lookup_pmcid] on a working database *)
Definition plain_lookup_events : list event :=
  [EvDbConnect; EvDbExecute "SELECT pmcid FROM pmid_to_pmcid WHERE pmid = ?";
   EvDbClose].

(** A world whose mapping table has a value without the prefix *)
Definition w_bare_mapping : World :=
  {| trace := [];
     db := {| publications := None;
              pmid_to_pmcid := Some [("999", "123")] |} |}.

(** A passage with the given [infon] children and a text *)
Definition xml_passage_with (infons : list (string * string)) (txt : string)
  : ET.element :=
  ET.Element "passage" [] None
             (map (fun kv => xml_infon (fst kv) (snd kv)) infons ++ [xml_text txt])
             None.

(** One document whose first abstract passage is marked by [type] and
    whose second is marked by [section_type] *)
Definition abstract_by_type_first : ET.element :=
  xml_collection
    [xml_document [xml_passage_with [("type", "abstract")] "Marked by type.";
                   xml_passage_with [("section_type", "ABSTRACT")]
                                    "Marked by section."]].

(** One document whose abstract passages carry both marks *)
Definition abstract_with_both_marks : ET.element :=
  xml_collection
    [xml_document [xml_passage_with [("section_type", "ABSTRACT"); ("type", "abstract")]
                                    "One.";
                   xml_passage_with [("section_type", "ABSTRACT"); ("type", "abstract")]
                                    "Two."]].

(** What one attempt of the annotator makes of the answer of the service *)
Definition annotation_outcome (answer : result (response (list annotation)))
  : result (list entity) :=
  match answer with
  | Raise e => Raise e
  | Ok resp =>
      if (400 <=? status_code resp) && (status_code resp <? 600)
      then Raise (HTTPError (status_code resp)
                            (Py.str_of_nat (status_code resp) ++ " Error"))
      else match body resp with
           | Ok data => Ok (map entity_of_annotation data)
           | Raise e => Raise e
           end
  end.

(** The answer of the annotation service to the attempt number [j]
    (from 0) of a call made from [w], the attempts before it having
    failed *)
Definition attempt_answer (env : Env) (caption : string) (w : World) (j : nat)
  : result (response (list annotation)) :=
  bern_post env (trace w ++ failed_attempts caption 0 j ++ [EvHttpPost bern_url caption])
            bern_url caption.

(** The annotation service fails twice and then finds one entity *)
Definition bern_third_time (h : list event) (url text : string)
  : result (response (list annotation)) :=
  if List.length (filter is_network h) <? 3
  then Raise (RequestException "connection refused")
  else Ok {| status_code := 200; body := Ok [one_annotation] |}.

Definition env_bern_third_time : Env :=
  {| bioc_get := fun _ _ => Raise (RequestException "connection refused");
     bioc_head := fun _ _ => Ok 200;
     bern_post := bern_third_time;
     idconv_get := fun _ _ => Raise (RequestException "connection refused");
     pubmed_search := fun _ _ => [];
     pubmed_summary := fun _ pmids => Ok pmids;
     glob_glob := fun _ _ => [];
     read_partial := fun _ _ => [];
     read_lines := fun _ _ => Ok [];
     os_path_exists := fun _ _ => false;
     write_file := fun _ _ => Ok tt;
     os_rename := fun _ _ _ => Ok tt;
     os_makedirs := fun _ _ => Ok tt;
     db_fault := fun _ => None |}.

(** * Properties of the pipeline *)

(** ** Running computations *)

Lemma bind_Ok {A B} (m : M A) (k : A -> M B) w a w' :
  m w = (Ok a, w') -> bind m k w = k a w'.
Proof. intros H. unfold bind. now rewrite H. Qed.

Lemma bind_Raise {A B} (m : M A) (k : A -> M B) w e w' :
  m w = (Raise e, w') -> bind m k w = (Raise e, w').
Proof. intros H. unfold bind. now rewrite H. Qed.

Lemma try_except_Ok {A} (m : M A) c h w a w' :
  m w = (Ok a, w') -> try_except m c h w = (Ok a, w').
Proof. intros H. unfold try_except. now rewrite H. Qed.

Lemma try_except_Raise {A} (m : M A) c h w e w' :
  m w = (Raise e, w') -> c e = true -> try_except m c h w = h e w'.
Proof. intros H Hc. unfold try_except. now rewrite H, Hc. Qed.

Lemma emit_run e w : emit e w = (Ok tt, add_events w [e]).
Proof. reflexivity. Qed.

Lemma add_events_nil w : add_events w [] = w.
Proof. destruct w; unfold add_events; simpl. now rewrite app_nil_r. Qed.

Lemma add_events_app w a b :
  add_events (add_events w a) b = add_events w (a ++ b).
Proof. unfold add_events; simpl. now rewrite app_assoc. Qed.

Lemma bind_Ok_inv {A B} (m : M A) (k : A -> M B) w b w' :
  bind m k w = (Ok b, w') ->
  exists a w1, m w = (Ok a, w1) /\ k a w1 = (Ok b, w').
Proof.
  unfold bind. destruct (m w) as [[a|e] w1]; [eauto|discriminate].
Qed.

Lemma emit_inv e w u w' : emit e w = (Ok u, w') -> w' = add_events w [e].
Proof. now inversion 1. Qed.

Lemma ask_inv {A} (o : list event -> A) w a w' :
  ask o w = (Ok a, w') -> a = o (trace w) /\ w' = w.
Proof. now inversion 1. Qed.

Lemma lift_inv {A} (r : result A) w a w' :
  lift r w = (Ok a, w') -> r = Ok a /\ w' = w.
Proof. now inversion 1. Qed.

Lemma ret_inv {A} (x : A) w a w' : ret x w = (Ok a, w') -> a = x /\ w' = w.
Proof. now inversion 1. Qed.

(** ** Events only accumulate *)

Lemma emits_weaken {A} (P Q : event -> Prop) (m : M A) :
  (forall e, P e -> Q e) -> emits P m -> emits Q m.
Proof.
  intros HPQ Hm w r w' Hrun.
  destruct (Hm w r w' Hrun) as (evs & Ht & Hall).
  exists evs; split; [assumption|].
  eapply Forall_impl; eauto.
Qed.

Lemma emits_ret {A} P (a : A) : emits P (ret a).
Proof.
  intros w r w' H. inversion H; subst. exists []. now rewrite app_nil_r.
Qed.

Lemma emits_raise {A} P e : emits P (@raise A e).
Proof.
  intros w r w' H. inversion H; subst. exists []. now rewrite app_nil_r.
Qed.

Lemma emits_lift {A} P (x : result A) : emits P (lift x).
Proof.
  intros w r w' H. inversion H; subst. exists []. now rewrite app_nil_r.
Qed.

Lemma emits_ask {A} P (o : list event -> A) : emits P (ask o).
Proof.
  intros w r w' H. inversion H; subst. exists []. now rewrite app_nil_r.
Qed.

Lemma emits_get_db P : emits P get_db.
Proof.
  intros w r w' H. inversion H; subst. exists []. now rewrite app_nil_r.
Qed.

Lemma emits_put_db P d : emits P (put_db d).
Proof.
  intros w r w' H. inversion H; subst. exists []; simpl. now rewrite app_nil_r.
Qed.

Lemma emits_emit (P : event -> Prop) e : P e -> emits P (emit e).
Proof.
  intros HP w r w' H. inversion H; subst. exists [e]; simpl. auto.
Qed.

Lemma emits_bind {A B} P (m : M A) (k : A -> M B) :
  emits P m -> (forall a, emits P (k a)) -> emits P (bind m k).
Proof.
  intros Hm Hk w r w' H. unfold bind in H.
  destruct (m w) as [[a|e] w1] eqn:E.
  - destruct (Hm _ _ _ E) as (e1 & T1 & F1).
    destruct (Hk a _ _ _ H) as (e2 & T2 & F2).
    exists (e1 ++ e2). rewrite T2, T1, app_assoc. split; [reflexivity|].
    apply Forall_app; auto.
  - inversion H; subst. eauto.
Qed.

Lemma emits_try_except {A} P (m : M A) c h :
  emits P m -> (forall e, emits P (h e)) -> emits P (try_except m c h).
Proof.
  intros Hm Hh w r w' H. unfold try_except in H.
  destruct (m w) as [[a|e] w1] eqn:E.
  - inversion H; subst. eauto.
  - destruct (c e).
    + destruct (Hm _ _ _ E) as (e1 & T1 & F1).
      destruct (Hh e _ _ _ H) as (e2 & T2 & F2).
      exists (e1 ++ e2). rewrite T2, T1, app_assoc. split; [reflexivity|].
      apply Forall_app; auto.
    + inversion H; subst. eauto.
Qed.

Lemma emits_try_finally {A} P (m : M A) f :
  emits P m -> emits P f -> emits P (try_finally m f).
Proof.
  intros Hm Hf w r w' H. unfold try_finally in H.
  destruct (m w) as [r1 w1] eqn:E.
  destruct (f w1) as [[u|e] w2] eqn:E2; inversion H; subst;
    destruct (Hm _ _ _ E) as (e1 & T1 & F1);
    destruct (Hf _ _ _ E2) as (e2 & T2 & F2);
    exists (e1 ++ e2); rewrite T2, T1, app_assoc; (split; [reflexivity|]);
    apply Forall_app; auto.
Qed.

Lemma emits_for_each {A S} P (l : list A) (body : A -> S -> M S) :
  (forall x s, emits P (body x s)) -> forall s, emits P (for_each l body s).
Proof.
  intros Hb. induction l as [|x l IH]; intros s; simpl.
  - apply emits_ret.
  - apply emits_bind; auto.
Qed.

(** One step of the syntax-directed proof that a computation [emits P];
    the goals about single events are left to the caller. *)
Ltac emits_step :=
  match goal with
  | |- emits _ (ret _) => apply emits_ret
  | |- emits _ (raise _) => apply emits_raise
  | |- emits _ (lift _) => apply emits_lift
  | |- emits _ (ask _) => apply emits_ask
  | |- emits _ get_db => apply emits_get_db
  | |- emits _ (put_db _) => apply emits_put_db
  | |- emits _ (emit _) => apply emits_emit
  | |- emits _ (bind _ _) => apply emits_bind; [|intro]
  | |- emits _ (try_except _ _ _) => apply emits_try_except; [|intro]
  | |- emits _ (try_finally _ _) => apply emits_try_finally
  | |- emits _ (for_each _ _ _) => apply emits_for_each; intros
  | |- emits _ (if ?b then _ else _) => destruct b
  | |- emits _ (match ?x with _ => _ end) => destruct x
  | |- emits _ (let _ := _ in _) => cbv zeta
  end.

Ltac emits_auto := repeat emits_step; auto.

Create HintDb emits.

Ltac emits_prog := repeat emits_step; try exact I; auto with emits.

Section Accumulation.

Context (cfg : Config) (env : Env).


Lemma emits_sleep n : emits not_rename (sleep n).
Proof. unfold sleep. emits_prog. Qed.

Lemma emits_raise_for_status {B} (r : response B) :
  emits not_rename (raise_for_status r).
Proof. unfold raise_for_status. emits_prog. Qed.

Lemma emits_db_check_fault : emits not_rename (db_check_fault env).
Proof. unfold db_check_fault. emits_prog. Qed.
Hint Resolve emits_sleep emits_raise_for_status emits_db_check_fault : emits.

Lemma emits_db_connect : emits not_rename (db_connect env).
Proof. unfold db_connect. emits_prog. Qed.

Lemma emits_conn_execute {A} sql (sem : database -> result (A * database)) :
  emits not_rename (conn_execute env sql sem).
Proof. unfold conn_execute. emits_prog. Qed.

Lemma emits_conn_close : emits not_rename conn_close.
Proof. unfold conn_close. emits_prog. Qed.

Lemma emits_write_text path content : emits not_rename (write_text env path content).
Proof. unfold write_text. emits_prog. Qed.

Lemma emits_read_text_lines path : emits not_rename (read_text_lines env path).
Proof. unfold read_text_lines. emits_prog. Qed.
Hint Resolve emits_db_connect emits_conn_execute emits_conn_close
     emits_write_text emits_read_text_lines : emits.

Lemma emits_init_db : emits not_rename (init_db cfg env).
Proof. unfold init_db. emits_prog. Qed.

Lemma emits_insert_paper data : emits not_rename (insert_paper env data).
Proof. unfold insert_paper. emits_prog. Qed.

Lemma emits_bern_attempt caption : emits not_rename (bern_attempt env caption).
Proof. unfold bern_attempt. emits_prog. Qed.
Hint Resolve emits_init_db emits_insert_paper emits_bern_attempt : emits.

Lemma emits_bern_loop caption attempts :
  emits not_rename (bern_loop env caption attempts).
Proof.
  induction attempts as [|attempt rest IH]; simpl; emits_prog.
Qed.
Hint Resolve emits_bern_loop : emits.

Lemma emits_fetch_entities_from_bern caption n :
  emits not_rename (fetch_entities_from_bern cfg env caption n).
Proof. unfold fetch_entities_from_bern. emits_prog. Qed.

Lemma emits_check_pmc_id_exists pmc_id :
  emits not_rename (check_pmc_id_exists cfg env pmc_id).
Proof. unfold check_pmc_id_exists. emits_prog. Qed.
Hint Resolve emits_fetch_entities_from_bern emits_check_pmc_id_exists : emits.

Lemma emits_add_figure fig_elem figs :
  emits not_rename (add_figure cfg env fig_elem figs).
Proof. unfold add_figure. emits_prog. Qed.
Hint Resolve emits_add_figure : emits.

Lemma emits_parse_document document st :
  emits not_rename (parse_document cfg env document st).
Proof. unfold parse_document. emits_prog. Qed.
Hint Resolve emits_parse_document : emits.

Lemma emits_parse_bioc pmc_id root :
  emits not_rename (parse_bioc cfg env pmc_id root).
Proof. unfold parse_bioc. emits_prog. Qed.
Hint Resolve emits_parse_bioc : emits.

Lemma emits_fetch_bioc_paper pmc_id format encoding :
  emits not_rename (fetch_bioc_paper cfg env pmc_id format encoding).
Proof. unfold fetch_bioc_paper. emits_prog. Qed.

Lemma emits_get_pmcid_from_database pmid :
  emits not_rename (get_pmcid_from_database env pmid).
Proof. unfold get_pmcid_from_database. emits_prog. Qed.

Lemma emits_idconv_loop pmid m attempts d :
  emits not_rename (idconv_loop env pmid m attempts d).
Proof.
  revert d. induction attempts as [|attempt rest IH]; intros d; simpl; emits_prog.
Qed.
Hint Resolve emits_fetch_bioc_paper emits_get_pmcid_from_database
     emits_idconv_loop : emits.

Lemma emits_convert_pmid_to_pmcid pmid :
  emits not_rename (convert_pmid_to_pmcid env pmid).
Proof. unfold convert_pmid_to_pmcid. emits_prog. Qed.

Lemma emits_search_pubmed q n : emits not_rename (search_pubmed env q n).
Proof. unfold search_pubmed, sleep_millis, write_text. emits_prog. Qed.
Hint Resolve emits_convert_pmid_to_pmcid emits_search_pubmed : emits.

Lemma emits_resolve_paper_id raw : emits not_rename (resolve_paper_id env raw).
Proof. unfold resolve_paper_id. emits_prog. Qed.

Lemma emits_annotate_figure fig done :
  emits not_rename (annotate_figure cfg env fig done).
Proof. unfold annotate_figure. emits_prog. Qed.
Hint Resolve emits_resolve_paper_id emits_annotate_figure : emits.

Lemma emits_annotate_paper data : emits not_rename (annotate_paper cfg env data).
Proof. unfold annotate_paper. emits_prog. Qed.
Hint Resolve emits_annotate_paper : emits.

Lemma emits_process_paper_id raw : emits not_rename (process_paper_id cfg env raw).
Proof. unfold process_paper_id. emits_prog. Qed.
Hint Resolve emits_process_paper_id : emits.

Lemma emits_check_paper paper_id st :
  emits not_rename (check_paper cfg env paper_id st).
Proof. unfold check_paper. emits_prog. Qed.
Hint Resolve emits_check_paper : emits.

Lemma emits_check_available_papers ids :
  emits not_rename (check_available_papers cfg env ids).
Proof. unfold check_available_papers. emits_prog. Qed.

Lemma emits_process_one info counts :
  emits not_rename (process_one cfg env info counts).
Proof. unfold process_one. emits_prog. Qed.

End Accumulation.

#[export] Hint Resolve emits_sleep emits_raise_for_status emits_db_check_fault
  emits_db_connect emits_conn_execute emits_conn_close emits_write_text
  emits_read_text_lines emits_init_db emits_insert_paper emits_bern_attempt
  emits_bern_loop emits_fetch_entities_from_bern emits_check_pmc_id_exists
  emits_add_figure emits_parse_document emits_parse_bioc emits_fetch_bioc_paper
  emits_get_pmcid_from_database emits_idconv_loop emits_convert_pmid_to_pmcid
  emits_search_pubmed emits_resolve_paper_id emits_annotate_figure
  emits_annotate_paper emits_process_paper_id emits_check_paper
  emits_check_available_papers emits_process_one : emits.

(** ** The entity annotator *)

Section Annotator.

Context (cfg : Config) (env : Env).

Lemma bern_attempt_run caption w :
  exists r, bern_attempt env caption w
            = (r, add_events w [EvHttpPost bern_url caption]).
Proof.
  unfold bern_attempt, bind, ask, lift, raise_for_status, ret, raise.
  rewrite emit_run.
  destruct (bern_post env _ bern_url caption) as [resp|e]; eauto.
  destruct ((400 <=? status_code resp) && (status_code resp <? 600)); eauto.
  destruct (body resp); eauto.
Qed.

Lemma failed_attempts_S caption i k :
  failed_attempts caption i (S k)
  = [EvHttpPost bern_url caption; EvSleep (2 * (i + 1))]
      ++ failed_attempts caption (S i) k.
Proof. reflexivity. Qed.

(** The retry loop: [k] failed attempts, each followed by its sleep,
    then possibly one successful attempt. *)
Lemma bern_loop_run caption n : forall i w,
  exists entities k success,
    bern_loop env caption (seq i n) w
    = (Ok entities,
       add_events w (failed_attempts caption i k ++ last_attempt caption success))
    /\ k + (if success then 1 else 0) <= n
    /\ (success = false -> entities = [] /\ k = n).
Proof.
  induction n as [|n IH]; intros i w; cbn [bern_loop seq].
  - exists [], 0, false. unfold ret. rewrite add_events_nil. auto.
  - destruct (bern_attempt_run caption w) as [r Hr].
    unfold bind at 1. unfold try_except, bind at 1. rewrite Hr.
    destruct r as [entities|e]; cbn [any_Exception].
    + exists entities, 0, true. unfold ret. simpl.
      split; [reflexivity|]. split; [lia|discriminate].
    + unfold bind at 1. unfold sleep. rewrite emit_run. unfold ret at 1.
      rewrite add_events_app.
      destruct (IH (S i) (add_events w ([EvHttpPost bern_url caption]
                                          ++ [EvSleep (2 * (i + 1))])))
        as (entities & k & success & Hrun & Hk & Hfail).
      exists entities, (S k), success.
      rewrite Hrun, add_events_app, failed_attempts_S.
      rewrite <- !app_assoc. split; [reflexivity|].
      split; [lia|]. intros Hs. destruct (Hfail Hs). split; [assumption|lia].
Qed.

(** One attempt: the request, and what is made of its answer *)
Lemma bern_attempt_outcome caption w :
  bern_attempt env caption w
  = (annotation_outcome (bern_post env (trace w ++ [EvHttpPost bern_url caption])
                                   bern_url caption),
     add_events w [EvHttpPost bern_url caption]).
Proof.
  unfold bern_attempt, annotation_outcome, bind, ask, lift, raise_for_status, ret,
    raise.
  rewrite emit_run. cbn [trace add_events].
  destruct (bern_post env _ bern_url caption) as [resp|e]; [|reflexivity].
  destruct ((400 <=? status_code resp) && (status_code resp <? 600)); [reflexivity|].
  destruct (body resp); reflexivity.
Qed.

(** The retry loop and the answers of the service: the attempts before
    the last all failed, and a successful last attempt gives the
    result. *)
Lemma bern_loop_answers caption n : forall i w,
  exists entities k success,
    bern_loop env caption (seq i n) w
    = (Ok entities,
       add_events w (failed_attempts caption i k ++ last_attempt caption success))
    /\ k + (if success then 1 else 0) <= n
    /\ (success = false -> entities = [] /\ k = n)
    /\ (forall j, j < k ->
          exists e,
            annotation_outcome
              (bern_post env (trace w ++ failed_attempts caption i j
                                ++ [EvHttpPost bern_url caption])
                         bern_url caption) = Raise e)
    /\ (success = true ->
        annotation_outcome
          (bern_post env (trace w ++ failed_attempts caption i k
                            ++ [EvHttpPost bern_url caption])
                     bern_url caption) = Ok entities).
Proof.
  induction n as [|n IH]; intros i w; cbn [bern_loop seq].
  - exists [], 0, false. unfold ret. rewrite add_events_nil.
    split; [reflexivity|]. split; [lia|]. split; [auto|].
    split; [intros j Hj; lia|discriminate].
  - unfold bind at 1. unfold try_except, bind at 1.
    rewrite bern_attempt_outcome.
    destruct (annotation_outcome _) as [entities|e] eqn:Ho; cbn [any_Exception].
    + exists entities, 0, true. unfold ret. cbn [failed_attempts seq flat_map app].
      split; [reflexivity|]. split; [lia|]. split; [discriminate|].
      split; [intros j Hj; lia|]. intros _. exact Ho.
    + unfold bind at 1. unfold sleep. rewrite emit_run. unfold ret at 1.
      rewrite add_events_app.
      destruct (IH (S i) (add_events w ([EvHttpPost bern_url caption]
                                          ++ [EvSleep (2 * (i + 1))])))
        as (entities & k & success & Hrun & Hk & Hfail & Hbefore & Hlast).
      exists entities, (S k), success.
      rewrite Hrun, add_events_app, failed_attempts_S.
      rewrite <- !app_assoc. split; [reflexivity|].
      split; [lia|].
      split; [intros Hs; destruct (Hfail Hs); split; [assumption|lia]|].
      split.
      * intros [|j] Hj.
        -- exists e. exact Ho.
        -- destruct (Hbefore j ltac:(lia)) as [e' He']. exists e'.
           rewrite failed_attempts_S, <- He'. cbn [trace add_events].
           now rewrite <- !app_assoc.
      * intros Hs. rewrite <- (Hlast Hs). cbn [trace add_events].
        now rewrite <- !app_assoc.
Qed.

Lemma fetch_entities_never_raises caption n :
  never_raises (fetch_entities_from_bern cfg env caption n).
Proof.
  intros w. unfold fetch_entities_from_bern.
  destruct (negb (ENABLE_ENTITY_EXTRACTION cfg)); [unfold ret; eauto|].
  destruct (String.length caption <? 20); [unfold ret; eauto|].
  destruct (bern_loop_run caption n 0 w) as (es & k & s & H & _). eauto.
Qed.

Lemma sleeps_failed_attempts caption k : forall i,
  sleeps (failed_attempts caption i k) = map (fun a => 2 * (a + 1)) (seq i k).
Proof.
  induction k as [|k IH]; intros i; [reflexivity|].
  rewrite failed_attempts_S. unfold sleeps in *. simpl. f_equal. apply IH.
Qed.

Lemma sleeps_app a b : sleeps (a ++ b) = sleeps a ++ sleeps b.
Proof. unfold sleeps. apply flat_map_app. Qed.

Lemma sleeps_last_attempt caption s : sleeps (last_attempt caption s) = [].
Proof. destruct s; reflexivity. Qed.

Lemma requests_failed_attempts caption k : forall i,
  requests_made (failed_attempts caption i k) = k.
Proof.
  induction k as [|k IH]; intros i; [reflexivity|].
  rewrite failed_attempts_S. unfold requests_made in *. simpl. f_equal. apply IH.
Qed.

Lemma requests_made_app a b :
  requests_made (a ++ b) = requests_made a + requests_made b.
Proof. unfold requests_made. now rewrite filter_app, length_app. Qed.

Lemma backoff_sorted k : forall i,
  Sorted le (map (fun a => 2 * (a + 1)) (seq i k)).
Proof.
  induction k as [|k IH]; intros i; simpl; constructor.
  - apply IH.
  - destruct k; simpl; constructor. lia.
Qed.

(** C6: a caption shorter than 20 characters, or any caption when entity
    extraction is disabled, gives the empty list at once: the world is
    left as it was, so no request was made. *)
Theorem annotate_skips_short_or_disabled caption max_retries w :
  ENABLE_ENTITY_EXTRACTION cfg = false \/ String.length caption < 20 ->
  fetch_entities_from_bern cfg env caption max_retries w = (Ok [], w).
Proof.
  intros [Hoff|Hshort]; unfold fetch_entities_from_bern.
  - now rewrite Hoff.
  - destruct (negb (ENABLE_ENTITY_EXTRACTION cfg)); [reflexivity|].
    apply Nat.ltb_lt in Hshort. now rewrite Hshort.
Qed.

(** C5: the annotator sends at most 3 requests.  An attempt fails when
    the request raises, when the status is an error, or when the body
    cannot be read; after the failed attempt number [a] it sleeps
    [2 * a] and, while [a < 3], tries again, so the delays 2, 4, 6 never
    decrease.  The first attempt that does not fail ends the call with
    its entities; when all three attempts fail the call returns the
    empty list, and in no case does it raise. *)
Theorem annotate_retries_then_returns_empty caption w :
  exists entities k success,
    fetch_entities_from_bern cfg env caption 3 w
    = (Ok entities,
       add_events w (failed_attempts caption 0 k ++ last_attempt caption success))
    /\ requests_made (failed_attempts caption 0 k ++ last_attempt caption success) <= 3
    /\ sleeps (failed_attempts caption 0 k ++ last_attempt caption success)
       = map (fun attempt_number => 2 * attempt_number) (seq 1 k)
    /\ Sorted le (sleeps (failed_attempts caption 0 k ++ last_attempt caption success))
    /\ (success = false -> entities = [])
    /\ (ENABLE_ENTITY_EXTRACTION cfg = true -> 20 <= String.length caption ->
        success = false -> k = 3)
    /\ (forall j, j < k ->
          exists e, annotation_outcome (attempt_answer env caption w j) = Raise e)
    /\ (success = true ->
        annotation_outcome (attempt_answer env caption w k) = Ok entities)
    /\ (ENABLE_ENTITY_EXTRACTION cfg = true -> 20 <= String.length caption ->
        (forall j, j < 3 ->
           exists e, annotation_outcome (attempt_answer env caption w j) = Raise e) ->
        k = 3 /\ success = false /\ entities = []).
Proof.
  assert (Hgen : exists entities k success,
             fetch_entities_from_bern cfg env caption 3 w
             = (Ok entities,
                add_events w (failed_attempts caption 0 k
                                ++ last_attempt caption success))
             /\ k + (if success then 1 else 0) <= 3
             /\ (success = false -> entities = [])
             /\ (ENABLE_ENTITY_EXTRACTION cfg = true -> 20 <= String.length caption ->
                 success = false -> k = 3)
             /\ (forall j, j < k ->
                   exists e,
                     annotation_outcome (attempt_answer env caption w j) = Raise e)
             /\ (success = true ->
                 annotation_outcome (attempt_answer env caption w k) = Ok entities)).
  { unfold fetch_entities_from_bern.
    destruct (ENABLE_ENTITY_EXTRACTION cfg) eqn:En; simpl negb; cbv iota.
    - destruct (String.length caption <? 20) eqn:Hlen.
      + exists [], 0, false. unfold ret. rewrite add_events_nil.
        apply Nat.ltb_lt in Hlen.
        split; [reflexivity|]. split; [lia|]. split; [reflexivity|].
        split; [intros; lia|]. split; [intros j Hj; lia|discriminate].
      + destruct (bern_loop_answers caption 3 0 w)
          as (es & k & s & Hrun & Hk & Hf & Hbefore & Hlast).
        exists es, k, s. split; [exact Hrun|]. split; [exact Hk|].
        split; [intros Hs; now destruct (Hf Hs)|].
        split; [intros _ _ Hs; now destruct (Hf Hs)|].
        split; [exact Hbefore|exact Hlast].
    - exists [], 0, false. unfold ret. rewrite add_events_nil.
      split; [reflexivity|]. split; [lia|]. split; [reflexivity|].
      split; [discriminate|]. split; [intros j Hj; lia|discriminate]. }
  destruct Hgen as (es & k & s & Hrun & Hk & Hempty & Hall & Hbefore & Hlast).
  exists es, k, s. split; [exact Hrun|].
  rewrite requests_made_app, requests_failed_attempts, sleeps_app,
    sleeps_failed_attempts, sleeps_last_attempt, app_nil_r.
  split; [unfold requests_made, last_attempt; destruct s; simpl in *; lia|].
  split.
  { rewrite <- seq_shift, map_map. apply map_ext. intros a. lia. }
  split; [apply backoff_sorted|].
  split; [exact Hempty|]. split; [exact Hall|].
  split; [exact Hbefore|]. split; [exact Hlast|].
  intros En Hlen Hfail. destruct s.
  - exfalso. destruct (Hfail k ltac:(lia)) as [e He].
    rewrite (Hlast eq_refl) in He. discriminate He.
  - split; [now apply Hall|]. split; [reflexivity|]. now apply Hempty.
Qed.

End Annotator.

(** A 5-character caption in a world where the service is unreachable *)
Lemma annotate_skips_short_or_disabled_witness :
  fetch_entities_from_bern cfg_on env_offline "Fig 1" 3 w0 = (Ok [], w0).
Proof.
  apply annotate_skips_short_or_disabled. right. simpl. lia.
Defined.

(** Two failed attempts, then the answer of the third *)
Example annotate_third_time :
  fetch_entities_from_bern cfg_on env_bern_third_time
    "A caption of more than twenty characters" 3 w0
  = (Ok [{| e_text := "p53"; e_type := "gene"; e_identifier := Some "NCBIGene:7157";
            e_start := 17%Z; e_end := 20%Z |}],
     add_events w0
       [EvHttpPost bern_url "A caption of more than twenty characters"; EvSleep 2;
        EvHttpPost bern_url "A caption of more than twenty characters"; EvSleep 4;
        EvHttpPost bern_url "A caption of more than twenty characters"]).
Proof. reflexivity. Qed.

(** With the service unreachable the three attempts and their delays *)
Example annotate_offline :
  fetch_entities_from_bern cfg_on env_offline "A caption of more than twenty characters" 3 w0
  = (Ok [],
     add_events w0
       [EvHttpPost bern_url "A caption of more than twenty characters"; EvSleep 2;
        EvHttpPost bern_url "A caption of more than twenty characters"; EvSleep 4;
        EvHttpPost bern_url "A caption of more than twenty characters"; EvSleep 6]).
Proof. reflexivity. Qed.

(** ** Storage *)

Lemma select_insert_same {R} (key : R -> string) r t :
  Sql.select_where key (key r) (Sql.insert_or_replace key r t) = [r].
Proof.
  unfold Sql.select_where, Sql.insert_or_replace.
  rewrite filter_app. simpl. rewrite String.eqb_refl.
  replace (filter (fun x => String.eqb (key x) (key r))
                  (filter (fun x => negb (String.eqb (key x) (key r))) t))
    with (@nil R); [reflexivity|].
  induction t as [|x t IH]; simpl; [reflexivity|].
  destruct (String.eqb (key x) (key r)) eqn:E; simpl; [assumption|].
  now rewrite E.
Qed.

Lemma select_insert_other {R} (key : R -> string) r t k :
  k <> key r ->
  Sql.select_where key k (Sql.insert_or_replace key r t) = Sql.select_where key k t.
Proof.
  intros Hk. unfold Sql.select_where, Sql.insert_or_replace.
  rewrite filter_app. simpl.
  assert (Hr : String.eqb (key r) k = false)
    by (apply String.eqb_neq; congruence).
  rewrite Hr, app_nil_r.
  induction t as [|x t IH]; simpl; [reflexivity|].
  destruct (String.eqb (key x) (key r)) eqn:E; simpl.
  - apply String.eqb_eq in E. rewrite E, Hr. assumption.
  - destruct (String.eqb (key x) k); [f_equal|]; assumption.
Qed.

Lemma insert_or_replace_twice {R} (key : R -> string) r t :
  Sql.insert_or_replace key r (Sql.insert_or_replace key r t)
  = Sql.insert_or_replace key r t.
Proof.
  unfold Sql.insert_or_replace. rewrite filter_app. simpl.
  rewrite String.eqb_refl. simpl. rewrite app_nil_r. f_equal.
  induction t as [|x t IH]; simpl; [reflexivity|].
  destruct (String.eqb (key x) (key r)) eqn:E; simpl; [assumption|].
  rewrite E. simpl. now f_equal.
Qed.

Section Storage.

Context (cfg : Config) (env : Env).

(** The statement of [insert_paper] when the database accepts it *)
Lemma conn_execute_upsert_run data w t :
  db_fault env (trace w ++ [EvDbExecute upsert_sql]) = None ->
  publications (db w) = Some t ->
  conn_execute env upsert_sql (Sql.upsert_publication (row_of_paper data)) w
  = (Ok tt,
     {| trace := trace w ++ [EvDbExecute upsert_sql];
        db := {| publications :=
                   Some (Sql.insert_or_replace row_pmcid (row_of_paper data) t);
                 pmid_to_pmcid := pmid_to_pmcid (db w) |} |}).
Proof.
  intros Hf Ht.
  unfold conn_execute, db_check_fault, bind, ask, get_db, put_db, ret.
  rewrite emit_run. simpl. rewrite Hf. simpl.
  unfold Sql.upsert_publication. now rewrite Ht.
Qed.

(** A statement that raises leaves the tables as they were *)
Lemma conn_execute_Raise {A} sql (sem : database -> result (A * database)) w e w' :
  conn_execute env sql sem w = (Raise e, w') ->
  w' = add_events w [EvDbExecute sql].
Proof.
  unfold conn_execute, db_check_fault, bind, ask, get_db, put_db, ret, raise.
  rewrite emit_run. simpl.
  destruct (db_fault env _); [intros H; inversion H; reflexivity|].
  cbn [db add_events].
  destruct (sem (db w)) as [[a d]|e']; intros H; inversion H; reflexivity.
Qed.

Lemma insert_paper_never_raises data : never_raises (insert_paper env data).
Proof.
  intros w. unfold insert_paper, try_except.
  destruct (conn_execute env _ _ w) as [[u|e] w'] eqn:E.
  - destruct u. eauto.
  - simpl. unfold ret. eauto.
Qed.

Lemma db_connect_run w :
  db_healthy env -> db_connect env w = (Ok tt, add_events w [EvDbConnect]).
Proof.
  intros Hdb. unfold db_connect, db_check_fault, bind, ask. rewrite emit_run.
  now rewrite Hdb.
Qed.

Lemma conn_execute_run {A} sql (sem : database -> result (A * database)) w a d :
  db_healthy env -> sem (db w) = Ok (a, d) ->
  conn_execute env sql sem w
  = (Ok a, {| trace := trace w ++ [EvDbExecute sql]; db := d |}).
Proof.
  intros Hdb Hsem.
  unfold conn_execute, db_check_fault, bind, ask, get_db, put_db, ret.
  rewrite emit_run. rewrite Hdb. cbn [db add_events]. now rewrite Hsem.
Qed.

(** [init_db] on a working system: the table is there afterwards, with
    the rows it had *)
Lemma init_db_run w :
  db_healthy env ->
  (forall h, os_makedirs env h (DUCKDB_PATH cfg) = Ok tt) ->
  exists w1,
    init_db cfg env w = (Ok tt, w1)
    /\ publications (db w1)
       = Some (match publications (db w) with Some t => t | None => [] end).
Proof.
  intros Hdb Hmk. eexists. unfold init_db.
  unfold bind at 1. rewrite emit_run.
  unfold bind at 1, ask at 1. unfold bind at 1, lift at 1. rewrite Hmk.
  rewrite (bind_Ok _ _ _ _ _ (db_connect_run _ Hdb)).
  erewrite conn_execute_run; [|exact Hdb|reflexivity].
  split; [reflexivity|]. cbn [db publications add_events].
  now destruct (publications (db w)).
Qed.

(** C8: on a working system, after [init_db], two insertions under one
    identifier leave exactly one row under that identifier; its four
    columns are the identifier, the title, the abstract and the figures
    of the second document, none of the first; rows under other
    identifiers are untouched; and inserting the same document again
    changes nothing. *)
Theorem upsert_keeps_one_latest_row d1 d2 w :
  db_healthy env ->
  (forall h, os_makedirs env h (DUCKDB_PATH cfg) = Ok tt) ->
  pmcid d1 = pmcid d2 ->
  exists w0 w1 w2,
    init_db cfg env w = (Ok tt, w0)
    /\ insert_paper env d1 w0 = (Ok tt, w1)
    /\ insert_paper env d2 w1 = (Ok tt, w2)
    /\ stored_rows (pmcid d2) (db w2)
       = [{| row_pmcid := pmcid d2; row_title := title d2;
             row_abstract := abstract d2; row_figures := figures d2 |}]
    /\ List.length (stored_rows (pmcid d2) (db w2)) = 1
    /\ (forall k, k <> pmcid d2 -> stored_rows k (db w2) = stored_rows k (db w))
    /\ (d1 = d2 -> db w2 = db w1).
Proof.
  intros Hdb Hmk Hkey.
  change {| row_pmcid := pmcid d2; row_title := title d2;
            row_abstract := abstract d2; row_figures := figures d2 |}
    with (row_of_paper d2).
  destruct (init_db_run w Hdb Hmk) as (wi & Hinit & Ht).
  set (t := match publications (db w) with Some t => t | None => [] end) in *.
  pose proof (conn_execute_upsert_run d1 wi t (Hdb _) Ht) as H1.
  set (w1 := {| trace := trace wi ++ [EvDbExecute upsert_sql];
                db := {| publications :=
                           Some (Sql.insert_or_replace row_pmcid (row_of_paper d1) t);
                         pmid_to_pmcid := pmid_to_pmcid (db wi) |} |}) in *.
  pose proof (conn_execute_upsert_run d2 w1 _ (Hdb _) eq_refl) as H2.
  eexists wi, w1, _.
  split; [exact Hinit|].
  split; [unfold insert_paper; erewrite try_except_Ok; [reflexivity|exact H1]|].
  split; [unfold insert_paper; erewrite try_except_Ok; [reflexivity|exact H2]|].
  unfold stored_rows; simpl.
  assert (Hk2 : row_pmcid (row_of_paper d2) = pmcid d2) by reflexivity.
  assert (Hk1 : row_pmcid (row_of_paper d1) = pmcid d2) by (simpl; exact Hkey).
  split; [rewrite <- Hk2 at 1; apply select_insert_same|].
  split; [rewrite <- Hk2 at 1; now rewrite select_insert_same|].
  split.
  - intros k Hk.
    rewrite select_insert_other by (rewrite Hk2; exact Hk).
    rewrite select_insert_other by (now rewrite Hk1).
    subst t. now destruct (publications (db w)).
  - intros ->. now rewrite insert_or_replace_twice.
Qed.

End Storage.

(** Two versions of PMC123 inserted next to another paper *)
Lemma upsert_keeps_one_latest_row_witness :
  exists w0 w1 w2,
    init_db cfg_on env_offline w_stored = (Ok tt, w0)
    /\ insert_paper env_offline paper_v1 w0 = (Ok tt, w1)
    /\ insert_paper env_offline paper_v2 w1 = (Ok tt, w2)
    /\ stored_rows (pmcid paper_v2) (db w2)
       = [{| row_pmcid := pmcid paper_v2; row_title := title paper_v2;
             row_abstract := abstract paper_v2; row_figures := figures paper_v2 |}]
    /\ List.length (stored_rows (pmcid paper_v2) (db w2)) = 1
    /\ (forall k, k <> pmcid paper_v2 ->
                  stored_rows k (db w2) = stored_rows k (db w_stored))
    /\ (paper_v1 = paper_v2 -> db w2 = db w1).
Proof.
  apply (upsert_keeps_one_latest_row cfg_on env_offline paper_v1 paper_v2 w_stored).
  - intros h. reflexivity.
  - intros h. reflexivity.
  - reflexivity.
Defined.

(** The table after the two insertions *)
Example two_versions_stored :
  publications
    (db (snd ((init_db cfg_on env_offline ;;
               insert_paper env_offline paper_v1 ;;
               insert_paper env_offline paper_v2) w_stored)))
  = Some [row_of_paper paper_other; row_of_paper paper_v2].
Proof. reflexivity. Qed.

(** ** Identifier resolution *)

Section Resolution.

Context (cfg : Config) (env : Env).

Lemma ensure_prefix_upper_prefixed raw :
  Py.startswith (Py.upper raw) "PMC" = true -> ensure_prefix_upper raw = raw.
Proof. intros H. unfold ensure_prefix_upper. now rewrite H. Qed.

Lemma upper_fixed_prefix raw :
  Py.startswith (Py.upper raw) "PMC" = true -> Py.upper raw = raw ->
  Py.startswith raw "PMC" = true.
Proof. intros H Hu. now rewrite Hu in H. Qed.

Lemma resolve_prefixed raw w :
  Py.startswith (Py.upper raw) "PMC" = true ->
  resolve_paper_id env raw w = (Ok raw, w).
Proof.
  intros H. unfold resolve_paper_id. rewrite H. simpl negb. cbv iota.
  unfold bind, ret. now rewrite ensure_prefix_upper_prefixed.
Qed.

(** The first thing [fetch_bioc_paper] does is its GET request *)
Lemma fetch_starts_with_get pmc_id format encoding w r w' :
  fetch_bioc_paper cfg env pmc_id format encoding w = (r, w') ->
  exists evs,
    trace w' = trace w
               ++ EvHttpGet (bioc_url (NCBI_API_KEY cfg) format
                                      (ensure_prefix_exact pmc_id) encoding) :: evs.
Proof.
  unfold fetch_bioc_paper. cbv zeta.
  set (url := bioc_url _ _ _ _).
  match goal with
  | |- try_except (bind (emit _) ?k) _ ?h w = _ -> _ =>
      assert (Hk : forall u, emits not_rename (k u)) by (intro; emits_prog);
      assert (Hh : forall e, emits not_rename (h e)) by (intro; emits_prog);
      generalize dependent k; generalize dependent h
  end.
  intros h Hh k Hk. unfold try_except, bind. rewrite emit_run.
  destruct (k tt (add_events w [EvHttpGet url])) as [[a|e] w1] eqn:E; intros H.
  - inversion H; subst. destruct (Hk _ _ _ _ E) as (evs & Ht & _).
    exists evs. rewrite Ht. simpl. now rewrite <- app_assoc.
  - destruct (Hk _ _ _ _ E) as (evs & Ht & _).
    simpl in H. destruct (Hh e _ _ _ H) as (evs' & Ht' & _).
    exists (evs ++ evs'). rewrite Ht', Ht. simpl. now rewrite <- !app_assoc.
Qed.

(** C1 (as the code has it): an identifier that carries the prefix, in
    any case, comes out of the normalization step exactly as it went in,
    and the world is left as it was, so nothing is sent before the fetch:
    the first event of the run is the GET of the document.  The result is
    the canonical upper-case form when the input already was; an input
    that is upper case reaches the service with no second prefix. *)
Theorem resolve_prefixed_unchanged_no_request raw w :
  Py.startswith (Py.upper raw) "PMC" = true ->
  resolve_paper_id env raw w = (Ok raw, w)
  /\ (Py.upper raw = raw -> ensure_prefix_exact raw = Py.upper raw)
  /\ exists r w' evs,
       process_paper_id cfg env raw w = (r, w')
       /\ trace w' = trace w
                     ++ EvHttpGet (bioc_url (NCBI_API_KEY cfg) "xml"
                                            (ensure_prefix_exact raw) "unicode") :: evs.
Proof.
  intros H. split; [now apply resolve_prefixed|]. split.
  - intros Hu. unfold ensure_prefix_exact.
    rewrite (upper_fixed_prefix raw H Hu). simpl. now rewrite Hu.
  - unfold process_paper_id.
    rewrite (bind_Ok _ _ _ _ _ (resolve_prefixed raw w H)).
    unfold bind at 1.
    destruct (fetch_bioc_paper cfg env raw "xml" "unicode" w) as [r1 w1] eqn:E.
    destruct (fetch_starts_with_get _ _ _ _ _ _ E) as (evs & Ht).
    destruct r1 as [[data|]|e].
    + match goal with
      | |- exists r w' evs', ?m w1 = _ /\ _ =>
          assert (Hm : emits not_rename m) by emits_prog;
          destruct (m w1) as [r2 w2] eqn:E2
      end.
      destruct (Hm _ _ _ E2) as (evs2 & Ht2 & _).
      exists r2, w2, (evs ++ evs2). split; [reflexivity|].
      rewrite Ht2, Ht. now rewrite <- app_assoc.
    + eexists _, w1, evs. split; [reflexivity|exact Ht].
    + eexists _, w1, evs. split; [reflexivity|exact Ht].
Qed.

End Resolution.

(** The lower-case identifier [pmc123] carries the prefix *)
Lemma resolve_prefixed_unchanged_no_request_witness :
  resolve_paper_id env_offline "pmc123" w0 = (Ok "pmc123", w0)
  /\ (Py.upper "pmc123" = "pmc123" -> ensure_prefix_exact "pmc123" = Py.upper "pmc123")
  /\ exists r w' evs,
       process_paper_id cfg_on env_offline "pmc123" w0 = (r, w')
       /\ trace w' = trace w0
                     ++ EvHttpGet (bioc_url (NCBI_API_KEY cfg_on) "xml"
                                            (ensure_prefix_exact "pmc123") "unicode")
                        :: evs.
Proof.
  apply (resolve_prefixed_unchanged_no_request cfg_on env_offline "pmc123" w0).
  reflexivity.
Defined.

(** C1 as stated fails: [pmc123] carries the prefix but is returned in
    lower case, which is not its canonical form [PMC123]. *)
Lemma resolve_does_not_uppercase :
  Py.startswith (Py.upper "pmc123") "PMC" = true
  /\ resolve_paper_id env_offline "pmc123" w0 = (Ok "pmc123", w0)
  /\ Py.upper "pmc123" = "PMC123"
  /\ fst (resolve_paper_id env_offline "pmc123" w0) <> Ok (Py.upper "pmc123").
Proof.
  repeat split; try reflexivity. simpl. discriminate.
Qed.

(** ** The parsing loop of the fetcher *)

Section Parsing.

Context (cfg : Config) (env : Env).

(** What one call of the annotator leaves in the trace *)
Lemma fetch_entities_run caption w :
  exists entities evs,
    fetch_entities_from_bern cfg env caption 3 w = (Ok entities, add_events w evs)
    /\ (ENABLE_ENTITY_EXTRACTION cfg = true -> 20 <= String.length caption ->
        In (EvHttpPost bern_url caption) evs).
Proof.
  unfold fetch_entities_from_bern.
  destruct (ENABLE_ENTITY_EXTRACTION cfg); simpl negb; cbv iota.
  - destruct (String.length caption <? 20) eqn:Hlen.
    + exists [], []. rewrite add_events_nil. split; [reflexivity|].
      apply Nat.ltb_lt in Hlen. intros; lia.
    + destruct (bern_loop_run env caption 3 0 w) as (es & k & s & Hrun & Hk & Hf).
      exists es, (failed_attempts caption 0 k ++ last_attempt caption s).
      split; [exact Hrun|]. intros _ _. apply in_or_app.
      destruct s; [right; simpl; auto|].
      destruct (Hf eq_refl) as [_ ->]. left. simpl. auto.
  - exists [], []. rewrite add_events_nil. split; [reflexivity|]. discriminate.
Qed.

Lemma add_figure_run fig_elem figs w :
  exists new evs,
    add_figure cfg env fig_elem figs w = (Ok (figs ++ new), add_events w evs)
    /\ map caption new = texts_of [fig_elem]
    /\ (ENABLE_ENTITY_EXTRACTION cfg = true ->
        forall c, In c (map caption new) -> 20 <= String.length c ->
                  In (EvHttpPost bern_url c) evs).
Proof.
  unfold add_figure, texts_of. simpl.
  destruct (passage_text fig_elem) as [c|].
  - destruct (fetch_entities_run c w) as (es & evs & Hrun & Hin).
    eexists [_], evs. rewrite (bind_Ok _ _ _ _ _ Hrun). unfold ret.
    split; [reflexivity|]. split; [reflexivity|].
    intros En c' [<-|[]] Hlen. auto.
  - exists [], []. unfold ret. rewrite app_nil_r, add_events_nil.
    split; [reflexivity|]. split; [reflexivity|]. intros _ c [].
Qed.

Lemma texts_of_cons e elems : texts_of (e :: elems) = texts_of [e] ++ texts_of elems.
Proof. unfold texts_of. simpl. now rewrite app_nil_r. Qed.

Lemma add_figures_run elems : forall figs w,
  exists new evs,
    for_each elems (add_figure cfg env) figs w = (Ok (figs ++ new), add_events w evs)
    /\ map caption new = texts_of elems
    /\ (ENABLE_ENTITY_EXTRACTION cfg = true ->
        forall c, In c (texts_of elems) -> 20 <= String.length c ->
                  In (EvHttpPost bern_url c) evs).
Proof.
  induction elems as [|e elems IH]; intros figs w.
  - exists [], []. simpl. unfold ret. rewrite app_nil_r, add_events_nil.
    split; [reflexivity|]. split; [reflexivity|]. intros _ c [].
  - destruct (add_figure_run e figs w) as (n1 & ev1 & H1 & C1 & P1).
    destruct (IH (figs ++ n1) (add_events w ev1)) as (n2 & ev2 & H2 & C2 & P2).
    exists (n1 ++ n2), (ev1 ++ ev2). cbn [for_each].
    rewrite (bind_Ok _ _ _ _ _ H1), H2, add_events_app, <- app_assoc.
    split; [reflexivity|].
    split; [now rewrite map_app, C1, C2, <- texts_of_cons|].
    intros En c Hc Hlen. rewrite texts_of_cons in Hc.
    apply in_or_app. apply in_app_or in Hc. destruct Hc as [Hc|Hc].
    + left. apply P1; auto. now rewrite C1.
    + right. apply P2; auto.
Qed.

Lemma title_after_code document title :
  (if negb (truthy match first_text (title_elements document) with
                   | Some s => Some s
                   | None => title
                   end)
   then match document_title_infon document with
        | Some infon => ET.text_of infon
        | None => match first_text (title_elements document) with
                  | Some s => Some s
                  | None => title
                  end
        end
   else match first_text (title_elements document) with
        | Some s => Some s
        | None => title
        end)
  = title_after document title.
Proof.
  unfold title_after. cbv zeta.
  destruct (truthy _); reflexivity.
Qed.

Lemma parse_document_run document st w :
  exists new evs,
    parse_document cfg env document st w
    = (Ok {| st_title := title_after document (st_title st);
             st_abstract := fold_left add_abstract (abstract_elements document)
                                      (st_abstract st);
             st_figures := st_figures st ++ new |},
       add_events w evs)
    /\ map caption new = figure_captions document
    /\ (ENABLE_ENTITY_EXTRACTION cfg = true ->
        forall c, In c (figure_captions document) -> 20 <= String.length c ->
                  In (EvHttpPost bern_url c) evs).
Proof.
  destruct (add_figures_run (figure_elements document) (st_figures st) w)
    as (new & evs & Hrun & Hc & Hp).
  exists new, evs. unfold parse_document. cbv zeta.
  rewrite (bind_Ok _ _ _ _ _ Hrun). unfold ret.
  rewrite title_after_code. auto.
Qed.

(** The loop over the documents of the response *)
Lemma parse_documents_run docs : forall st w,
  exists new evs,
    for_each docs (parse_document cfg env) st w
    = (Ok {| st_title := fold_left (fun t d => title_after d t) docs (st_title st);
             st_abstract :=
               fold_left add_abstract (flat_map abstract_elements docs)
                         (st_abstract st);
             st_figures := st_figures st ++ new |},
       add_events w evs)
    /\ map caption new = flat_map figure_captions docs
    /\ (ENABLE_ENTITY_EXTRACTION cfg = true ->
        forall c, In c (flat_map figure_captions docs) -> 20 <= String.length c ->
                  In (EvHttpPost bern_url c) evs).
Proof.
  induction docs as [|d docs IH]; intros st w.
  - exists [], []. simpl. unfold ret. rewrite app_nil_r, add_events_nil.
    destruct st. split; [reflexivity|]. split; [reflexivity|]. intros _ c [].
  - destruct (parse_document_run d st w) as (n1 & ev1 & H1 & C1 & P1).
    match type of H1 with _ = (Ok ?s, _) => set (st1 := s) in * end.
    destruct (IH st1 (add_events w ev1)) as (n2 & ev2 & H2 & C2 & P2).
    exists (n1 ++ n2), (ev1 ++ ev2). cbn [for_each].
    rewrite (bind_Ok _ _ _ _ _ H1), H2, add_events_app.
    subst st1. cbn [st_title st_abstract st_figures flat_map fold_left].
    rewrite fold_left_app, <- app_assoc.
    split; [reflexivity|].
    split; [now rewrite map_app, C1, C2|].
    intros En c Hc Hlen. apply in_or_app. apply in_app_or in Hc.
    destruct Hc as [Hc|Hc]; [left; apply P1|right; apply P2]; auto.
Qed.

(** What [parse_bioc] returns when it returns a document *)
Lemma parse_bioc_Some pmc_id root w p w' :
  parse_bioc cfg env pmc_id root w = (Ok (Some p), w') ->
  exists evs,
    w' = add_events w evs
    /\ pmcid p = pmc_id
    /\ final_title root = Some (title p)
    /\ abstract p = fold_left add_abstract
                              (flat_map abstract_elements (documents_of root)) ""
    /\ map caption (figures p) = flat_map figure_captions (documents_of root)
    /\ (ENABLE_ENTITY_EXTRACTION cfg = true ->
        forall c, In c (map caption (figures p)) -> 20 <= String.length c ->
                  In (EvHttpPost bern_url c) evs)
    /\ Py.nonempty (title p) || Py.nonempty (abstract p)
       || negb (Nat.eqb (List.length (figures p)) 0) = true.
Proof.
  unfold parse_bioc. cbv zeta.
  destruct (parse_documents_run (ET.descendants "document" root)
              {| st_title := Some ""; st_abstract := ""; st_figures := [] |} w)
    as (new & evs & Hrun & Hc & Hp).
  rewrite (bind_Ok _ _ _ _ _ Hrun).
  cbn [st_title st_abstract st_figures app].
  assert (Ht : (if negb (truthy (fold_left (fun t d => title_after d t)
                                           (ET.descendants "document" root) (Some "")))
                then match ET.findall_infons "article-title" root with
                     | infon :: _ => ET.text_of infon
                     | [] => fold_left (fun t d => title_after d t)
                                       (ET.descendants "document" root) (Some "")
                     end
                else fold_left (fun t d => title_after d t)
                               (ET.descendants "document" root) (Some ""))
               = final_title root).
  { unfold final_title, documents_of. cbv zeta. destruct (truthy _); reflexivity. }
  rewrite Ht. destruct (final_title root) as [t|]; [|discriminate].
  destruct (Py.nonempty t || Py.nonempty _ || negb _) eqn:Hcond; [|discriminate].
  unfold ret. intros H. inversion H; subst. cbn [pmcid title abstract figures].
  exists evs. unfold documents_of. rewrite Hc. auto 10.
Qed.

Lemma append_assoc (a b c : string) : ((a ++ b) ++ c = a ++ (b ++ c))%string.
Proof. induction a as [|x a IH]; simpl; [reflexivity|now rewrite IH]. Qed.

Lemma nonempty_false s : Py.nonempty s = false -> s = "".
Proof. destruct s; [reflexivity|discriminate]. Qed.

Lemma passage_text_nonempty e s : passage_text e = Some s -> Py.nonempty s = true.
Proof.
  unfold passage_text. destruct (ET.find "text" e) as [t|]; [|discriminate].
  destruct (ET.text_of t) as [x|]; [|discriminate].
  destruct (Py.nonempty x) eqn:E; [|discriminate]. now intros [= <-].
Qed.

Lemma texts_of_app a b : texts_of (a ++ b) = texts_of a ++ texts_of b.
Proof. unfold texts_of. apply flat_map_app. Qed.

Lemma texts_of_flat_map (f : ET.element -> list ET.element) docs :
  texts_of (flat_map f docs) = flat_map (fun d => texts_of (f d)) docs.
Proof.
  induction docs as [|d docs IH]; simpl; [reflexivity|].
  now rewrite texts_of_app, IH.
Qed.

(** The loop over the abstract passages joins their texts with spaces *)
Lemma fold_add_abstract elems : forall a,
  fold_left add_abstract elems a
  = if Py.nonempty a
    then match texts_of elems with
         | [] => a
         | ts => (a ++ " " ++ String.concat " " ts)%string
         end
    else String.concat " " (texts_of elems).
Proof.
  induction elems as [|e elems IH]; intros a.
  - simpl. destruct a; reflexivity.
  - cbn [fold_left]. rewrite IH, (texts_of_cons e elems).
    replace (texts_of [e])
      with (match passage_text e with Some s => [s] | None => [] end)
      by (unfold texts_of; simpl; now rewrite app_nil_r).
    unfold add_abstract.
    destruct (passage_text e) as [s|] eqn:E; simpl app; [|reflexivity].
    pose proof (passage_text_nonempty _ _ E) as Hs.
    destruct (Py.nonempty a) eqn:Ha.
    + assert (Hn : Py.nonempty (a ++ " " ++ s) = true) by (destruct a; [discriminate|reflexivity]).
      rewrite Hn. destruct (texts_of elems) as [|t ts]; [reflexivity|].
      change (String.concat " " (s :: t :: ts))
        with (s ++ " " ++ String.concat " " (t :: ts))%string.
      now rewrite !append_assoc.
    + rewrite Hs. apply nonempty_false in Ha. subst a.
      destruct (texts_of elems) as [|t ts]; reflexivity.
Qed.

Lemma abstract_joined docs :
  fold_left add_abstract (flat_map abstract_elements docs) ""
  = String.concat " " (flat_map abstract_texts docs).
Proof.
  rewrite fold_add_abstract. simpl. now rewrite texts_of_flat_map.
Qed.

Lemma first_text_nonempty elems s :
  first_text elems = Some s -> Py.nonempty s = true.
Proof.
  induction elems as [|e l IH]; [discriminate|]. simpl.
  destruct (passage_text e) eqn:E; [|exact IH].
  intros [= <-]. eapply passage_text_nonempty; eauto.
Qed.

Lemma title_after_passage d t s :
  first_text (title_elements d) = Some s -> title_after d t = Some s.
Proof.
  intros H. unfold title_after. rewrite H. cbv zeta.
  simpl. now rewrite (first_text_nonempty _ _ H).
Qed.

Lemma title_after_kept d s :
  first_text (title_elements d) = None -> Py.nonempty s = true ->
  title_after d (Some s) = Some s.
Proof. intros H Hs. unfold title_after. rewrite H. simpl. now rewrite Hs. Qed.

Lemma title_last_passage before d after s t :
  first_text (title_elements d) = Some s ->
  Forall (fun d' => first_text (title_elements d') = None) after ->
  fold_left (fun t d => title_after d t) (before ++ d :: after) t = Some s.
Proof.
  intros Hd Hafter. rewrite fold_left_app. cbn [fold_left].
  rewrite (title_after_passage _ _ _ Hd).
  pose proof (first_text_nonempty _ _ Hd) as Hs.
  induction Hafter as [|d' after Hd' _ IH]; [reflexivity|].
  cbn [fold_left]. now rewrite title_after_kept.
Qed.

(** C3 (as the code has it): in a response with several documents, for
    a paper that is returned, the abstract is the space-joined text of
    the abstract passages taken document by document, and within a
    document first those found by the [section_type] query, then those
    found by the [type] query (a passage found by both is joined twice);
    the figure captions are those of all documents, document by
    document, within a document in the order of the four figure queries;
    and the title passage of a later document replaces whatever title
    was found before it. *)
Theorem documents_are_merged pmc_id root w p w' :
  parse_bioc cfg env pmc_id root w = (Ok (Some p), w') ->
  abstract p
  = String.concat " "
      (flat_map (fun d => texts_of (ET.findall_passages "section_type" "ABSTRACT" d)
                          ++ texts_of (ET.findall_passages "type" "abstract" d))
                (documents_of root))
  /\ map caption (figures p)
     = flat_map (fun d => texts_of (ET.findall_passages "section_type" "FIG" d)
                          ++ texts_of (ET.findall_passages "section_type" "FIGURE" d)
                          ++ texts_of (ET.findall_passages "type" "fig" d)
                          ++ texts_of (ET.findall_passages "type" "figure-caption" d))
                (documents_of root)
  /\ (forall before d after s,
         documents_of root = before ++ d :: after ->
         first_text (ET.findall_passages "section_type" "TITLE" d
                     ++ ET.findall_passages "type" "title" d) = Some s ->
         Forall (fun d' => first_text (ET.findall_passages "section_type" "TITLE" d'
                                       ++ ET.findall_passages "type" "title" d')
                           = None) after ->
         title p = s).
Proof.
  intros H.
  destruct (parse_bioc_Some _ _ _ _ _ H) as (evs & _ & _ & Ht & Ha & Hf & _).
  split.
  { rewrite Ha, abstract_joined. f_equal. apply flat_map_ext. intros d.
    unfold abstract_texts, abstract_elements. apply texts_of_app. }
  split.
  { rewrite Hf. apply flat_map_ext. intros d.
    unfold figure_captions, figure_elements. now rewrite !texts_of_app. }
  intros before d after s Hdocs Hd Hafter.
  unfold final_title in Ht. cbv zeta in Ht.
  rewrite Hdocs, (title_last_passage before d after s _ Hd Hafter) in Ht.
  simpl in Ht. rewrite (first_text_nonempty _ _ Hd) in Ht. now inversion Ht.
Qed.

(** [fetch_bioc_paper] returns a document only out of [parse_bioc] *)
Lemma fetch_Some pmc_id w p w' :
  fetch_bioc_paper cfg env pmc_id "xml" "unicode" w = (Ok (Some p), w') ->
  exists resp root evs,
    document_response cfg env pmc_id w = Ok resp
    /\ body resp = Ok root
    /\ parse_bioc cfg env (ensure_prefix_exact pmc_id) root
                  (add_events w (EvHttpGet (document_url cfg pmc_id) :: evs))
       = (Ok (Some p), w').
Proof.
  unfold fetch_bioc_paper, document_response, document_url. cbv zeta.
  set (url := bioc_url _ _ _ _). unfold try_except.
  match goal with |- (match ?m w with _ => _ end) = _ -> _ =>
    destruct (m w) as [[a|e] w1] eqn:E end.
  2:{ simpl. unfold ret. destruct (is_HTTPError e); discriminate. }
  intros H. inversion H; subst. clear H.
  apply bind_Ok_inv in E. destruct E as ([] & x1 & E1 & E).
  apply emit_inv in E1. subst x1.
  apply bind_Ok_inv in E. destruct E as (r & x2 & E2 & E).
  apply ask_inv in E2. destruct E2 as [-> ->].
  apply bind_Ok_inv in E. destruct E as (resp & x3 & E3 & E).
  apply lift_inv in E3. destruct E3 as [E3 ->].
  apply bind_Ok_inv in E. destruct E as ([] & x4 & E4 & E).
  assert (x4 = add_events w [EvHttpGet url]).
  { revert E4. unfold raise_for_status.
    destruct (_ && _); [discriminate|]. now intros [= <-]. }
  subst x4.
  apply bind_Ok_inv in E. destruct E as ([] & x5 & E5 & E).
  assert (x5 = add_events w ([EvHttpGet url]
                               ++ [EvWrite (ensure_prefix_exact pmc_id ++ "_response.xml")
                                           None])).
  { revert E5. unfold write_text.
    intros E5. apply bind_Ok_inv in E5. destruct E5 as ([] & y1 & F1 & F).
    apply emit_inv in F1. subst y1.
    apply bind_Ok_inv in F. destruct F as (r' & y2 & F2 & F).
    apply ask_inv in F2. destruct F2 as [-> ->].
    apply lift_inv in F. destruct F as [_ ->]. now rewrite add_events_app. }
  subst x5. cbn [String.eqb Ascii.eqb Bool.eqb] in E.
  apply bind_Ok_inv in E. destruct E as (root & x6 & E6 & E).
  apply lift_inv in E6. destruct E6 as [E6 ->].
  exists resp, root, [EvWrite (ensure_prefix_exact pmc_id ++ "_response.xml") None].
  cbn [trace add_events] in E3. auto.
Qed.

End Parsing.

Section FetchFailures.

Context (cfg : Config).

(** Passages without text add no figure and ask for no annotation *)
Lemma add_figures_silent env elems :
  texts_of elems = [] ->
  forall figs w, for_each elems (add_figure cfg env) figs w = (Ok figs, w).
Proof.
  induction elems as [|e elems IH]; intros Hnone figs w; cbn [for_each].
  - reflexivity.
  - rewrite texts_of_cons in Hnone. apply app_eq_nil in Hnone as [He Hrest].
    unfold bind, add_figure. unfold texts_of in He. cbn [flat_map] in He.
    destruct (passage_text e); [discriminate He|].
    unfold ret. now apply IH.
Qed.

Lemma parse_documents_silent env docs :
  flat_map figure_captions docs = [] ->
  forall st w,
    snd (for_each docs (parse_document cfg env) st w) = w
    /\ exists st', fst (for_each docs (parse_document cfg env) st w) = Ok st'.
Proof.
  induction docs as [|d docs IH]; intros Hnone st w; cbn [for_each].
  - split; [reflexivity|]. now exists st.
  - cbn [flat_map] in Hnone. apply app_eq_nil in Hnone as [Hd Hrest].
    unfold bind, parse_document. cbv zeta. unfold bind.
    rewrite (add_figures_silent env _ Hd). unfold ret. now apply IH.
Qed.

(** Parsing a response without figure captions has no effect *)
Lemma parse_bioc_silent env pmc_id root w :
  flat_map figure_captions (documents_of root) = [] ->
  snd (parse_bioc cfg env pmc_id root w) = w.
Proof.
  intros Hnone. unfold parse_bioc. cbv zeta. unfold bind.
  destruct (parse_documents_silent env _ Hnone
              {| st_title := Some ""; st_abstract := ""; st_figures := [] |} w)
    as (Hw & st' & Hst).
  fold (documents_of root).
  destruct (for_each (documents_of root) (parse_document cfg env) _ w) as [r w1].
  cbn [fst snd] in Hw, Hst. subst r w1.
  destruct (if negb (truthy (st_title st')) then _ else _) as [t|]; [|reflexivity].
  destruct (_ || _); reflexivity.
Qed.

(** C2 (as the code has it): a not-found answer of the service and an
    answer from which nothing can be extracted both make
    [fetch_bioc_paper] return [None], and make the pipeline raise the
    same [ValueError]: the caller cannot tell them apart by what it is
    handed.  The two runs differ in what they do: after the request, the
    second saves the response in the file named after the identifier
    (whether or not the file can be written), the first does not. *)
Theorem fetch_failures_are_not_told_apart env1 env2 raw w1 w2 resp1 resp2 root :
  document_response cfg env1 raw w1 = Ok resp1 ->
  status_code resp1 = 404 ->
  document_response cfg env2 raw w2 = Ok resp2 ->
  status_code resp2 < 400 ->
  body resp2 = Ok root ->
  nothing_extracted root ->
  fetch_bioc_paper cfg env1 raw "xml" "unicode" w1
  = (Ok None, add_events w1 [EvHttpGet (document_url cfg raw)])
  /\ fetch_bioc_paper cfg env2 raw "xml" "unicode" w2
     = (Ok None,
        add_events w2 [EvHttpGet (document_url cfg raw);
                       EvWrite (ensure_prefix_exact raw ++ "_response.xml") None])
  /\ (Py.startswith (Py.upper raw) "PMC" = true ->
      process_paper_id cfg env1 raw w1
      = (Raise (ValueError ("Failed to fetch paper with ID: " ++ raw)),
         add_events w1 [EvHttpGet (document_url cfg raw)])
      /\ process_paper_id cfg env2 raw w2
         = (Raise (ValueError ("Failed to fetch paper with ID: " ++ raw)),
            add_events w2 [EvHttpGet (document_url cfg raw);
                           EvWrite (ensure_prefix_exact raw ++ "_response.xml")
                                   None])).
Proof.
  intros R1 S1 R2 S2 B2 Hnothing.
  assert (F1 : fetch_bioc_paper cfg env1 raw "xml" "unicode" w1
               = (Ok None, add_events w1 [EvHttpGet (document_url cfg raw)])).
  { revert R1. unfold fetch_bioc_paper, document_response, document_url. cbv zeta.
    set (url := bioc_url _ _ _ _). intros R1.
    unfold try_except, bind at 1. rewrite emit_run.
    unfold bind at 1, ask at 1. cbn [trace add_events]. rewrite R1.
    unfold bind at 1, lift at 1. unfold bind at 1, raise_for_status.
    rewrite S1. reflexivity. }
  assert (V2 : fst (fetch_bioc_paper cfg env2 raw "xml" "unicode" w2) = Ok None).
  { destruct (fetch_bioc_paper cfg env2 raw "xml" "unicode" w2) as [[[p|]|e] w'] eqn:E.
    - exfalso. destruct (fetch_Some _ _ _ _ _ _ E) as (resp & root' & evs & R & B & P).
      rewrite R2 in R. inversion R; subst resp.
      rewrite B2 in B. inversion B; subst root'.
      destruct (parse_bioc_Some _ _ _ _ _ _ _ P)
        as (evs' & _ & _ & Ht & Ha & Hf & _ & Hcond).
      destruct Hnothing as (Nt & Na & Nf).
      rewrite Ht in Nt. simpl in Nt. rewrite Nt in Hcond.
      rewrite Ha, abstract_joined, Na in Hcond. rewrite Nf in Hf.
      destruct (figures p); [discriminate|discriminate].
    - reflexivity.
    - exfalso. revert E. unfold fetch_bioc_paper, try_except.
      destruct (bind _ _ w2) as [[a|e'] w'']; [now inversion 1|].
      simpl. unfold ret. destruct (is_HTTPError e'); discriminate. }
  assert (W2 : snd (fetch_bioc_paper cfg env2 raw "xml" "unicode" w2)
               = add_events w2 [EvHttpGet (document_url cfg raw);
                                EvWrite (ensure_prefix_exact raw ++ "_response.xml")
                                        None]).
  { clear V2. revert R2.
    unfold fetch_bioc_paper, document_response, document_url. cbv zeta.
    set (url := bioc_url _ _ _ _). intros R2.
    unfold try_except, bind at 1. rewrite emit_run.
    unfold bind at 1, ask at 1. cbn [trace add_events]. rewrite R2.
    unfold bind at 1, lift at 1. unfold bind at 1, raise_for_status.
    replace (400 <=? status_code resp2) with false
      by (symmetry; apply Nat.leb_gt; exact S2).
    cbn [andb]. unfold ret at 1.
    unfold bind at 1, write_text, bind at 1. rewrite emit_run.
    unfold bind at 1, ask at 1. rewrite add_events_app. cbn [app].
    destruct (write_file env2 _ _) as [[]|e]; unfold lift.
    - cbn [String.eqb Ascii.eqb Bool.eqb]. rewrite B2. unfold bind.
      pose proof (parse_bioc_silent env2 (ensure_prefix_exact raw) root
                    (add_events w2 [EvHttpGet url;
                                    EvWrite (ensure_prefix_exact raw ++ "_response.xml")
                                            None])
                    (proj2 (proj2 Hnothing))) as Hs.
      destruct (parse_bioc cfg env2 _ root _) as [[a|e] w']; cbn [snd] in Hs;
        subst w'; [reflexivity|].
      cbn [any_Exception]. destruct (is_HTTPError e); reflexivity.
    - unfold bind. cbn [any_Exception]. destruct (is_HTTPError e); reflexivity. }
  assert (F2 : fetch_bioc_paper cfg env2 raw "xml" "unicode" w2
               = (Ok None,
                  add_events w2 [EvHttpGet (document_url cfg raw);
                                 EvWrite (ensure_prefix_exact raw ++ "_response.xml")
                                         None])).
  { rewrite (surjective_pairing (fetch_bioc_paper _ _ _ _ _ _)). now rewrite V2, W2. }
  split; [exact F1|]. split; [exact F2|].
  intros Hp. unfold process_paper_id.
  rewrite (bind_Ok _ _ _ _ _ (resolve_prefixed env1 raw w1 Hp)).
  rewrite (bind_Ok _ _ _ _ _ (resolve_prefixed env2 raw w2 Hp)).
  unfold bind. rewrite F1, F2. split; reflexivity.
Qed.

End FetchFailures.

(** A not-found answer next to an empty collection *)
Lemma fetch_failures_are_not_told_apart_witness :
  fetch_bioc_paper cfg_on env_not_found "PMC1" "xml" "unicode" w0
  = (Ok None, add_events w0 [EvHttpGet (document_url cfg_on "PMC1")])
  /\ fetch_bioc_paper cfg_on env_empty "PMC1" "xml" "unicode" w0
     = (Ok None,
        add_events w0 [EvHttpGet (document_url cfg_on "PMC1");
                       EvWrite (ensure_prefix_exact "PMC1" ++ "_response.xml") None])
  /\ (Py.startswith (Py.upper "PMC1") "PMC" = true ->
      process_paper_id cfg_on env_not_found "PMC1" w0
      = (Raise (ValueError ("Failed to fetch paper with ID: " ++ "PMC1")),
         add_events w0 [EvHttpGet (document_url cfg_on "PMC1")])
      /\ process_paper_id cfg_on env_empty "PMC1" w0
         = (Raise (ValueError ("Failed to fetch paper with ID: " ++ "PMC1")),
            add_events w0 [EvHttpGet (document_url cfg_on "PMC1");
                           EvWrite (ensure_prefix_exact "PMC1" ++ "_response.xml")
                                   None])).
Proof.
  apply (fetch_failures_are_not_told_apart cfg_on env_not_found env_empty "PMC1"
           w0 w0 answer_not_found (answer_of empty_collection) empty_collection).
  - reflexivity.
  - reflexivity.
  - reflexivity.
  - simpl. lia.
  - reflexivity.
  - repeat split; reflexivity.
Defined.

(** C2 as stated fails: the service answers 404 in one world and an empty
    collection in the other, and the fetch returns the same value, the
    pipeline raises the same exception; only the traces of the two runs
    differ, by the response file. *)
Lemma fetch_not_found_and_empty_coincide :
  status_code answer_not_found = 404
  /\ nothing_extracted empty_collection
  /\ fst (fetch_bioc_paper cfg_on env_not_found "PMC1" "xml" "unicode" w0)
     = fst (fetch_bioc_paper cfg_on env_empty "PMC1" "xml" "unicode" w0)
  /\ fst (process_paper_id cfg_on env_not_found "PMC1" w0)
     = fst (process_paper_id cfg_on env_empty "PMC1" w0)
  /\ trace (snd (fetch_bioc_paper cfg_on env_not_found "PMC1" "xml" "unicode" w0))
     = [EvHttpGet (bioc_url "" "xml" "PMC1" "unicode")]
  /\ trace (snd (fetch_bioc_paper cfg_on env_empty "PMC1" "xml" "unicode" w0))
     = [EvHttpGet (bioc_url "" "xml" "PMC1" "unicode");
        EvWrite "PMC1_response.xml" None].
Proof.
  split; [reflexivity|]. split; [repeat split; reflexivity|].
  repeat split; reflexivity.
Qed.

(** The two-document response *)
Lemma documents_are_merged_witness :
  abstract merged_two_documents
  = String.concat " "
      (flat_map (fun d => texts_of (ET.findall_passages "section_type" "ABSTRACT" d)
                          ++ texts_of (ET.findall_passages "type" "abstract" d))
                (documents_of two_documents))
  /\ map caption (figures merged_two_documents)
     = flat_map (fun d => texts_of (ET.findall_passages "section_type" "FIG" d)
                          ++ texts_of (ET.findall_passages "section_type" "FIGURE" d)
                          ++ texts_of (ET.findall_passages "type" "fig" d)
                          ++ texts_of (ET.findall_passages "type" "figure-caption" d))
                (documents_of two_documents)
  /\ (forall before d after s,
         documents_of two_documents = before ++ d :: after ->
         first_text (ET.findall_passages "section_type" "TITLE" d
                     ++ ET.findall_passages "type" "title" d) = Some s ->
         Forall (fun d' => first_text (ET.findall_passages "section_type" "TITLE" d'
                                       ++ ET.findall_passages "type" "title" d')
                           = None) after ->
         title merged_two_documents = s).
Proof.
  apply (documents_are_merged cfg_off env_offline "PMC1" two_documents w0
           merged_two_documents w0).
  reflexivity.
Defined.

(** Within a document the abstract follows the order of the two queries,
    not that of the passages; a passage found by both is joined twice. *)
Example abstract_follows_the_queries :
  parse_bioc cfg_off env_offline "PMC1" abstract_by_type_first w0
  = (Ok (Some {| pmcid := "PMC1"; title := "";
                 abstract := "Marked by section. Marked by type.";
                 figures := [] |}), w0)
  /\ parse_bioc cfg_off env_offline "PMC1" abstract_with_both_marks w0
     = (Ok (Some {| pmcid := "PMC1"; title := "";
                    abstract := "One. Two. One. Two.";
                    figures := [] |}), w0).
Proof. split; vm_compute; reflexivity. Qed.

(** C3 as stated fails: with two documents the fetch returns the title of
    the second and both abstracts, where first-found-wins asks for the
    title and the abstract of the first. *)
Lemma later_document_replaces_title_and_extends_abstract :
  fst (fetch_bioc_paper cfg_off env_two_documents "PMC1" "xml" "unicode" w0)
  = Ok (Some merged_two_documents)
  /\ spec_first_found_title (documents_of two_documents) = Some "First title"
  /\ spec_first_found_abstract (documents_of two_documents) = Some "First abstract."
  /\ Some (title merged_two_documents)
     <> spec_first_found_title (documents_of two_documents)
  /\ Some (abstract merged_two_documents)
     <> spec_first_found_abstract (documents_of two_documents).
Proof.
  repeat split; try reflexivity; vm_compute; discriminate.
Qed.

(** ** The pipeline *)

Section Pipeline.

Context (cfg : Config) (env : Env).

Lemma annotate_figure_run fig done w :
  exists fig' evs,
    annotate_figure cfg env fig done w = (Ok (done ++ [fig']), add_events w evs)
    /\ caption fig' = caption fig
    /\ (ENABLE_ENTITY_EXTRACTION cfg = true -> 20 < String.length (caption fig) ->
        In (EvHttpPost bern_url (caption fig)) evs)
    /\ (String.length (caption fig) <= 20 -> entities fig' = []).
Proof.
  unfold annotate_figure.
  destruct (20 <? String.length (caption fig)) eqn:Hlen.
  - apply Nat.ltb_lt in Hlen.
    destruct (fetch_entities_run cfg env (caption fig) w) as (es & evs & Hrun & Hin).
    eexists _, evs.
    rewrite (bind_Ok _ _ _ _ _ (try_except_Ok _ _ _ _ _ _ Hrun)). unfold ret.
    split; [reflexivity|]. split; [reflexivity|].
    split; [intros En _; apply Hin; [assumption|lia]|lia].
  - apply Nat.ltb_ge in Hlen. eexists _, []. unfold ret. rewrite add_events_nil.
    split; [reflexivity|]. split; [reflexivity|]. split; [lia|reflexivity].
Qed.

Lemma annotate_figures_run figs : forall done w,
  exists new evs,
    for_each figs (annotate_figure cfg env) done w
    = (Ok (done ++ new), add_events w evs)
    /\ map caption new = map caption figs
    /\ forall fig, In fig new ->
         (ENABLE_ENTITY_EXTRACTION cfg = true -> 20 < String.length (caption fig) ->
          In (EvHttpPost bern_url (caption fig)) evs)
         /\ (String.length (caption fig) <= 20 -> entities fig = []).
Proof.
  induction figs as [|f figs IH]; intros done w.
  - exists [], []. simpl. unfold ret. rewrite app_nil_r, add_events_nil.
    split; [reflexivity|]. split; [reflexivity|]. intros fig [].
  - destruct (annotate_figure_run f done w) as (f' & ev1 & H1 & C1 & P1 & Q1).
    destruct (IH (done ++ [f']) (add_events w ev1)) as (n2 & ev2 & H2 & C2 & P2).
    exists (f' :: n2), (ev1 ++ ev2). cbn [for_each].
    rewrite (bind_Ok _ _ _ _ _ H1), H2, add_events_app, <- app_assoc.
    split; [reflexivity|]. split; [simpl; now rewrite C1, C2|].
    intros fig [<-|Hin].
    + rewrite C1. split; [|exact Q1].
      intros En Hl. apply in_or_app. left. auto.
    + destruct (P2 fig Hin) as [A B]. split; [|exact B].
      intros En Hl. apply in_or_app. right. auto.
Qed.

Lemma annotate_paper_run data w :
  ENABLE_ENTITY_EXTRACTION cfg = true ->
  exists data' evs,
    annotate_paper cfg env data w = (Ok data', add_events w evs)
    /\ map caption (figures data') = map caption (figures data)
    /\ forall fig, In fig (figures data') ->
         (20 < String.length (caption fig) ->
          In (EvHttpPost bern_url (caption fig)) evs)
         /\ (String.length (caption fig) <= 20 -> entities fig = []).
Proof.
  intros En. unfold annotate_paper. rewrite En.
  destruct (figures data) as [|f figs] eqn:Hf.
  - exists data, []. simpl. unfold ret. rewrite add_events_nil, Hf.
    split; [reflexivity|]. split; [reflexivity|]. intros fig [].
  - cbn [List.length Nat.eqb negb andb].
    destruct (annotate_figures_run (f :: figs) [] w) as (new & evs & Hrun & Hc & Hp).
    eexists _, evs. rewrite (bind_Ok _ _ _ _ _ Hrun). unfold ret.
    split; [reflexivity|]. cbn [figures app]. split; [exact Hc|].
    intros fig Hin. destruct (Hp fig Hin) as [A B]. auto.
Qed.

(** The stages of a successful run of [process_paper_id] *)
Lemma process_paper_id_Ok raw w doc w' :
  process_paper_id cfg env raw w = (Ok doc, w') ->
  exists pmc w1 fetched w2 w3 w4 w5,
    resolve_paper_id env raw w = (Ok pmc, w1)
    /\ fetch_bioc_paper cfg env pmc "xml" "unicode" w1 = (Ok (Some fetched), w2)
    /\ annotate_paper cfg env fetched w2 = (Ok doc, w3)
    /\ init_db cfg env w3 = (Ok tt, w4)
    /\ insert_paper env doc w4 = (Ok tt, w5)
    /\ w' = add_events w5 [EvDbClose].
Proof.
  unfold process_paper_id. intros H.
  apply bind_Ok_inv in H. destruct H as (pmc & w1 & H1 & H).
  apply bind_Ok_inv in H. destruct H as ([fetched|] & w2 & H2 & H); [|discriminate].
  apply bind_Ok_inv in H. destruct H as (d & w3 & H3 & H).
  apply bind_Ok_inv in H. destruct H as ([] & w4 & H4 & H).
  apply bind_Ok_inv in H. destruct H as ([] & w5 & H5 & H).
  apply bind_Ok_inv in H. destruct H as ([] & w6 & H6 & H).
  apply emit_inv in H6. apply ret_inv in H. destruct H as [-> ->]. subst w6.
  exists pmc, w1, fetched, w2, w3, w4, w5. auto 10.
Qed.

(** C9: with entity extraction enabled, every figure of the returned
    document whose caption has at least 20 characters was sent to the
    annotation service during the fetch; if the caption is longer than 20
    characters it is sent again after the fetch; and a caption of exactly
    20 characters (or less) ends with an empty entity list, whatever the
    first round returned. *)
Theorem captions_are_annotated_in_two_rounds raw w doc w' :
  ENABLE_ENTITY_EXTRACTION cfg = true ->
  process_paper_id cfg env raw w = (Ok doc, w') ->
  exists pmc w1 fetched w2 evs_fetch evs_after,
    resolve_paper_id env raw w = (Ok pmc, w1)
    /\ fetch_bioc_paper cfg env pmc "xml" "unicode" w1 = (Ok (Some fetched), w2)
    /\ trace w2 = trace w1 ++ evs_fetch
    /\ trace w' = trace w2 ++ evs_after
    /\ map caption (figures doc) = map caption (figures fetched)
    /\ forall fig, In fig (figures doc) ->
         (20 <= String.length (caption fig) ->
          In (EvHttpPost bern_url (caption fig)) evs_fetch)
         /\ (20 < String.length (caption fig) ->
             In (EvHttpPost bern_url (caption fig)) evs_after)
         /\ (String.length (caption fig) <= 20 -> entities fig = []).
Proof.
  intros En H.
  destruct (process_paper_id_Ok _ _ _ _ H)
    as (pmc & w1 & fetched & w2 & w3 & w4 & w5 & H1 & H2 & H3 & H4 & H5 & ->).
  destruct (fetch_Some _ _ _ _ _ _ H2) as (resp & root & evs0 & _ & _ & Hp).
  destruct (parse_bioc_Some _ _ _ _ _ _ _ Hp)
    as (evsp & Hw2 & _ & _ & _ & _ & Hposts & _).
  destruct (annotate_paper_run fetched w2 En) as (d' & evsa & Ha & Hc & Hfig).
  rewrite Ha in H3. inversion H3; subst d' w3. clear H3.
  destruct (emits_init_db cfg env _ _ _ H4) as (evs4 & T4 & _).
  destruct (emits_insert_paper env doc _ _ _ H5) as (evs5 & T5 & _).
  exists pmc, w1, fetched, w2,
    ((EvHttpGet (document_url cfg pmc) :: evs0) ++ evsp),
    (evsa ++ evs4 ++ evs5 ++ [EvDbClose]).
  split; [exact H1|]. split; [exact H2|].
  split; [subst w2; simpl; now rewrite <- app_assoc|].
  split; [simpl; rewrite T5, T4; simpl; now rewrite <- !app_assoc|].
  split; [exact Hc|].
  intros fig Hin. destruct (Hfig fig Hin) as [A B].
  split; [|split; [|exact B]].
  - intros Hl. apply in_or_app. right. apply Hposts; auto.
    rewrite <- Hc. now apply in_map.
  - intros Hl. apply in_or_app. left. auto.
Qed.

(** C10: if the upsert raises, [insert_paper] still returns normally and
    leaves the tables as they were; the pipeline returns the document; and
    both callers, the watcher's loop body and the [/extract] handler,
    record a success. *)
Theorem storage_failure_is_swallowed raw w pmc fetched doc w1 w2 w3 w4 w5 e :
  resolve_paper_id env raw w = (Ok pmc, w1) ->
  fetch_bioc_paper cfg env pmc "xml" "unicode" w1 = (Ok (Some fetched), w2) ->
  annotate_paper cfg env fetched w2 = (Ok doc, w3) ->
  init_db cfg env w3 = (Ok tt, w4) ->
  conn_execute env upsert_sql (Sql.upsert_publication (row_of_paper doc)) w4
  = (Raise e, w5) ->
  insert_paper env doc w4 = (Ok tt, w5)
  /\ db w5 = db w4
  /\ stored_rows (pmcid doc) (db w5) = stored_rows (pmcid doc) (db w4)
  /\ process_paper_id cfg env raw w = (Ok doc, add_events w5 [EvDbClose])
  /\ (forall id counts,
         process_one cfg env {| info_id := id; info_pmcid := raw |} counts w
         = (Ok (fst counts + 1, snd counts), add_events w5 [EvDbClose]))
  /\ (forall w_before,
         stored_note env raw w_before = (Ok None, w) ->
         extract_one cfg env raw w_before
         = (Ok {| resp_id := raw; resp_status := "success";
                  resp_error := None; resp_note := None |},
            add_events w5 [EvDbClose])).
Proof.
  intros H1 H2 H3 H4 H5.
  assert (Hins : insert_paper env doc w4 = (Ok tt, w5)).
  { unfold insert_paper. fold upsert_sql.
    now rewrite (try_except_Raise _ _ _ _ _ _ H5 eq_refl). }
  assert (Hdb : db w5 = db w4).
  { now rewrite (conn_execute_Raise env _ _ _ _ _ H5). }
  assert (Hrun : process_paper_id cfg env raw w = (Ok doc, add_events w5 [EvDbClose])).
  { unfold process_paper_id.
    rewrite (bind_Ok _ _ _ _ _ H1), (bind_Ok _ _ _ _ _ H2), (bind_Ok _ _ _ _ _ H3),
      (bind_Ok _ _ _ _ _ H4), (bind_Ok _ _ _ _ _ Hins).
    reflexivity. }
  split; [exact Hins|]. split; [exact Hdb|].
  split; [now rewrite Hdb|]. split; [exact Hrun|]. split.
  - intros id counts. unfold process_one. cbn [info_pmcid].
    erewrite try_except_Ok; [reflexivity|].
    now rewrite (bind_Ok _ _ _ _ _ Hrun).
  - intros w_before Hnote. unfold extract_one.
    erewrite try_except_Ok; [reflexivity|].
    rewrite (bind_Ok _ _ _ _ _ Hnote). now rewrite (bind_Ok _ _ _ _ _ Hrun).
Qed.

End Pipeline.

(** The one-document response with the annotation service up *)
Lemma captions_are_annotated_in_two_rounds_witness :
  exists pmc w1 fetched w2 evs_fetch evs_after,
    resolve_paper_id env_one_document "PMC1" w0 = (Ok pmc, w1)
    /\ fetch_bioc_paper cfg_on env_one_document pmc "xml" "unicode" w1
       = (Ok (Some fetched), w2)
    /\ trace w2 = trace w1 ++ evs_fetch
    /\ trace (snd (process_paper_id cfg_on env_one_document "PMC1" w0))
       = trace w2 ++ evs_after
    /\ map caption (figures annotated_one_document) = map caption (figures fetched)
    /\ forall fig, In fig (figures annotated_one_document) ->
         (20 <= String.length (caption fig) ->
          In (EvHttpPost bern_url (caption fig)) evs_fetch)
         /\ (20 < String.length (caption fig) ->
             In (EvHttpPost bern_url (caption fig)) evs_after)
         /\ (String.length (caption fig) <= 20 -> entities fig = []).
Proof.
  apply (captions_are_annotated_in_two_rounds cfg_on env_one_document "PMC1" w0
           annotated_one_document
           (snd (process_paper_id cfg_on env_one_document "PMC1" w0))).
  - reflexivity.
  - vm_compute. reflexivity.
Defined.

(** The caption of exactly 20 characters: one request during the fetch,
    none afterwards, and the entities it gave are gone from the result;
    the longer caption is sent twice. *)
Example caption_of_20_characters_run :
  String.length caption20 = 20
  /\ fst (fetch_bioc_paper cfg_on env_one_document "PMC1" "xml" "unicode" w0)
     = Ok (Some fetched_one_document)
  /\ process_paper_id cfg_on env_one_document "PMC1" w0
     = (Ok annotated_one_document,
        {| trace :=
             [EvHttpGet (document_url cfg_on "PMC1");
              EvWrite "PMC1_response.xml" None;
              EvHttpPost bern_url caption20;
              EvHttpPost bern_url caption_long;
              EvHttpPost bern_url caption_long;
              EvMakedirs "data/store.db"; EvDbConnect;
              EvDbExecute "CREATE TABLE IF NOT EXISTS publications";
              EvDbExecute upsert_sql; EvDbClose];
           db := {| publications := Some [row_of_paper annotated_one_document];
                    pmid_to_pmcid := None |} |}).
Proof. repeat split; vm_compute; reflexivity. Qed.

(** A run on [PMC1] in which the database refuses the upsert *)
Lemma storage_failure_is_swallowed_witness :
  insert_paper env_upsert_fails annotated_one_document w_connected = (Ok tt, w_refused)
  /\ db w_refused = db w_connected
  /\ stored_rows (pmcid annotated_one_document) (db w_refused)
     = stored_rows (pmcid annotated_one_document) (db w_connected)
  /\ process_paper_id cfg_on env_upsert_fails "PMC1" w0
     = (Ok annotated_one_document, add_events w_refused [EvDbClose])
  /\ (forall id counts,
         process_one cfg_on env_upsert_fails
                     {| info_id := id; info_pmcid := "PMC1" |} counts w0
         = (Ok (fst counts + 1, snd counts), add_events w_refused [EvDbClose]))
  /\ (forall w_before,
         stored_note env_upsert_fails "PMC1" w_before = (Ok None, w0) ->
         extract_one cfg_on env_upsert_fails "PMC1" w_before
         = (Ok {| resp_id := "PMC1"; resp_status := "success";
                  resp_error := None; resp_note := None |},
            add_events w_refused [EvDbClose])).
Proof.
  apply (storage_failure_is_swallowed cfg_on env_upsert_fails "PMC1" w0 "PMC1"
           fetched_one_document annotated_one_document
           w0 w_fetched w_annotated w_connected w_refused
           (OtherException "IO Error: could not write to the database file")).
  - reflexivity.
  - vm_compute. reflexivity.
  - vm_compute. reflexivity.
  - vm_compute. reflexivity.
  - vm_compute. reflexivity.
Defined.

(** With the upsert refused nothing is stored, and the run still succeeds *)
Example upsert_refused_run :
  fst (process_paper_id cfg_on env_upsert_fails "PMC1" w0) = Ok annotated_one_document
  /\ publications (db (snd (process_paper_id cfg_on env_upsert_fails "PMC1" w0)))
     = Some [].
Proof. split; vm_compute; reflexivity. Qed.

(** ** The mapping-file import *)

Lemma select_fold_upsert_other k rows : forall t,
  Forall (fun r => fst r <> k) rows ->
  Sql.select_where fst k (fold_left upsert_row rows t) = Sql.select_where fst k t.
Proof.
  induction rows as [|r rows IH]; intros t Hr; [reflexivity|].
  inversion Hr; subst. cbn [fold_left]. rewrite IH by assumption.
  unfold upsert_row. apply select_insert_other. congruence.
Qed.

(** The last row inserted under a key is the one found *)
Lemma select_fold_upsert_last k v before after t :
  Forall (fun r => fst r <> k) after ->
  Sql.select_where fst k (fold_left upsert_row (before ++ (k, v) :: after) t)
  = [(k, v)].
Proof.
  intros Hafter. rewrite fold_left_app. cbn [fold_left].
  rewrite select_fold_upsert_other by assumption.
  unfold upsert_row. apply (select_insert_same fst (k, v)).
Qed.

Lemma mappings_of_app a b : mappings_of (a ++ b) = mappings_of a ++ mappings_of b.
Proof. unfold mappings_of. apply flat_map_app. Qed.

Lemma mappings_of_cons l ls :
  mappings_of (l :: ls)
  = match mapping_of_line l with Some m => [m] | None => [] end ++ mappings_of ls.
Proof. reflexivity. Qed.

Lemma mappings_of_no_key k lines :
  Forall (fun l => line_pmid l <> Some k) lines ->
  Forall (fun r => fst r <> k) (mappings_of lines).
Proof.
  induction 1 as [|l lines Hl _ IH]; [constructor|].
  rewrite mappings_of_cons. unfold line_pmid in Hl.
  destruct (mapping_of_line l) as [m|]; simpl; [|exact IH].
  constructor; [congruence|exact IH].
Qed.

(** ** The batch watcher *)

Lemma returns_ret {A} (Q : A -> Prop) a : Q a -> returns Q (ret a).
Proof. intros HQ w b w' H. apply ret_inv in H. now destruct H as [-> _]. Qed.

Lemma returns_bind {A B} (Q : B -> Prop) (m : M A) (k : A -> M B) :
  (forall a, returns Q (k a)) -> returns Q (bind m k).
Proof.
  intros Hk w b w' H. apply bind_Ok_inv in H.
  destruct H as (a & w1 & _ & H). eapply Hk; eauto.
Qed.

Ltac returns_step :=
  match goal with
  | |- returns _ (ret _) => apply returns_ret
  | |- returns _ (bind _ _) => apply returns_bind; intro
  | |- returns _ (if ?b then _ else _) => destruct b
  | |- returns _ (match ?x with _ => _ end) => destruct x
  | |- returns _ (let _ := _ in _) => cbv zeta
  end.

(** A loop whose rounds always return and each add [weight x] to a
    measure of the loop variables *)
Lemma for_each_always {A S} (measure : S -> nat) (weight : A -> nat)
      (body : A -> S -> M S) (l : list A) :
  (forall x s, always_returns (fun s' => measure s' = measure s + weight x)
                              (body x s)) ->
  forall s, always_returns (fun s' => measure s' = measure s + sum (map weight l))
                           (for_each l body s).
Proof.
  intros Hb. induction l as [|x l IH]; intros s w.
  - exists s, w. simpl. unfold ret. split; [reflexivity|lia].
  - destruct (Hb x s w) as (s1 & w1 & H1 & M1).
    destruct (IH s1 w1) as (s2 & w2 & H2 & M2).
    exists s2, w2. cbn [for_each]. rewrite (bind_Ok _ _ _ _ _ H1).
    split; [exact H2|]. simpl. lia.
Qed.

Lemma sum_ones {A} (l : list A) : sum (map (fun _ => 1) l) = List.length l.
Proof. induction l; simpl; auto. Qed.

(** The slices taken by the batch loop cover the list once *)
Lemma sum_slices {A} (l : list A) step : 0 < step -> forall fuel i,
  List.length l - i <= fuel ->
  sum (map (fun i => List.length (Py.slice l i step))
           (Py.range_from fuel i (List.length l) step))
  = List.length l - i.
Proof.
  intros Hstep. induction fuel as [|fuel IH]; intros i Hfuel.
  - simpl. lia.
  - cbn [Py.range_from]. destruct (i <? List.length l) eqn:Hi.
    + apply Nat.ltb_lt in Hi. cbn [map sum].
      rewrite IH by lia. unfold Py.slice.
      rewrite length_firstn, length_skipn. lia.
    + apply Nat.ltb_ge in Hi. simpl. lia.
Qed.

Lemma append_inj_l (p a b : string) : (p ++ a = p ++ b)%string -> a = b.
Proof.
  induction p as [|c p IH]; simpl; [trivial|]. intros H. injection H as H. auto.
Qed.

Section Watcher.

Context (cfg : Config) (env : Env).

Lemma check_paper_always paper_id st :
  always_returns (fun st' => sorted_out st' = sorted_out st + 1)
                 (check_paper cfg env paper_id st).
Proof.
  intros w. unfold check_paper. cbv zeta. unfold try_except.
  match goal with |- context [match ?m w with _ => _ end] =>
    assert (Hret : returns (fun st' => sorted_out st' = sorted_out st + 1) m);
    [|destruct (m w) as [[st'|e] w'] eqn:E]
  end.
  - repeat returns_step; unfold sorted_out; simpl; rewrite length_app; simpl; lia.
  - exists st', w'. split; [reflexivity|]. eapply Hret; eauto.
  - eexists _, w'. simpl. unfold ret. split; [reflexivity|].
    unfold sorted_out. simpl. rewrite length_app. simpl. lia.
Qed.

Lemma check_available_papers_always paper_ids :
  always_returns (fun st => sorted_out st = List.length paper_ids)
                 (check_available_papers cfg env paper_ids).
Proof.
  intros w. unfold check_available_papers.
  destruct (for_each_always sorted_out (fun _ => 1) (check_paper cfg env) paper_ids
              (check_paper_always) ([], []) w) as (st & w' & H & Hm).
  exists st, w'. split; [exact H|]. rewrite Hm, sum_ones. reflexivity.
Qed.

Lemma process_one_always info counts :
  always_returns (fun c => handled c = handled counts + 1)
                 (process_one cfg env info counts).
Proof.
  intros w. unfold process_one, try_except, bind.
  destruct (process_paper_id cfg env (info_pmcid info) w) as [[d|e] w'].
  - eexists _, w'. unfold ret. split; [reflexivity|]. unfold handled. simpl. lia.
  - eexists _, w'. simpl. unfold ret. split; [reflexivity|].
    unfold handled. simpl. lia.
Qed.

(** The two nested loops over the available papers *)
Lemma batches_always (available : list paper_info) starts :
  always_returns
    (fun c => handled c
              = sum (map (fun i => List.length
                                     (Py.slice available i (Z.to_nat (BATCH_SIZE cfg))))
                         starts))
    (for_each starts
       (fun i counts =>
          for_each (Py.slice available i (Z.to_nat (BATCH_SIZE cfg)))
                   (process_one cfg env) counts)
       (0, 0)).
Proof.
  intros w.
  destruct (for_each_always handled
              (fun i => List.length (Py.slice available i (Z.to_nat (BATCH_SIZE cfg))))
              (fun i counts =>
                 for_each (Py.slice available i (Z.to_nat (BATCH_SIZE cfg)))
                          (process_one cfg env) counts)
              starts) with (s := (0, 0)) (w := w) as (c & w' & H & Hm).
  - intros i s w1.
    destruct (for_each_always handled (fun _ => 1) (process_one cfg env)
                (Py.slice available i (Z.to_nat (BATCH_SIZE cfg)))
                (process_one_always) s w1) as (c & w' & H & Hm).
    exists c, w'. split; [exact H|]. now rewrite Hm, sum_ones.
  - exists c, w'. split; [exact H|]. exact Hm.
Qed.

Lemma emits_batches (available : list paper_info) starts counts :
  emits not_rename
    (for_each starts
       (fun i counts =>
          for_each (Py.slice available i (Z.to_nat (BATCH_SIZE cfg)))
                   (process_one cfg env) counts)
       counts).
Proof. emits_prog. Qed.

Lemma read_text_lines_run path w lines :
  read_lines env (trace w ++ [EvRead path]) path = Ok lines ->
  read_text_lines env path w = (Ok lines, add_events w [EvRead path]).
Proof.
  intros H. unfold read_text_lines, bind, ask, lift. rewrite emit_run.
  cbn [trace add_events]. now rewrite H.
Qed.

Lemma write_text_run path content w :
  (forall h, write_file env h path = Ok tt) ->
  write_text env path content w = (Ok tt, add_events w [EvWrite path content]).
Proof.
  intros H. unfold write_text, bind, ask, lift. rewrite emit_run. now rewrite H.
Qed.

Lemma rename_run src dst w :
  (forall h, os_rename env h src dst = Ok tt) ->
  rename env src dst w = (Ok tt, add_events w [EvRename src dst]).
Proof.
  intros H. unfold rename, bind, ask, lift. rewrite emit_run. now rewrite H.
Qed.

End Watcher.

(** The run of that file: the only available identifier fails in the
    pipeline and the file is still renamed with the completed suffix. *)
Example batch_with_failed_identifier :
  process_file cfg_on env_batch "watch/ids.txt" w0
  = (Ok tt,
     add_events w0
       [EvRead "watch/ids.txt"; EvGlob "PMC*_response.xml";
        EvHttpHead (bioc_url "" "xml" "PMC1" "unicode");
        EvHttpHead (bioc_url "" "xml" "PMC2" "unicode");
        EvHttpGet (bioc_url "" "xml" "PMC1" "unicode");
        EvWrite "watch/ids.txt.processed" (Some (summary 2 1 0 1 1));
        EvRename "watch/ids.txt" "watch/ids.txt.completed"]).
Proof. vm_compute. reflexivity. Qed.

(** Exceptions outside the loop over the identifiers: a file that cannot
    be read, and a batch size of zero, give the failed suffix. *)
Example unreadable_batch_file :
  process_file cfg_on env_offline "watch/ids.txt" w0
  = (Ok tt,
     add_events w0 [EvRead "watch/ids.txt";
                    EvRename "watch/ids.txt" "watch/ids.txt.failed"]).
Proof. vm_compute. reflexivity. Qed.

Example zero_batch_size :
  process_file cfg_zero_batch env_batch "watch/ids.txt" w0
  = (Ok tt,
     add_events w0
       [EvRead "watch/ids.txt"; EvGlob "PMC*_response.xml";
        EvHttpHead (bioc_url "" "xml" "PMC1" "unicode");
        EvHttpHead (bioc_url "" "xml" "PMC2" "unicode");
        EvRename "watch/ids.txt" "watch/ids.txt.failed"]).
Proof. vm_compute. reflexivity. Qed.

(** * Further properties *)

(** ** The fetcher *)

Lemma string_length_append (a b : string) :
  String.length (a ++ b) = String.length a + String.length b.
Proof. induction a as [|c a IH]; simpl; auto. Qed.

Section FetcherMore.

Context (cfg : Config) (env : Env).

Lemma try_any_never_raises {A} (m : M A) (h : exn -> M A) :
  (forall e, never_raises (h e)) -> never_raises (try_except m any_Exception h).
Proof.
  intros Hh w. unfold try_except. destruct (m w) as [[a|e] w']; [eauto|].
  simpl. apply Hh.
Qed.

(** X1: whatever the document service, the file system and the
    annotation service do, [fetch_bioc_paper] returns normally; a
    document it returns carries the identifier with the exact prefix and
    has a title, an abstract or a figure. *)
Theorem fetch_never_raises_and_returns_content pmc_id w :
  exists r w',
    fetch_bioc_paper cfg env pmc_id "xml" "unicode" w = (Ok r, w')
    /\ forall p, r = Some p ->
         pmcid p = ensure_prefix_exact pmc_id
         /\ Py.nonempty (title p) || Py.nonempty (abstract p)
            || negb (Nat.eqb (List.length (figures p)) 0) = true.
Proof.
  destruct (fetch_bioc_paper cfg env pmc_id "xml" "unicode" w) as [[r|e] w'] eqn:E.
  - exists r, w'. split; [reflexivity|]. intros p ->.
    destruct (fetch_Some _ _ _ _ _ _ E) as (resp & root & evs & _ & _ & P).
    destruct (parse_bioc_Some _ _ _ _ _ _ _ P) as (evs' & _ & Hid & _ & _ & _ & _ & Hc).
    auto.
  - exfalso. revert E. unfold fetch_bioc_paper, try_except.
    destruct (bind _ _ w) as [[a|e'] w'']; [discriminate|].
    simpl. unfold ret. destruct (is_HTTPError e'); discriminate.
Qed.

(** X2: when the request itself raises, whatever the exception, the fetch
    returns [None] having done nothing but the request: no file is
    written, nothing is parsed or annotated. *)
Theorem fetch_transport_failure pmc_id w e :
  document_response cfg env pmc_id w = Raise e ->
  fetch_bioc_paper cfg env pmc_id "xml" "unicode" w
  = (Ok None, add_events w [EvHttpGet (document_url cfg pmc_id)]).
Proof.
  unfold document_response, document_url, fetch_bioc_paper. cbv zeta.
  set (url := bioc_url _ _ _ _). intros H.
  unfold try_except, bind at 1. rewrite emit_run.
  unfold bind at 1, ask at 1. cbn [trace add_events]. rewrite H.
  unfold bind at 1, lift at 1. simpl. unfold ret. now destruct (is_HTTPError e).
Qed.

Lemma title_after_nothing d :
  first_text (title_elements d) = None -> document_title_infon d = None ->
  title_after d (Some "") = Some "".
Proof. intros H1 H2. unfold title_after. now rewrite H1, H2. Qed.

(** X3: when no document of the response has a title passage with text or
    an [article-title] attribute of its own, the title is the text of the
    first [article-title] attribute found anywhere in the response, and
    the response yields a document. *)
Theorem title_falls_back_to_collection pmc_id root w infon rest s :
  Forall (fun d => first_text (title_elements d) = None
                   /\ document_title_infon d = None) (documents_of root) ->
  ET.findall_infons "article-title" root = infon :: rest ->
  ET.text_of infon = Some s ->
  Py.nonempty s = true ->
  exists p w',
    parse_bioc cfg env pmc_id root w = (Ok (Some p), w') /\ title p = s.
Proof.
  intros Hdocs Hinf Htext Hs. unfold parse_bioc. cbv zeta.
  destruct (parse_documents_run cfg env (ET.descendants "document" root)
              {| st_title := Some ""; st_abstract := ""; st_figures := [] |} w)
    as (new & evs & Hrun & _).
  rewrite (bind_Ok _ _ _ _ _ Hrun). cbn [st_title st_abstract st_figures app].
  assert (Ht : fold_left (fun t d => title_after d t)
                         (ET.descendants "document" root) (Some "") = Some "").
  { unfold documents_of in Hdocs. revert Hdocs.
    generalize (ET.descendants "document" root). intros docs Hdocs.
    induction Hdocs as [|d docs [H1 H2] _ IH]; [reflexivity|].
    cbn [fold_left]. now rewrite title_after_nothing. }
  rewrite Ht, Hinf, Htext.
  change (negb (truthy (Some ""))) with true. cbv beta iota.
  rewrite Hs. simpl orb. cbv beta iota. unfold ret.
  eexists _, _. split; reflexivity.
Qed.

Lemma findall_children_app tg t a tx cs i tl :
  ET.findall_children tg (ET.Element t a tx (cs ++ [i]) tl)
  = ET.findall_children tg (ET.Element t a tx cs tl)
    ++ (if String.eqb (ET.tag_of i) tg then [i] else []).
Proof. unfold ET.findall_children. simpl. now rewrite filter_app. Qed.

(** X4: the address of a figure is the text of the last attribute named
    [url], [file] or [fig_url]: when the last child of the passage is such
    an attribute, it wins over all earlier ones. *)
Theorem figure_url_last_wins tg attrs tx cs tl i :
  ET.tag_of i = "infon" ->
  is_url_key (ET.get i "key") = true ->
  figure_url (ET.Element tg attrs tx (cs ++ [i]) tl) = ET.text_of i.
Proof.
  intros Htag Hkey. unfold figure_url. rewrite findall_children_app, Htag.
  simpl. rewrite fold_left_app. simpl. now rewrite Hkey.
Qed.

Lemma annotate_paper_pmcid data w d' w' :
  annotate_paper cfg env data w = (Ok d', w') -> pmcid d' = pmcid data.
Proof.
  unfold annotate_paper. destruct (_ && _).
  - intros H. apply bind_Ok_inv in H. destruct H as (figs & w1 & _ & H).
    apply ret_inv in H. destruct H as [-> _]. reflexivity.
  - intros H. apply ret_inv in H. now destruct H as [-> _].
Qed.

Lemma bioc_url_length key format a encoding b :
  String.length a <> String.length b ->
  bioc_url key format a encoding <> bioc_url key format b encoding.
Proof.
  intros Hlen Heq. apply (f_equal String.length) in Heq. unfold bioc_url in Heq.
  destruct (Py.nonempty key); repeat rewrite string_length_append in Heq; lia.
Qed.

End FetcherMore.

(** The request is refused *)
Lemma fetch_transport_failure_witness :
  fetch_bioc_paper cfg_on env_offline "PMC1" "xml" "unicode" w0
  = (Ok None, add_events w0 [EvHttpGet (document_url cfg_on "PMC1")]).
Proof.
  apply (fetch_transport_failure cfg_on env_offline "PMC1" w0
           (RequestException "connection refused")).
  reflexivity.
Defined.

(** A collection with an [article-title] attribute and an untitled document *)
Lemma title_falls_back_to_collection_witness :
  exists p w',
    parse_bioc cfg_off env_offline "PMC1" titled_collection w0 = (Ok (Some p), w')
    /\ title p = "Collection title".
Proof.
  apply (title_falls_back_to_collection cfg_off env_offline "PMC1" titled_collection
           w0 (xml_infon "article-title" "Collection title") []
           "Collection title").
  - repeat constructor.
  - reflexivity.
  - reflexivity.
  - reflexivity.
Defined.

(** A passage with a [file] and then a [url] attribute *)
Lemma figure_url_last_wins_witness :
  figure_url
    (ET.Element "passage" [] None
       ([xml_infon "section_type" "FIG"; xml_infon "file" "fig1.jpg";
         xml_text "A caption"] ++ [xml_infon "url" "http://example.org/fig1"]) None)
  = ET.text_of (xml_infon "url" "http://example.org/fig1").
Proof.
  apply (figure_url_last_wins "passage" [] None
           [xml_infon "section_type" "FIG"; xml_infon "file" "fig1.jpg";
            xml_text "A caption"] None (xml_infon "url" "http://example.org/fig1")).
  - reflexivity.
  - reflexivity.
Defined.

(** ** What a computation leaves untouched *)

Lemma keeps_ret {A} (a : A) : keeps_db (ret a).
Proof. intros w r w' H. now inversion H. Qed.

Lemma keeps_raise {A} e : keeps_db (@raise A e).
Proof. intros w r w' H. now inversion H. Qed.

Lemma keeps_lift {A} (x : result A) : keeps_db (lift x).
Proof. intros w r w' H. now inversion H. Qed.

Lemma keeps_ask {A} (o : list event -> A) : keeps_db (ask o).
Proof. intros w r w' H. now inversion H. Qed.

Lemma keeps_get_db : keeps_db get_db.
Proof. intros w r w' H. now inversion H. Qed.

Lemma keeps_emit e : keeps_db (emit e).
Proof. intros w r w' H. now inversion H. Qed.

Lemma keeps_bind {A B} (m : M A) (k : A -> M B) :
  keeps_db m -> (forall a, keeps_db (k a)) -> keeps_db (bind m k).
Proof.
  intros Hm Hk w r w' H. unfold bind in H.
  destruct (m w) as [[a|e] w1] eqn:E.
  - rewrite (Hk a _ _ _ H). eauto.
  - inversion H; subst. eauto.
Qed.

Lemma keeps_try_except {A} (m : M A) c h :
  keeps_db m -> (forall e, keeps_db (h e)) -> keeps_db (try_except m c h).
Proof.
  intros Hm Hh w r w' H. unfold try_except in H.
  destruct (m w) as [[a|e] w1] eqn:E.
  - inversion H; subst. eauto.
  - destruct (c e).
    + rewrite (Hh e _ _ _ H). eauto.
    + inversion H; subst. eauto.
Qed.

Lemma keeps_try_finally {A} (m : M A) f :
  keeps_db m -> keeps_db f -> keeps_db (try_finally m f).
Proof.
  intros Hm Hf w r w' H. unfold try_finally in H.
  destruct (m w) as [r1 w1] eqn:E.
  destruct (f w1) as [[u|e] w2] eqn:E2; inversion H; subst;
    rewrite (Hf _ _ _ E2); eauto.
Qed.

Lemma keeps_for_each {A S} (l : list A) (body : A -> S -> M S) :
  (forall x s, keeps_db (body x s)) -> forall s, keeps_db (for_each l body s).
Proof.
  intros Hb. induction l as [|x l IH]; intros s; simpl.
  - apply keeps_ret.
  - apply keeps_bind; auto.
Qed.

Ltac keeps_step :=
  match goal with
  | |- keeps_db (ret _) => apply keeps_ret
  | |- keeps_db (raise _) => apply keeps_raise
  | |- keeps_db (lift _) => apply keeps_lift
  | |- keeps_db (ask _) => apply keeps_ask
  | |- keeps_db get_db => apply keeps_get_db
  | |- keeps_db (emit _) => apply keeps_emit
  | |- keeps_db (bind _ _) => apply keeps_bind; [|intro]
  | |- keeps_db (try_except _ _ _) => apply keeps_try_except; [|intro]
  | |- keeps_db (try_finally _ _) => apply keeps_try_finally
  | |- keeps_db (for_each _ _ _) => apply keeps_for_each; intros
  | |- keeps_db (if ?b then _ else _) => destruct b
  | |- keeps_db (match ?x with _ => _ end) => destruct x
  | |- keeps_db (let _ := _ in _) => cbv zeta
  end.

Create HintDb keeps.

Ltac keeps_prog := repeat keeps_step; auto with keeps.

Section Untouched.

Context (cfg : Config) (env : Env).

(** A statement that only reads *)
Lemma keeps_conn_execute_read {A} sql (sem : database -> result (A * database)) :
  (forall d a d', sem d = Ok (a, d') -> d' = d) ->
  keeps_db (conn_execute env sql sem).
Proof.
  intros Hsem w r w'.
  unfold conn_execute, db_check_fault, bind, ask, get_db, put_db, ret, raise.
  rewrite emit_run. cbn [trace db add_events].
  destruct (db_fault env _); [intros H; now inversion H|].
  cbn [db add_events].
  destruct (sem (db w)) as [[a d]|e] eqn:E; intros H; inversion H; subst;
    [|reflexivity].
  cbn [db]. eapply Hsem; eauto.
Qed.

Lemma keeps_sleep n : keeps_db (sleep n).
Proof. unfold sleep. keeps_prog. Qed.

Lemma keeps_raise_for_status {B} (r : response B) : keeps_db (raise_for_status r).
Proof. unfold raise_for_status. keeps_prog. Qed.

Lemma keeps_db_connect : keeps_db (db_connect env).
Proof. unfold db_connect, db_check_fault. keeps_prog. Qed.

Lemma keeps_conn_close : keeps_db conn_close.
Proof. unfold conn_close. keeps_prog. Qed.

Lemma keeps_write_text path content : keeps_db (write_text env path content).
Proof. unfold write_text. keeps_prog. Qed.

Lemma keeps_rename src dst : keeps_db (rename env src dst).
Proof. unfold rename. keeps_prog. Qed.

Lemma keeps_read_text_lines path : keeps_db (read_text_lines env path).
Proof. unfold read_text_lines. keeps_prog. Qed.
Hint Resolve keeps_sleep keeps_raise_for_status keeps_db_connect keeps_conn_close
  keeps_write_text keeps_rename keeps_read_text_lines : keeps.

Lemma keeps_bern_loop caption attempts : keeps_db (bern_loop env caption attempts).
Proof.
  induction attempts as [|a rest IH]; simpl; unfold bern_attempt; keeps_prog.
Qed.
Hint Resolve keeps_bern_loop : keeps.

Lemma keeps_fetch_entities caption n :
  keeps_db (fetch_entities_from_bern cfg env caption n).
Proof. unfold fetch_entities_from_bern. keeps_prog. Qed.

Lemma keeps_check_pmc_id_exists pmc_id : keeps_db (check_pmc_id_exists cfg env pmc_id).
Proof. unfold check_pmc_id_exists. keeps_prog. Qed.
Hint Resolve keeps_fetch_entities keeps_check_pmc_id_exists : keeps.

Lemma keeps_parse_bioc pmc_id root : keeps_db (parse_bioc cfg env pmc_id root).
Proof. unfold parse_bioc, parse_document, add_figure. keeps_prog. Qed.
Hint Resolve keeps_parse_bioc : keeps.

Lemma keeps_fetch_bioc_paper pmc_id format encoding :
  keeps_db (fetch_bioc_paper cfg env pmc_id format encoding).
Proof. unfold fetch_bioc_paper. keeps_prog. Qed.

Lemma keeps_get_pmcid_from_database pmid :
  keeps_db (get_pmcid_from_database env pmid).
Proof.
  unfold get_pmcid_from_database.
  repeat first [apply keeps_conn_execute_read | keeps_step]; auto with keeps.
  all: intros dd ?x ?d Hsem;
    unfold Sql.show_tables, Sql.select_pmcid, Sql.no_table in Hsem;
    try destruct (pmid_to_pmcid dd); now inversion Hsem.
Qed.

Lemma keeps_idconv_loop pmid m attempts d :
  keeps_db (idconv_loop env pmid m attempts d).
Proof.
  revert d. induction attempts as [|a rest IH]; intros d; simpl; keeps_prog.
Qed.
Hint Resolve keeps_fetch_bioc_paper keeps_get_pmcid_from_database
  keeps_idconv_loop : keeps.

Lemma keeps_convert_pmid_to_pmcid pmid : keeps_db (convert_pmid_to_pmcid env pmid).
Proof. unfold convert_pmid_to_pmcid. keeps_prog. Qed.

Lemma keeps_search_pubmed q n : keeps_db (search_pubmed env q n).
Proof. unfold search_pubmed, sleep_millis, write_text. keeps_prog. Qed.
Hint Resolve keeps_convert_pmid_to_pmcid keeps_search_pubmed : keeps.

Lemma keeps_resolve_paper_id raw : keeps_db (resolve_paper_id env raw).
Proof. unfold resolve_paper_id. keeps_prog. Qed.

Lemma keeps_annotate_paper data : keeps_db (annotate_paper cfg env data).
Proof. unfold annotate_paper, annotate_figure. keeps_prog. Qed.

Lemma keeps_check_available_papers ids :
  keeps_db (check_available_papers cfg env ids).
Proof. unfold check_available_papers, check_paper. keeps_prog. Qed.

End Untouched.

#[export] Hint Resolve keeps_sleep keeps_raise_for_status keeps_db_connect
  keeps_conn_close keeps_write_text keeps_rename keeps_read_text_lines
  keeps_bern_loop keeps_fetch_entities keeps_check_pmc_id_exists keeps_parse_bioc
  keeps_fetch_bioc_paper keeps_get_pmcid_from_database keeps_idconv_loop
  keeps_convert_pmid_to_pmcid keeps_search_pubmed keeps_resolve_paper_id
  keeps_annotate_paper keeps_check_available_papers : keeps.

(** ** The resolver *)

Create HintDb lookups.

Ltac lookups_prog := repeat emits_step; try reflexivity; auto with lookups.

Section ResolverMore.

Context (cfg : Config) (env : Env).

Lemma lookup_sleep n : emits (fun e => is_check_event e = true) (sleep n).
Proof. unfold sleep. lookups_prog. Qed.

Lemma lookup_raise_for_status {B} (r : response B) :
  emits (fun e => is_check_event e = true) (raise_for_status r).
Proof. unfold raise_for_status. lookups_prog. Qed.

Lemma lookup_db_connect : emits (fun e => is_check_event e = true) (db_connect env).
Proof. unfold db_connect, db_check_fault. lookups_prog. Qed.

Lemma lookup_conn_execute {A} sql (sem : database -> result (A * database)) :
  emits (fun e => is_check_event e = true) (conn_execute env sql sem).
Proof. unfold conn_execute, db_check_fault. lookups_prog. Qed.

Lemma lookup_conn_close : emits (fun e => is_check_event e = true) conn_close.
Proof. unfold conn_close. lookups_prog. Qed.
Hint Resolve lookup_sleep lookup_raise_for_status lookup_db_connect
  lookup_conn_execute lookup_conn_close : lookups.

Lemma lookup_get_pmcid_from_database pmid :
  emits (fun e => is_check_event e = true) (get_pmcid_from_database env pmid).
Proof. unfold get_pmcid_from_database. lookups_prog. Qed.

Lemma lookup_idconv_loop pmid m attempts d :
  emits (fun e => is_check_event e = true) (idconv_loop env pmid m attempts d).
Proof.
  revert d. induction attempts as [|a rest IH]; intros d; simpl; lookups_prog.
Qed.
Hint Resolve lookup_get_pmcid_from_database lookup_idconv_loop : lookups.

Lemma lookup_convert pmid :
  emits (fun e => is_check_event e = true) (convert_pmid_to_pmcid env pmid).
Proof. unfold convert_pmid_to_pmcid. lookups_prog. Qed.

Lemma lookup_check_pmc_id_exists pmc_id :
  emits (fun e => is_check_event e = true) (check_pmc_id_exists cfg env pmc_id).
Proof. unfold check_pmc_id_exists. lookups_prog. Qed.

Lemma lookup_search_pubmed q n :
  emits (fun e => is_check_event e = true) (search_pubmed env q n).
Proof. unfold search_pubmed, sleep_millis, write_text. lookups_prog. Qed.
Hint Resolve lookup_convert lookup_check_pmc_id_exists lookup_search_pubmed : lookups.

Lemma lookup_resolve_paper_id raw :
  emits (fun e => is_check_event e = true) (resolve_paper_id env raw).
Proof. unfold resolve_paper_id. lookups_prog. Qed.

Lemma lookup_check_available_papers ids :
  emits (fun e => is_check_event e = true) (check_available_papers cfg env ids).
Proof. unfold check_available_papers, check_paper. lookups_prog. Qed.

Lemma prefix_split p : forall s,
  String.prefix p s = true -> exists r, s = (p ++ r)%string.
Proof.
  induction p as [|a p IH]; intros s H; [exists s; reflexivity|].
  destruct s as [|b s]; simpl in H; [discriminate|].
  destruct (ascii_dec a b); [|discriminate]. subst.
  destruct (IH _ H) as [r ->]. exists r. reflexivity.
Qed.

Lemma prefix_append_self p r : String.prefix p (p ++ r) = true.
Proof.
  induction p as [|a p IH]; simpl; [destruct r; reflexivity|].
  destruct (ascii_dec a a); [exact IH|contradiction].
Qed.

Lemma upper_keeps_prefix s :
  Py.startswith s "PMC" = true -> Py.startswith (Py.upper s) "PMC" = true.
Proof.
  unfold Py.startswith. intros H. destruct (prefix_split _ _ H) as [r ->].
  change (Py.upper ("PMC" ++ r)) with ("PMC" ++ Py.upper r)%string.
  apply prefix_append_self.
Qed.

Lemma ensure_prefix_upper_prefixed_result s :
  Py.startswith (Py.upper (ensure_prefix_upper s)) "PMC" = true.
Proof.
  unfold ensure_prefix_upper.
  destruct (Py.startswith (Py.upper s) "PMC") eqn:E; simpl negb; cbv iota.
  - exact E.
  - apply upper_keeps_prefix. apply prefix_append_self.
Qed.

Lemma ensure_prefix_upper_nonempty s : Py.nonempty (ensure_prefix_upper s) = true.
Proof.
  pose proof (ensure_prefix_upper_prefixed_result s) as H.
  destruct (ensure_prefix_upper s); [discriminate|reflexivity].
Qed.

Lemma conn_execute_read_run {A} sql (sem : database -> result (A * database)) w a :
  db_healthy env -> sem (db w) = Ok (a, db w) ->
  conn_execute env sql sem w = (Ok a, add_events w [EvDbExecute sql]).
Proof. intros Hdb Hsem. now rewrite (conn_execute_run env sql sem w a (db w)). Qed.

(** The local lookup on a working database whose mapping table exists *)
Lemma get_pmcid_run pmid w t :
  db_healthy env ->
  pmid_to_pmcid (db w) = Some t ->
  get_pmcid_from_database env pmid w
  = (Ok (match hd_error (map snd (Sql.select_where fst (Py.strip pmid) t)) with
         | Some v => Some (ensure_prefix_upper v)
         | None => None
         end),
     add_events w lookup_events).
Proof.
  intros Hdb Ht. unfold get_pmcid_from_database.
  erewrite try_except_Ok; [reflexivity|].
  rewrite (bind_Ok _ _ _ _ _ (db_connect_run env w Hdb)).
  unfold try_finally.
  set (w1 := add_events w [EvDbConnect]).
  assert (Hshow : Sql.show_tables (db w1)
                  = Ok ("pmid_to_pmcid"
                          :: match publications (db w) with
                             | Some _ => ["publications"]
                             | None => []
                             end, db w1)).
  { unfold Sql.show_tables. cbn [db w1 add_events]. now rewrite Ht. }
  rewrite (bind_Ok _ _ _ _ _
             (conn_execute_read_run "SHOW TABLES" Sql.show_tables w1 _ Hdb Hshow)).
  cbn [existsb String.eqb Ascii.eqb Bool.eqb orb negb].
  set (w2 := add_events w1 [EvDbExecute "SHOW TABLES"]).
  assert (Hsel : Sql.select_pmcid (Py.strip pmid) (db w2)
                 = Ok (hd_error (map snd (Sql.select_where fst (Py.strip pmid) t)),
                       db w2)).
  { unfold Sql.select_pmcid. cbn [db w2 w1 add_events]. now rewrite Ht. }
  rewrite (bind_Ok _ _ _ _ _
             (conn_execute_read_run _ (Sql.select_pmcid (Py.strip pmid)) w2 _ Hdb Hsel)).
  destruct (hd_error _); unfold ret, conn_close; rewrite emit_run;
    subst w2 w1; rewrite !add_events_app; reflexivity.
Qed.

(** X6: an identifier without the prefix that is found in the local
    mapping table is resolved to the mapped value by four database
    operations: no remote service is contacted, in particular not the
    conversion service, and the tables are untouched. *)
Theorem resolve_uses_local_mapping raw w t v :
  db_healthy env ->
  Py.startswith (Py.upper raw) "PMC" = false ->
  pmid_to_pmcid (db w) = Some t ->
  hd_error (map snd (Sql.select_where fst (Py.strip raw) t)) = Some v ->
  resolve_paper_id env raw w
  = (Ok (ensure_prefix_upper v), add_events w lookup_events)
  /\ requests_made lookup_events = 0.
Proof.
  intros Hdb Hp Ht Hv. split; [|reflexivity].
  unfold resolve_paper_id. rewrite Hp. cbn [negb].
  unfold bind at 1. unfold bind at 1.
  rewrite (get_pmcid_run raw w t Hdb Ht), Hv.
  cbn [truthy]. rewrite ensure_prefix_upper_nonempty. unfold ret.
  f_equal. f_equal. unfold ensure_prefix_upper at 1.
  now rewrite ensure_prefix_upper_prefixed_result.
Qed.

(** X7: resolution never changes the tables and only makes look-ups:
    database reads and requests to the conversion service with their
    delays; it never contacts the document or the annotation service and
    never touches a file. *)
Theorem resolve_is_read_only raw w r w' :
  resolve_paper_id env raw w = (r, w') ->
  db w' = db w
  /\ exists evs,
       trace w' = trace w ++ evs
       /\ Forall (fun e => is_db_event e || is_conversion_event e = true) evs.
Proof.
  intros H. split; [exact (keeps_resolve_paper_id env raw _ _ _ H)|].
  assert (Hcls : emits (fun e => is_db_event e || is_conversion_event e = true)
                       (resolve_paper_id env raw)).
  { unfold resolve_paper_id, get_pmcid_from_database, convert_pmid_to_pmcid,
      db_connect, conn_execute, db_check_fault, conn_close.
    assert (Hloop : forall attempts d,
               emits (fun e => is_db_event e || is_conversion_event e = true)
                     (idconv_loop env raw 3 attempts d)).
    { induction attempts as [|a rest IH]; intros d; simpl;
        unfold raise_for_status, sleep; repeat emits_step; try reflexivity; auto. }
    repeat emits_step; try reflexivity; auto. }
  exact (Hcls _ _ _ H).
Qed.

(** One round of the conversion loop *)
Lemma idconv_step pmid attempt rest d w :
  idconv_loop env pmid 3 (attempt :: rest) d w
  = match conversion_outcome
            (idconv_get env (trace w ++ [EvIdconv pmid]) pmid) with
    | Ok v => (Ok v, add_events w [EvIdconv pmid])
    | Raise e =>
        if is_RequestException e then
          if attempt <? 2
          then idconv_loop env pmid 3 rest (d * 2)
                           (add_events w [EvIdconv pmid; EvSleep d])
          else (Ok None, add_events w [EvIdconv pmid])
        else (Raise e, add_events w [EvIdconv pmid])
    end.
Proof.
  cbn [idconv_loop]. unfold conversion_outcome.
  unfold bind at 1, try_except, bind at 1. rewrite emit_run.
  unfold bind at 1, ask at 1. unfold bind at 1, lift at 1.
  cbn [trace add_events].
  destruct (idconv_get env (trace w ++ [EvIdconv pmid]) pmid) as [resp|e].
  - unfold bind at 1, raise_for_status.
    destruct ((400 <=? status_code resp) && (status_code resp <? 600)).
    + unfold raise at 1. cbn [is_RequestException].
      change (3 - 1) with 2. destruct (attempt <? 2).
      * unfold bind at 1, sleep. rewrite emit_run. unfold ret at 1.
        now rewrite add_events_app.
      * reflexivity.
    + unfold ret at 1. unfold bind at 1, lift at 1.
      destruct (body resp) as [records|e]; [reflexivity|].
      destruct (is_RequestException e); [|reflexivity].
      change (3 - 1) with 2. destruct (attempt <? 2).
      * unfold bind at 1, sleep. rewrite emit_run. unfold ret at 1.
        now rewrite add_events_app.
      * reflexivity.
  - destruct (is_RequestException e); [|reflexivity].
    change (3 - 1) with 2. destruct (attempt <? 2).
    + unfold bind at 1, sleep. rewrite emit_run. unfold ret at 1.
      now rewrite add_events_app.
    + reflexivity.
Qed.

(** A request that always fails cannot have given this outcome *)
Ltac next_outcome v e E :=
  match goal with
  | |- context [conversion_outcome ?x] =>
      destruct (conversion_outcome x) as [v|e] eqn:E
  end.

Ltac contradict_failure Hno :=
  match goal with
  | E : conversion_outcome _ = _, H : forall h, exists e, _ |- _ =>
      let e' := fresh in let He := fresh in let He' := fresh in
      destruct (Hno _ _ E H) as (e' & He & He'); congruence
  end.


End ResolverMore.

Lemma resolve_uses_local_mapping_witness :
  resolve_paper_id env_offline " 999 " w_mapped
  = (Ok (ensure_prefix_upper "PMC123"), add_events w_mapped lookup_events)
  /\ requests_made lookup_events = 0.
Proof.
  apply (resolve_uses_local_mapping env_offline " 999 " w_mapped
           [("111", "PMC1"); ("999", "PMC123")] "PMC123").
  - intros h. reflexivity.
  - reflexivity.
  - reflexivity.
  - reflexivity.
Defined.

Lemma resolve_is_read_only_witness :
  db (snd (resolve_paper_id env_conversion_down "999" w_mapped)) = db w_mapped
  /\ exists evs,
       trace (snd (resolve_paper_id env_conversion_down "999" w_mapped))
       = trace w_mapped ++ evs
       /\ Forall (fun e => is_db_event e || is_conversion_event e = true) evs.
Proof.
  apply (resolve_is_read_only env_conversion_down "999" w_mapped
           (fst (resolve_paper_id env_conversion_down "999" w_mapped))).
  vm_compute. reflexivity.
Defined.

(** ** The mapping-file import, further *)

Lemma filter_keys_NoDup {R} (key : R -> string) (f : R -> bool) t :
  NoDup (map key t) -> NoDup (map key (filter f t)).
Proof.
  induction t as [|x t IH]; intros H; [constructor|].
  cbn [map] in H. inversion H as [|? ? Hnot Hrest]; subst.
  cbn [filter]. destruct (f x); [|now apply IH].
  cbn [map]. constructor; [|now apply IH].
  intros Hin. apply Hnot. apply in_map_iff in Hin as (y & Hy & Hin).
  apply filter_In in Hin as [Hin _]. apply in_map_iff. now exists y.
Qed.

(** [INSERT OR REPLACE] keeps the primary key unique *)
Lemma insert_or_replace_keys {R} (key : R -> string) r t :
  NoDup (map key t) -> NoDup (map key (Sql.insert_or_replace key r t)).
Proof.
  intros H. unfold Sql.insert_or_replace. rewrite map_app.
  apply NoDup_app.
  - now apply filter_keys_NoDup.
  - cbn [map]. constructor; [intros []|constructor].
  - intros a Hin [Ha|[]]. subst a.
    apply in_map_iff in Hin as (y & Hy & Hin).
    apply filter_In in Hin as [_ Hneq].
    rewrite Hy, String.eqb_refl in Hneq. discriminate.
Qed.

Lemma insert_or_replace_length {R} (key : R -> string) r t :
  List.length (Sql.insert_or_replace key r t) <= S (List.length t).
Proof.
  unfold Sql.insert_or_replace. rewrite length_app. cbn [List.length].
  pose proof (filter_length_le (fun x => negb (String.eqb (key x) (key r))) t).
  lia.
Qed.

Lemma fold_upsert_well_formed rows : forall t,
  well_formed_mapping t ->
  Forall (fun r => Py.startswith (snd r) "PMC" = true) rows ->
  well_formed_mapping (fold_left upsert_row rows t).
Proof.
  induction rows as [|r rows IH]; intros t Ht Hrows; [exact Ht|].
  inversion Hrows; subst. cbn [fold_left]. apply IH; [|assumption].
  destruct Ht as [Hkeys Hvals]. split.
  - now apply insert_or_replace_keys.
  - unfold upsert_row, Sql.insert_or_replace. apply Forall_app. split.
    + apply Forall_forall. intros x Hx. apply filter_In in Hx as [Hx _].
      revert x Hx. now apply Forall_forall.
    + now constructor.
Qed.

Lemma fold_upsert_length rows : forall t,
  List.length (fold_left upsert_row rows t) <= List.length t + List.length rows.
Proof.
  induction rows as [|r rows IH]; intros t; cbn [fold_left List.length]; [lia|].
  specialize (IH (upsert_row t r)).
  pose proof (insert_or_replace_length fst r t). unfold upsert_row in *. lia.
Qed.

Lemma ensure_prefix_exact_prefixed s :
  Py.startswith (ensure_prefix_exact s) "PMC" = true.
Proof.
  unfold ensure_prefix_exact.
  destruct (Py.startswith s "PMC") eqn:E; cbn [negb]; [exact E|].
  apply prefix_append_self.
Qed.

(** Whatever the shape of the line, the value parsed carries the prefix *)
Lemma parse_mapping_line_prefixed line m :
  parse_mapping_line line = Some m -> Py.startswith (snd m) "PMC" = true.
Proof.
  unfold parse_mapping_line. cbv zeta.
  destruct (_ && _).
  { intros [= <-]. apply ensure_prefix_exact_prefixed. }
  destruct (_ && _).
  { intros [= <-]. apply ensure_prefix_exact_prefixed. }
  destruct (Py.contains "PMC" line); [|discriminate].
  destruct (Py.re_first_pmc line); [|discriminate].
  intros [= <-]. exact (prefix_append_self "PMC" _).
Qed.

Lemma mappings_of_prefixed lines :
  Forall (fun r => Py.startswith (snd r) "PMC" = true) (mappings_of lines).
Proof.
  induction lines as [|l lines IH]; [constructor|].
  rewrite mappings_of_cons. apply Forall_app. split; [|exact IH].
  unfold mapping_of_line. cbv zeta.
  destruct (_ || _); [constructor|].
  destruct (parse_mapping_line _) as [m|] eqn:E; constructor; [|constructor].
  exact (parse_mapping_line_prefixed _ _ E).
Qed.

Section ImportMore.

Context (env : Env) (healthy : db_healthy env).

Lemma executemany_full rows w t :
  pmid_to_pmcid (db w) = Some t ->
  executemany_mappings env rows w
  = (Ok tt,
     {| trace := trace w
                 ++ [EvDbExecute
                       "INSERT OR REPLACE INTO pmid_to_pmcid (pmid, pmcid) VALUES (?, ?)"];
        db := {| publications := publications (db w);
                 pmid_to_pmcid := Some (fold_left upsert_row rows t) |} |}).
Proof.
  intros Ht.
  unfold executemany_mappings, conn_execute, db_check_fault, bind, ask, get_db,
    put_db, ret.
  rewrite emit_run. cbn [trace db add_events]. rewrite healthy.
  unfold Sql.upsert_mappings. cbn [trace db add_events]. rewrite Ht. reflexivity.
Qed.

Lemma import_line_full line st w t :
  pmid_to_pmcid (db w) = Some t ->
  exists st' w' t',
    import_line env line st w = (Ok st', w')
    /\ pmid_to_pmcid (db w') = Some t'
    /\ publications (db w') = publications (db w)
    /\ pending st' t' = fold_left upsert_row (rows_of_line line) (pending st t)
    /\ count st' = count st + List.length (rows_of_line line).
Proof.
  intros Ht. unfold import_line, rows_of_line, mapping_of_line. cbv zeta.
  destruct (negb (Py.nonempty (Py.strip line)) || Py.startswith (Py.strip line) "#").
  - exists st, w, t. unfold ret. cbn [List.length fold_left].
    repeat split; auto.
  - destruct (parse_mapping_line (Py.strip line)) as [m|].
    + cbn [mappings count errors List.length].
      destruct (1000 <=? List.length (mappings st ++ [m])).
      * eexists _, _, _.
        rewrite (bind_Ok _ _ _ _ _ (executemany_full (mappings st ++ [m]) w t Ht)).
        unfold ret. split; [reflexivity|]. cbn [db pmid_to_pmcid publications].
        split; [reflexivity|]. split; [reflexivity|].
        unfold pending. cbn [mappings count]. now rewrite fold_left_app.
      * eexists _, w, t. unfold ret. split; [reflexivity|]. split; [exact Ht|].
        split; [reflexivity|].
        unfold pending. cbn [mappings count]. now rewrite fold_left_app.
    + cbn [mappings count errors List.length fold_left].
      destruct (1000 <=? List.length (mappings st)).
      * eexists _, _, _.
        rewrite (bind_Ok _ _ _ _ _ (executemany_full (mappings st) w t Ht)).
        unfold ret. split; [reflexivity|]. cbn [db pmid_to_pmcid publications].
        split; [reflexivity|]. split; [reflexivity|].
        unfold pending. cbn [mappings count]. split; [reflexivity|lia].
      * eexists _, w, t. unfold ret. split; [reflexivity|]. split; [exact Ht|].
        split; [reflexivity|]. cbn [count]. split; [reflexivity|lia].
Qed.

Lemma import_lines_full lines : forall st w t,
  pmid_to_pmcid (db w) = Some t ->
  exists st' w' t',
    for_each lines (import_line env) st w = (Ok st', w')
    /\ pmid_to_pmcid (db w') = Some t'
    /\ publications (db w') = publications (db w)
    /\ pending st' t' = fold_left upsert_row (mappings_of lines) (pending st t)
    /\ count st' = count st + List.length (mappings_of lines).
Proof.
  induction lines as [|l lines IH]; intros st w t Ht.
  - exists st, w, t. unfold ret. cbn [for_each mappings_of flat_map List.length fold_left].
    repeat split; auto.
  - destruct (import_line_full l st w t Ht) as (st1 & w1 & t1 & H1 & T1 & B1 & P1 & C1).
    destruct (IH st1 w1 t1 T1) as (st2 & w2 & t2 & H2 & T2 & B2 & P2 & C2).
    exists st2, w2, t2. cbn [for_each]. rewrite (bind_Ok _ _ _ _ _ H1).
    split; [exact H2|]. split; [exact T2|]. split; [congruence|].
    rewrite mappings_of_cons. fold (rows_of_line l).
    rewrite fold_left_app, length_app, P2, P1, C2, C1. split; [reflexivity|lia].
Qed.

(** The import up to the reading of the file: the table is dropped and
    created again before the file is opened. *)
Lemma import_prelude path w :
  os_path_exists env (trace w ++ [EvExists path]) path = true ->
  build_pmid_to_pmcid_mapping env path w
  = try_finally
      (try_except (import_body env path) any_Exception (fun _ => ret 0))
      conn_close
      {| trace := trace w ++ import_events path;
         db := {| publications := publications (db w);
                  pmid_to_pmcid := Some [] |} |}.
Proof.
  intros Hex. unfold build_pmid_to_pmcid_mapping.
  unfold bind at 1. rewrite emit_run.
  unfold bind at 1, ask at 1. cbn [trace add_events]. rewrite Hex. cbn [negb].
  unfold bind at 1, db_connect, bind at 1. rewrite emit_run.
  unfold db_check_fault at 1, bind at 1, ask at 1. rewrite healthy. unfold ret at 1.
  unfold bind at 1, conn_execute at 1, bind at 1. rewrite emit_run.
  unfold bind at 1, db_check_fault at 1, bind at 1, ask at 1. rewrite healthy.
  unfold ret at 1. unfold bind at 1, get_db at 1. cbn [Sql.drop_mapping].
  unfold bind at 1, put_db at 1, ret at 1.
  unfold bind at 1, conn_execute at 1, bind at 1. rewrite emit_run.
  unfold bind at 1, db_check_fault at 1, bind at 1, ask at 1. rewrite healthy.
  unfold ret at 1. unfold bind at 1, get_db at 1.
  cbn [Sql.create_mapping db pmid_to_pmcid publications trace add_events].
  unfold bind at 1, put_db at 1, ret at 1.
  cbn [db pmid_to_pmcid publications trace].
  unfold import_events, add_events. cbn [trace].
  rewrite <- !app_assoc. reflexivity.
Qed.

(** The body of the import from the opening of the file on *)
Lemma import_body_read path w :
  import_body env path w
  = match read_lines env (trace w ++ [EvRead path]) path with
    | Ok lines =>
        (st <- for_each (data_lines lines) (import_line env)
                        {| mappings := []; count := 0; errors := 0 |} ;;
         (if negb (Nat.eqb (List.length (mappings st)) 0)
          then executemany_mappings env (mappings st)
          else ret tt) ;;
         ret (count st)) (add_events w [EvRead path])
    | Raise e =>
        (for_each (data_lines (read_partial env (trace w ++ [EvRead path]) path))
                  (import_line env)
                  {| mappings := []; count := 0; errors := 0 |} ;;
         raise e) (add_events w [EvRead path])
    end.
Proof.
  unfold import_body. unfold bind at 1. rewrite emit_run.
  unfold bind at 1, ask at 1. cbn [trace add_events].
  destruct (read_lines env _ path); [reflexivity|].
  unfold bind at 1, ask at 1. reflexivity.
Qed.

(** The whole import of a readable file *)
Lemma build_mapping_run path w lines :
  os_path_exists env (trace w ++ [EvExists path]) path = true ->
  (forall h, read_lines env h path = Ok lines) ->
  exists w',
    build_pmid_to_pmcid_mapping env path w
    = (Ok (List.length (mappings_of (data_lines lines))), w')
    /\ db w' = {| publications := publications (db w);
                  pmid_to_pmcid :=
                    Some (fold_left upsert_row (mappings_of (data_lines lines)) []) |}.
Proof.
  intros Hex Hread. rewrite (import_prelude path w Hex).
  set (w1 := {| trace := trace w ++ import_events path; db := _ |}).
  unfold try_finally, try_except. rewrite import_body_read, Hread.
  destruct (import_lines_full (data_lines lines)
              {| mappings := []; count := 0; errors := 0 |}
              (add_events w1 [EvRead path]) [] eq_refl)
    as (st & w2 & t2 & Hrun & Ht2 & Hb2 & Hp & Hc).
  rewrite (bind_Ok _ _ _ _ _ Hrun).
  unfold pending in Hp. cbn [mappings fold_left count] in Hp, Hc.
  cbn [db add_events w1 publications] in Hb2.
  destruct (negb (Nat.eqb (List.length (mappings st)) 0)) eqn:Hlen.
  - rewrite (bind_Ok _ _ _ _ _ (executemany_full (mappings st) w2 t2 Ht2)).
    unfold ret, conn_close. rewrite emit_run. eexists. split.
    + rewrite Hc. reflexivity.
    + cbn [db add_events]. now rewrite Hp, Hb2.
  - unfold bind, ret, conn_close. rewrite emit_run. eexists. split.
    + rewrite Hc. reflexivity.
    + cbn [db add_events]. rewrite <- Hp.
      destruct (mappings st); [|discriminate]. cbn [fold_left].
      destruct (db w2) as [p m]. cbn in Ht2, Hb2. now subst.
Qed.

(** The loop writes the rows in full batches of 1000: after the rows
    [done], the table holds the batches written and the buffer holds the
    rest; as long as fewer than 1000 rows were parsed nothing happens. *)
Lemma import_line_batches line st w done :
  pmid_to_pmcid (db w) = Some (fold_left upsert_row (flushed done) []) ->
  done = (flushed done ++ mappings st)%list ->
  List.length (mappings st) < 1000 ->
  exists st' w',
    import_line env line st w = (Ok st', w')
    /\ pmid_to_pmcid (db w')
       = Some (fold_left upsert_row (flushed (done ++ rows_of_line line)) [])
    /\ publications (db w') = publications (db w)
    /\ (done ++ rows_of_line line
        = flushed (done ++ rows_of_line line) ++ mappings st')%list
    /\ List.length (mappings st') < 1000
    /\ (List.length (done ++ rows_of_line line) < 1000 -> w' = w).
Proof.
  intros Ht Hdone Hlen.
  assert (Hq : List.length (flushed done) = 1000 * (List.length done / 1000)).
  { unfold flushed. rewrite length_firstn.
    pose proof (Nat.Div0.mul_div_le (List.length done) 1000). lia. }
  remember (flushed done) as fl eqn:Hfl.
  assert (Hsame : forall ms,
             List.length ms < 1000 -> flushed (fl ++ ms) = fl).
  { intros ms Hms. unfold flushed. rewrite length_app, Hq.
    replace ((1000 * (List.length done / 1000) + List.length ms) / 1000)
      with (List.length done / 1000).
    - rewrite <- Hq. rewrite firstn_app, firstn_all, Nat.sub_diag. cbn [firstn].
      apply app_nil_r.
    - apply (Nat.div_unique _ 1000 _ (List.length ms)); lia. }
  assert (Hfull : forall ms,
             List.length ms = 1000 -> flushed (fl ++ ms) = (fl ++ ms)%list).
  { intros ms Hms. unfold flushed. rewrite length_app, Hq, Hms.
    replace ((1000 * (List.length done / 1000) + 1000) / 1000)
      with (S (List.length done / 1000)).
    - apply firstn_all2. rewrite length_app, Hq, Hms. lia.
    - apply (Nat.div_unique _ 1000 _ 0); lia. }
  clear Hq Hfl. subst done.
  unfold import_line, rows_of_line, mapping_of_line. cbv zeta.
  destruct (negb (Py.nonempty (Py.strip line)) || Py.startswith (Py.strip line) "#").
  - exists st, w. unfold ret. rewrite app_nil_r, (Hsame _ Hlen). auto 10.
  - destruct (parse_mapping_line (Py.strip line)) as [m|].
    + cbn [mappings count errors]. rewrite <- app_assoc.
      destruct (1000 <=? List.length (mappings st ++ [m])) eqn:Hfl.
      * apply Nat.leb_le in Hfl.
        assert (Hms : List.length (mappings st ++ [m]) = 1000)
          by (rewrite length_app in *; cbn [List.length] in *; lia).
        eexists _, _.
        rewrite (bind_Ok _ _ _ _ _ (executemany_full (mappings st ++ [m]) w _ Ht)).
        unfold ret. split; [reflexivity|]. cbn [db pmid_to_pmcid publications mappings].
        rewrite (Hfull _ Hms).
        split; [now rewrite (fold_left_app _ fl)|]. split; [reflexivity|].
        split; [now rewrite app_nil_r|]. split; [cbn [List.length]; lia|].
        rewrite length_app, Hms. lia.
      * apply Nat.leb_gt in Hfl.
        exists {| mappings := mappings st ++ [m]; count := count st + 1;
                  errors := errors st |}, w.
        unfold ret. split; [reflexivity|]. cbn [mappings].
        rewrite (Hsame _ Hfl). auto 10.
    + cbn [mappings count errors].
      replace (1000 <=? List.length (mappings st)) with false
        by (symmetry; apply Nat.leb_gt; exact Hlen).
      eexists _, w. unfold ret. split; [reflexivity|]. cbn [mappings].
      rewrite app_nil_r, (Hsame _ Hlen). auto 10.
Qed.

Lemma import_lines_batches lines : forall st w done,
  pmid_to_pmcid (db w) = Some (fold_left upsert_row (flushed done) []) ->
  done = (flushed done ++ mappings st)%list ->
  List.length (mappings st) < 1000 ->
  exists st' w',
    for_each lines (import_line env) st w = (Ok st', w')
    /\ pmid_to_pmcid (db w')
       = Some (fold_left upsert_row (flushed (done ++ mappings_of lines)) [])
    /\ publications (db w') = publications (db w)
    /\ (List.length (done ++ mappings_of lines) < 1000 -> w' = w).
Proof.
  induction lines as [|l lines IH]; intros st w done Ht Hdone Hlen.
  - exists st, w. cbn [for_each mappings_of flat_map]. unfold ret.
    rewrite app_nil_r. auto.
  - destruct (import_line_batches l st w done Ht Hdone Hlen)
      as (st1 & w1 & H1 & T1 & B1 & D1 & L1 & S1).
    destruct (IH st1 w1 _ T1 D1 L1) as (st2 & w2 & H2 & T2 & B2 & S2).
    exists st2, w2. cbn [for_each]. rewrite (bind_Ok _ _ _ _ _ H1).
    rewrite mappings_of_cons. fold (rows_of_line l).
    rewrite <- app_assoc in T2, S2.
    split; [exact H2|]. split; [exact T2|]. split; [congruence|].
    intros Hsmall. rewrite (S2 Hsmall). apply S1.
    rewrite !length_app in *. lia.
Qed.

(** X9: on a working database the import never raises, whatever the
    state of the file, and never touches the table of the papers; when
    the file is missing it returns 0 and leaves the database as it
    was. *)
Theorem import_never_raises path w :
  exists n w',
    build_pmid_to_pmcid_mapping env path w = (Ok n, w')
    /\ publications (db w') = publications (db w)
    /\ (os_path_exists env (trace w ++ [EvExists path]) path = false ->
        n = 0 /\ w' = add_events w [EvExists path]).
Proof.
  destruct (os_path_exists env (trace w ++ [EvExists path]) path) eqn:Hex.
  - rewrite (import_prelude path w Hex).
    set (w1 := {| trace := trace w ++ import_events path; db := _ |}).
    unfold try_finally, try_except. rewrite import_body_read.
    destruct (read_lines env _ path) as [lines|e].
    + destruct (import_lines_full (data_lines lines)
                  {| mappings := []; count := 0; errors := 0 |}
                  (add_events w1 [EvRead path]) [] eq_refl)
        as (st & w2 & t2 & Hrun & Ht2 & Hb2 & _ & _).
      rewrite (bind_Ok _ _ _ _ _ Hrun).
      cbn [db add_events w1 publications] in Hb2.
      destruct (negb (Nat.eqb (List.length (mappings st)) 0)).
      * rewrite (bind_Ok _ _ _ _ _ (executemany_full (mappings st) w2 t2 Ht2)).
        unfold ret, conn_close. rewrite emit_run. eexists _, _.
        split; [reflexivity|]. split; [exact Hb2|discriminate].
      * unfold bind, ret, conn_close. rewrite emit_run. eexists _, _.
        split; [reflexivity|]. split; [exact Hb2|discriminate].
    + destruct (import_lines_full
                  (data_lines (read_partial env (trace w1 ++ [EvRead path]) path))
                  {| mappings := []; count := 0; errors := 0 |}
                  (add_events w1 [EvRead path]) [] eq_refl)
        as (st & w2 & t2 & Hrun & _ & Hb2 & _ & _).
      rewrite (bind_Ok _ _ _ _ _ Hrun).
      cbn [db add_events w1 publications] in Hb2.
      unfold raise. cbn [any_Exception]. unfold ret, conn_close. rewrite emit_run.
      eexists _, _. split; [reflexivity|]. split; [exact Hb2|discriminate].
  - unfold build_pmid_to_pmcid_mapping.
    unfold bind at 1. rewrite emit_run.
    unfold bind at 1, ask at 1. cbn [trace add_events]. rewrite Hex. cbn [negb].
    unfold ret. eexists _, _. split; [reflexivity|]. split; [reflexivity|].
    intros _. split; reflexivity.
Qed.

(** X10: the table left by the import of a readable file has one row per
    key, every value in it starts with PMC, and the number returned is
    the number of lines stored, which is at least the number of rows. *)
Theorem imported_table_is_well_formed path w lines :
  os_path_exists env (trace w ++ [EvExists path]) path = true ->
  (forall h, read_lines env h path = Ok lines) ->
  exists n t w',
    build_pmid_to_pmcid_mapping env path w = (Ok n, w')
    /\ pmid_to_pmcid (db w') = Some t
    /\ well_formed_mapping t
    /\ n = List.length (mappings_of (data_lines lines))
    /\ List.length t <= n.
Proof.
  intros Hex Hread.
  destruct (build_mapping_run path w lines Hex Hread) as (w' & Hrun & Hdb).
  eexists _, _, w'. split; [exact Hrun|]. rewrite Hdb. cbn [pmid_to_pmcid].
  split; [reflexivity|]. split; [|split; [reflexivity|]].
  - apply fold_upsert_well_formed; [|apply mappings_of_prefixed].
    split; constructor.
  - exact (fold_upsert_length _ []).
Qed.

(** X11: the import replaces the table, it does not add to it: a key
    that no line of the file gives is not found afterwards, even when
    the table had it before. *)
Theorem import_replaces_previous_mappings path w lines k :
  os_path_exists env (trace w ++ [EvExists path]) path = true ->
  (forall h, read_lines env h path = Ok lines) ->
  Forall (fun l => line_pmid l <> Some k) (data_lines lines) ->
  stored_mapping k (db (snd (build_pmid_to_pmcid_mapping env path w))) = None.
Proof.
  intros Hex Hread Hk.
  destruct (build_mapping_run path w lines Hex Hread) as (w' & Hrun & Hdb).
  rewrite Hrun. cbn [snd]. rewrite Hdb. unfold stored_mapping. cbn [pmid_to_pmcid].
  rewrite select_fold_upsert_other by (now apply mappings_of_no_key).
  reflexivity.
Qed.

(** X12: when reading the file fails, at its opening or after some
    lines, the import returns 0 although the table has been dropped and
    created again: the mappings of an earlier import are lost, and of
    the lines read before the failure only the full batches of 1000 rows
    already written are in the table; with fewer than 1000 rows parsed
    before the failure the table is left empty and nothing is done
    between the reading and the closing of the connection. *)
Theorem read_failure_leaves_only_full_batches path w e delivered :
  os_path_exists env (trace w ++ [EvExists path]) path = true ->
  (forall h, read_lines env h path = Raise e) ->
  (forall h, read_partial env h path = delivered) ->
  exists w',
    build_pmid_to_pmcid_mapping env path w = (Ok 0, w')
    /\ db w'
       = {| publications := publications (db w);
            pmid_to_pmcid :=
              Some (fold_left upsert_row
                              (flushed (mappings_of (data_lines delivered))) []) |}
    /\ (List.length (mappings_of (data_lines delivered)) < 1000 ->
        w' = {| trace := trace w ++ import_events path ++ [EvRead path; EvDbClose];
                db := {| publications := publications (db w);
                         pmid_to_pmcid := Some [] |} |}).
Proof.
  intros Hex Hread Hpart. rewrite (import_prelude path w Hex).
  set (w1 := {| trace := trace w ++ import_events path; db := _ |}).
  unfold try_finally, try_except. rewrite import_body_read, Hread, Hpart.
  destruct (import_lines_batches (data_lines delivered)
              {| mappings := []; count := 0; errors := 0 |}
              (add_events w1 [EvRead path]) [] eq_refl eq_refl)
    as (st & w2 & Hrun & Ht2 & Hb2 & Hsmall).
  { cbn [mappings List.length]. lia. }
  rewrite (bind_Ok _ _ _ _ _ Hrun). cbn [app] in Ht2, Hsmall.
  cbn [db add_events w1 publications] in Hb2.
  unfold raise. cbn [any_Exception]. unfold ret, conn_close. rewrite emit_run.
  eexists. split; [reflexivity|]. split.
  - cbn [db add_events]. destruct (db w2) as [p m]. cbn in Ht2, Hb2. now subst.
  - intros Hlt. rewrite (Hsmall Hlt). unfold add_events, w1. cbn [trace db].
    f_equal. now rewrite <- !app_assoc.
Qed.

(** X13: a mapping stored by the import is found by the lookup of the
    pipeline, for the key with or without surrounding blanks, and the
    value is returned as stored. *)
Theorem imported_mapping_is_found path w lines before line after k v raw :
  os_path_exists env (trace w ++ [EvExists path]) path = true ->
  (forall h, read_lines env h path = Ok lines) ->
  data_lines lines = before ++ line :: after ->
  mapping_of_line line = Some (k, v) ->
  Forall (fun l => line_pmid l <> Some k) after ->
  Py.strip raw = k ->
  fst (get_pmcid_from_database env raw
         (snd (build_pmid_to_pmcid_mapping env path w)))
  = Ok (Some v).
Proof.
  intros Hex Hread Hlines Hline Hafter Hraw.
  destruct (build_mapping_run path w lines Hex Hread) as (w' & Hrun & Hdb).
  rewrite Hrun. cbn [snd].
  rewrite (get_pmcid_run env raw w' _ healthy (f_equal pmid_to_pmcid Hdb)).
  cbn [fst]. rewrite Hraw, Hlines, mappings_of_app, mappings_of_cons, Hline.
  cbn [app]. rewrite select_fold_upsert_last by (now apply mappings_of_no_key).
  cbn [map snd hd_error]. do 2 f_equal.
  unfold ensure_prefix_upper.
  assert (Hv : Py.startswith v "PMC" = true).
  { pose proof (mappings_of_prefixed [line]) as H.
    rewrite mappings_of_cons, Hline in H. now inversion H. }
  now rewrite (upper_keeps_prefix v Hv).
Qed.

(** The sibling path: the example line, read with or without its line
    end, is stored when it is not the first line of the file and no
    later line is stored under the same PMID. *)
Lemma mapping_line_after_first_is_stored path w first before line after :
  os_path_exists env (trace w ++ [EvExists path]) path = true ->
  (forall h, read_lines env h path = Ok (first :: before ++ line :: after)) ->
  Py.strip line = oa_line ->
  Forall (fun l => line_pmid l <> Some "999") after ->
  stored_mapping "999" (db (snd (build_pmid_to_pmcid_mapping env path w)))
  = Some "PMC123".
Proof.
  intros Hex Hread Hline Hafter. unfold stored_mapping.
  destruct (build_mapping_run path w _ Hex Hread) as (w' & Hrun & Hdb).
  rewrite Hrun. cbn [snd]. rewrite Hdb. cbn [pmid_to_pmcid].
  assert (Hm : mapping_of_line line = Some ("999", "PMC123")).
  { unfold mapping_of_line. cbv zeta. rewrite Hline. reflexivity. }
  assert (Hlines : exists pre,
             mappings_of (data_lines (first :: before ++ line :: after))
             = pre ++ ("999", "PMC123") :: mappings_of after).
  { unfold data_lines. cbn [hd tl].
    destruct (negb (Py.startswith (Py.strip first) "oa_package")).
    - exists (mappings_of before). rewrite mappings_of_app, mappings_of_cons, Hm.
      reflexivity.
    - exists (mappings_of (first :: before)).
      change (first :: before ++ line :: after)
        with ((first :: before) ++ line :: after).
      rewrite mappings_of_app, (mappings_of_cons line), Hm. reflexivity. }
  destruct Hlines as (pre & ->).
  rewrite select_fold_upsert_last by (now apply mappings_of_no_key).
  reflexivity.
Qed.

End ImportMore.

(** C4: the first line of the mapping file is skipped whenever it does
    not start with [oa_package], whether or not it is a timestamp.  A
    file that consists of the example line stores nothing and reports 0
    mappings; the same line after a timestamp line is stored as the
    mapping of 999 to PMC123. *)
Theorem first_line_of_mapping_file_is_skipped :
  build_pmid_to_pmcid_mapping (env_with_file [oa_line_nl]) "oa_file_list.txt" w0
  = (Ok 0,
     {| trace := [EvExists "oa_file_list.txt"; EvDbConnect;
                  EvDbExecute "DROP TABLE IF EXISTS pmid_to_pmcid";
                  EvDbExecute "CREATE TABLE pmid_to_pmcid";
                  EvRead "oa_file_list.txt"; EvDbClose];
        db := {| publications := None; pmid_to_pmcid := Some [] |} |})
  /\ stored_mapping "999"
       (db (snd (build_pmid_to_pmcid_mapping (env_with_file [oa_line_nl])
                                              "oa_file_list.txt" w0)))
     = None
  /\ build_pmid_to_pmcid_mapping (env_with_file [timestamp_line_nl; oa_line_nl])
                                 "oa_file_list.txt" w0
     = (Ok 1,
        {| trace := [EvExists "oa_file_list.txt"; EvDbConnect;
                     EvDbExecute "DROP TABLE IF EXISTS pmid_to_pmcid";
                     EvDbExecute "CREATE TABLE pmid_to_pmcid";
                     EvRead "oa_file_list.txt";
                     EvDbExecute
                       "INSERT OR REPLACE INTO pmid_to_pmcid (pmid, pmcid) VALUES (?, ?)";
                     EvDbClose];
           db := {| publications := None;
                    pmid_to_pmcid := Some [("999", "PMC123")] |} |}).
Proof. repeat split; vm_compute; reflexivity. Qed.

(** The line after a timestamp line, both with their line ends *)
Example line_after_timestamp_is_stored :
  stored_mapping "999"
    (db (snd (build_pmid_to_pmcid_mapping
                (env_with_file [timestamp_line_nl; oa_line_nl; "# end"])
                "oa_file_list.txt" w0)))
  = Some "PMC123".
Proof.
  apply (mapping_line_after_first_is_stored
           (env_with_file [timestamp_line_nl; oa_line_nl; "# end"])
           (fun h => eq_refl) "oa_file_list.txt" w0 timestamp_line_nl [] oa_line_nl
           ["# end"]).
  - reflexivity.
  - intros h. reflexivity.
  - vm_compute. reflexivity.
  - repeat constructor. vm_compute. discriminate.
Qed.

(** A later line stored under the same PMID replaces the mapping *)
Example later_line_replaces_mapping :
  stored_mapping "999"
    (db (snd (build_pmid_to_pmcid_mapping
                (env_with_file [timestamp_line; oa_line; oa_line_again])
                "oa_file_list.txt" w0)))
  = Some "PMC456".
Proof. vm_compute. reflexivity. Qed.

Lemma import_never_raises_witness :
  exists n w',
    build_pmid_to_pmcid_mapping env_offline "oa_file_list.txt" w_mapped = (Ok n, w')
    /\ publications (db w') = publications (db w_mapped)
    /\ (os_path_exists env_offline (trace w_mapped ++ [EvExists "oa_file_list.txt"])
                       "oa_file_list.txt" = false ->
        n = 0 /\ w' = add_events w_mapped [EvExists "oa_file_list.txt"]).
Proof.
  apply (import_never_raises env_offline).
  intros h. reflexivity.
Defined.

Lemma imported_table_is_well_formed_witness :
  exists n t w',
    build_pmid_to_pmcid_mapping
      (env_with_file [timestamp_line; oa_line; oa_line_again]) "oa_file_list.txt" w0
    = (Ok n, w')
    /\ pmid_to_pmcid (db w') = Some t
    /\ well_formed_mapping t
    /\ n = List.length (mappings_of (data_lines [timestamp_line; oa_line; oa_line_again]))
    /\ List.length t <= n.
Proof.
  apply (imported_table_is_well_formed
           (env_with_file [timestamp_line; oa_line; oa_line_again])).
  - intros h. reflexivity.
  - reflexivity.
  - intros h. reflexivity.
Defined.

Lemma import_replaces_previous_mappings_witness :
  stored_mapping "111"
    (db (snd (build_pmid_to_pmcid_mapping (env_with_file [timestamp_line; oa_line])
                                          "oa_file_list.txt" w_mapped)))
  = None.
Proof.
  apply (import_replaces_previous_mappings
           (env_with_file [timestamp_line; oa_line]) (fun h => eq_refl)
           "oa_file_list.txt" w_mapped [timestamp_line; oa_line] "111").
  - reflexivity.
  - intros h. reflexivity.
  - repeat constructor. vm_compute. discriminate.
Defined.

Lemma read_failure_leaves_only_full_batches_witness :
  exists w',
    build_pmid_to_pmcid_mapping (env_broken_file [timestamp_line_nl; oa_line_nl])
                                "oa_file_list.txt" w_mapped
    = (Ok 0, w')
    /\ db w'
       = {| publications := publications (db w_mapped);
            pmid_to_pmcid :=
              Some (fold_left upsert_row
                      (flushed (mappings_of
                                  (data_lines [timestamp_line_nl; oa_line_nl]))) []) |}
    /\ (List.length (mappings_of (data_lines [timestamp_line_nl; oa_line_nl])) < 1000 ->
        w' = {| trace := trace w_mapped ++ import_events "oa_file_list.txt"
                         ++ [EvRead "oa_file_list.txt"; EvDbClose];
                db := {| publications := publications (db w_mapped);
                         pmid_to_pmcid := Some [] |} |}).
Proof.
  apply (read_failure_leaves_only_full_batches
           (env_broken_file [timestamp_line_nl; oa_line_nl]) (fun h => eq_refl)
           "oa_file_list.txt" w_mapped
           (OtherException "'utf-8' codec can't decode byte")).
  - reflexivity.
  - intros h. reflexivity.
  - intros h. reflexivity.
Defined.

Lemma imported_mapping_is_found_witness :
  fst (get_pmcid_from_database (env_with_file [timestamp_line; oa_line; "# end"]) " 999 "
         (snd (build_pmid_to_pmcid_mapping
                 (env_with_file [timestamp_line; oa_line; "# end"])
                 "oa_file_list.txt" w0)))
  = Ok (Some "PMC123").
Proof.
  apply (imported_mapping_is_found
           (env_with_file [timestamp_line; oa_line; "# end"]) (fun h => eq_refl)
           "oa_file_list.txt" w0 [timestamp_line; oa_line; "# end"]
           [] oa_line ["# end"] "999" "PMC123" " 999 ").
  - reflexivity.
  - intros h. reflexivity.
  - reflexivity.
  - vm_compute. reflexivity.
  - repeat constructor. vm_compute. discriminate.
  - vm_compute. reflexivity.
Defined.

(** ** The pipeline and the readers, further *)

Lemma bind_Raise_inv {A B} (m : M A) (k : A -> M B) w e w' :
  bind m k w = (Raise e, w') ->
  m w = (Raise e, w')
  \/ exists a w1, m w = (Ok a, w1) /\ k a w1 = (Raise e, w').
Proof.
  unfold bind. destruct (m w) as [[a|e1] w1]; [eauto|].
  intros H. left. inversion H. reflexivity.
Qed.

Lemma returns_bind_with {A B} (P : A -> Prop) (Q : B -> Prop) (m : M A) (k : A -> M B) :
  returns P m -> (forall a, P a -> returns Q (k a)) -> returns Q (bind m k).
Proof.
  intros Hm Hk w b w' H. apply bind_Ok_inv in H.
  destruct H as (a & w1 & H1 & H). eapply Hk; eauto.
Qed.

Lemma returns_for_each {A S} (I : S -> Prop) (l : list A) (body : A -> S -> M S) :
  (forall x s, I s -> returns I (body x s)) ->
  forall s, I s -> returns I (for_each l body s).
Proof.
  intros Hb. induction l as [|x l IH]; intros s Hs; cbn [for_each].
  - now apply returns_ret.
  - eapply returns_bind_with; [apply Hb; exact Hs|]. intros s' Hs'. now apply IH.
Qed.

Lemma paper_of_row_of_paper d : paper_of_row (row_of_paper d) = d.
Proof. now destruct d. Qed.

Section PipelineMore.

Context (cfg : Config) (env : Env).

Lemma conn_execute_Ok_inv {A} sql (sem : database -> result (A * database)) w a w' :
  conn_execute env sql sem w = (Ok a, w') ->
  exists d, sem (db w) = Ok (a, d)
            /\ w' = {| trace := trace w ++ [EvDbExecute sql]; db := d |}.
Proof.
  unfold conn_execute, db_check_fault, bind, ask, get_db, put_db, ret, raise.
  rewrite emit_run. cbn [trace db add_events].
  destruct (db_fault env _); [discriminate|].
  cbn [db add_events].
  destruct (sem (db w)) as [[a' d]|e']; intros H; inversion H. eauto.
Qed.

(** [init_db] either leaves the table of the papers in place, with its
    rows, or raises without having changed anything. *)
Lemma init_db_Ok w w' :
  init_db cfg env w = (Ok tt, w') ->
  publications (db w')
  = Some (match publications (db w) with Some t => t | None => [] end)
  /\ pmid_to_pmcid (db w') = pmid_to_pmcid (db w).
Proof.
  unfold init_db. intros H.
  apply bind_Ok_inv in H. destruct H as ([] & w1 & H1 & H). apply emit_inv in H1.
  apply bind_Ok_inv in H. destruct H as (r & w2 & H2 & H).
  apply ask_inv in H2. destruct H2 as [_ ->].
  apply bind_Ok_inv in H. destruct H as ([] & w3 & H3 & H).
  apply lift_inv in H3. destruct H3 as [_ ->].
  apply bind_Ok_inv in H. destruct H as ([] & w4 & H4 & H).
  pose proof (keeps_db_connect env _ _ _ H4) as K4.
  apply conn_execute_Ok_inv in H. destruct H as (d & Hsem & ->).
  unfold Sql.create_publications in Hsem. inversion Hsem; subst d.
  cbn [db publications pmid_to_pmcid]. rewrite K4, H1. cbn [db add_events].
  split; [now destruct (publications (db w))|reflexivity].
Qed.

Lemma init_db_raises_clean : raises_clean (init_db cfg env).
Proof.
  intros w e w'. unfold init_db. intros H.
  apply bind_Raise_inv in H. destruct H as [H|([] & w1 & H1 & H)]; [discriminate|].
  apply emit_inv in H1.
  apply bind_Raise_inv in H. destruct H as [H|(r & w2 & H2 & H)]; [discriminate|].
  apply ask_inv in H2. destruct H2 as [_ ->].
  apply bind_Raise_inv in H. destruct H as [H|([] & w3 & H3 & H)].
  { unfold lift in H. inversion H; subst. reflexivity. }
  apply lift_inv in H3. destruct H3 as [_ ->].
  apply bind_Raise_inv in H. destruct H as [H|([] & w4 & H4 & H)].
  { rewrite (keeps_db_connect env _ _ _ H). now subst w1. }
  apply conn_execute_Raise in H. subst w'. cbn [db add_events].
  rewrite (keeps_db_connect env _ _ _ H4). now subst w1.
Qed.

Lemma insert_paper_run data w t :
  db_healthy env ->
  publications (db w) = Some t ->
  insert_paper env data w
  = (Ok tt,
     {| trace := trace w ++ [EvDbExecute upsert_sql];
        db := {| publications :=
                   Some (Sql.insert_or_replace row_pmcid (row_of_paper data) t);
                 pmid_to_pmcid := pmid_to_pmcid (db w) |} |}).
Proof.
  intros Hdb Ht. unfold insert_paper.
  apply try_except_Ok. apply (conn_execute_upsert_run env data w t); [apply Hdb|exact Ht].
Qed.

(** Reading a paper back on a working database *)
Lemma get_paper_data_run raw w t :
  db_healthy env ->
  publications (db w) = Some t ->
  get_paper_data env raw w
  = (Ok (option_map paper_of_row
           (hd_error (Sql.select_where row_pmcid (ensure_prefix_exact raw) t))),
     add_events w read_events).
Proof.
  intros Hdb Ht. unfold get_paper_data. cbv zeta.
  erewrite try_except_Ok; [reflexivity|].
  rewrite (bind_Ok _ _ _ _ _ (db_connect_run env w Hdb)).
  unfold try_finally.
  set (w1 := add_events w [EvDbConnect]).
  assert (Hsel : select_paper (ensure_prefix_exact raw) (db w1)
                 = Ok (hd_error (Sql.select_where row_pmcid (ensure_prefix_exact raw) t),
                       db w1)).
  { unfold select_paper. cbn [db w1 add_events]. now rewrite Ht. }
  rewrite (bind_Ok _ _ _ _ _
             (conn_execute_read_run env _ (select_paper (ensure_prefix_exact raw))
                                    w1 _ Hdb Hsel)).
  destruct (hd_error _); unfold ret, conn_close; rewrite emit_run;
    subst w1; rewrite !add_events_app; reflexivity.
Qed.

Lemma ensure_prefix_exact_fixed s :
  Py.startswith s "PMC" = true -> ensure_prefix_exact s = s.
Proof. intros H. unfold ensure_prefix_exact. now rewrite H. Qed.

(** What a successful run on a working database leaves in the tables *)
Lemma process_paper_id_stored raw w doc w' :
  db_healthy env ->
  process_paper_id cfg env raw w = (Ok doc, w') ->
  exists pmc w1,
    resolve_paper_id env raw w = (Ok pmc, w1)
    /\ pmcid doc = ensure_prefix_exact pmc
    /\ db w'
       = {| publications :=
              Some (Sql.insert_or_replace row_pmcid (row_of_paper doc)
                      (match publications (db w) with Some t => t | None => [] end));
            pmid_to_pmcid := pmid_to_pmcid (db w) |}.
Proof.
  intros Hdb H.
  destruct (process_paper_id_Ok _ _ _ _ _ _ H)
    as (pmc & w1 & fetched & w2 & w3 & w4 & w5 & H1 & H2 & H3 & H4 & H5 & ->).
  exists pmc, w1. split; [exact H1|]. split.
  { rewrite (annotate_paper_pmcid _ _ _ _ _ _ H3).
    destruct (fetch_Some _ _ _ _ _ _ H2) as (resp & root & evs0 & _ & _ & Hp).
    now destruct (parse_bioc_Some _ _ _ _ _ _ _ Hp) as (evsp & _ & Hpm & _). }
  assert (Hkeep : db w3 = db w).
  { rewrite (keeps_annotate_paper _ _ _ _ _ _ H3).
    rewrite (keeps_fetch_bioc_paper _ _ _ _ _ _ _ _ H2).
    exact (keeps_resolve_paper_id _ _ _ _ _ H1). }
  destruct (init_db_Ok _ _ H4) as [Hpub Hmap]. rewrite Hkeep in Hpub, Hmap.
  rewrite (insert_paper_run doc w4 _ Hdb Hpub) in H5. inversion H5; subst w5.
  cbn [db add_events]. now rewrite Hmap.
Qed.

(** X14: on a working database, the document a successful run returns
    is the one row stored under its identifier, the rows under other
    identifiers and the mapping table are as before, and reading the
    paper back under that identifier gives the document returned. *)
Theorem processed_paper_can_be_read_back raw w doc w' :
  db_healthy env ->
  process_paper_id cfg env raw w = (Ok doc, w') ->
  Py.startswith (pmcid doc) "PMC" = true
  /\ stored_rows (pmcid doc) (db w') = [row_of_paper doc]
  /\ (forall k, k <> pmcid doc -> stored_rows k (db w') = stored_rows k (db w))
  /\ pmid_to_pmcid (db w') = pmid_to_pmcid (db w)
  /\ get_paper_data env (pmcid doc) w' = (Ok (Some doc), add_events w' read_events).
Proof.
  intros Hdb H.
  destruct (process_paper_id_stored raw w doc w' Hdb H)
    as (pmc & w1 & _ & Hid & Hdbw).
  assert (Hpre : Py.startswith (pmcid doc) "PMC" = true)
    by (rewrite Hid; apply ensure_prefix_exact_prefixed).
  split; [exact Hpre|].
  split; [unfold stored_rows; rewrite Hdbw; cbn [publications];
          apply (select_insert_same row_pmcid (row_of_paper doc))|].
  split.
  { intros k Hk. unfold stored_rows. rewrite Hdbw. cbn [publications].
    rewrite select_insert_other by (cbn [row_of_paper row_pmcid]; exact Hk).
    now destruct (publications (db w)). }
  split; [now rewrite Hdbw|].
  erewrite get_paper_data_run; [|exact Hdb|rewrite Hdbw; reflexivity].
  rewrite (ensure_prefix_exact_fixed _ Hpre).
  rewrite (select_insert_same row_pmcid (row_of_paper doc)).
  cbn [hd_error option_map]. now rewrite paper_of_row_of_paper.
Qed.

Lemma never_raises_not_Raise {A} (m : M A) w e w' :
  never_raises m -> m w = (Raise e, w') -> False.
Proof. intros Hm H. destruct (Hm w) as (a & w1 & E). congruence. Qed.

(** X15: a run of the pipeline that raises leaves both tables exactly as
    they were. *)
Theorem failed_run_stores_nothing raw w e w' :
  process_paper_id cfg env raw w = (Raise e, w') ->
  db w' = db w.
Proof.
  unfold process_paper_id. intros H.
  apply bind_Raise_inv in H. destruct H as [H|(pmc & w1 & H1 & H)].
  { exact (keeps_resolve_paper_id _ _ _ _ _ H). }
  pose proof (keeps_resolve_paper_id _ _ _ _ _ H1) as K1.
  apply bind_Raise_inv in H. destruct H as [H|(fetched & w2 & H2 & H)].
  { rewrite (keeps_fetch_bioc_paper _ _ _ _ _ _ _ _ H). exact K1. }
  pose proof (keeps_fetch_bioc_paper _ _ _ _ _ _ _ _ H2) as K2.
  destruct fetched as [fetched|].
  2:{ unfold raise in H. inversion H; subst. congruence. }
  apply bind_Raise_inv in H. destruct H as [H|(d & w3 & H3 & H)].
  { rewrite (keeps_annotate_paper _ _ _ _ _ _ H). congruence. }
  pose proof (keeps_annotate_paper _ _ _ _ _ _ H3) as K3.
  apply bind_Raise_inv in H. destruct H as [H|([] & w4 & H4 & H)].
  { rewrite (init_db_raises_clean _ _ _ H). congruence. }
  exfalso.
  apply bind_Raise_inv in H. destruct H as [H|([] & w5 & H5 & H)].
  { exact (never_raises_not_Raise _ _ _ _ (insert_paper_never_raises env d) H). }
  apply bind_Raise_inv in H. destruct H as [H|([] & w6 & H6 & H)]; discriminate.
Qed.

End PipelineMore.

Lemma processed_paper_can_be_read_back_witness :
  Py.startswith (pmcid annotated_one_document) "PMC" = true
  /\ stored_rows (pmcid annotated_one_document)
                 (db (snd (process_paper_id cfg_on env_one_document "PMC1" w0)))
     = [row_of_paper annotated_one_document]
  /\ (forall k, k <> pmcid annotated_one_document ->
        stored_rows k (db (snd (process_paper_id cfg_on env_one_document "PMC1" w0)))
        = stored_rows k (db w0))
  /\ pmid_to_pmcid (db (snd (process_paper_id cfg_on env_one_document "PMC1" w0)))
     = pmid_to_pmcid (db w0)
  /\ get_paper_data env_one_document (pmcid annotated_one_document)
                    (snd (process_paper_id cfg_on env_one_document "PMC1" w0))
     = (Ok (Some annotated_one_document),
        add_events (snd (process_paper_id cfg_on env_one_document "PMC1" w0))
                   read_events).
Proof.
  apply (processed_paper_can_be_read_back cfg_on env_one_document "PMC1" w0
           annotated_one_document
           (snd (process_paper_id cfg_on env_one_document "PMC1" w0))).
  - intros h. reflexivity.
  - vm_compute. reflexivity.
Defined.

Lemma failed_run_stores_nothing_witness :
  db (snd (process_paper_id cfg_on env_offline "PMC1" w_mapped)) = db w_mapped.
Proof.
  apply (failed_run_stores_nothing cfg_on env_offline "PMC1" w_mapped
           (ValueError "Failed to fetch paper with ID: PMC1")).
  vm_compute. reflexivity.
Defined.

(** ** Entity extraction switched off *)

Section ExtractionDisabled.

Context (cfg : Config) (env : Env)
        (disabled : ENABLE_ENTITY_EXTRACTION cfg = false).

Lemma quiet_idconv_loop pmid m attempts d :
  emits (fun e => is_post e = false) (idconv_loop env pmid m attempts d).
Proof.
  revert d. induction attempts as [|a rest IH]; intros d; cbn [idconv_loop];
    unfold raise_for_status, sleep; repeat emits_step; try reflexivity; auto.
Qed.

Lemma quiet_fetch_entities caption n :
  emits (fun e => is_post e = false) (fetch_entities_from_bern cfg env caption n).
Proof. unfold fetch_entities_from_bern. rewrite disabled. cbn [negb]. emits_step. Qed.

Lemma quiet_process_paper_id raw :
  emits (fun e => is_post e = false) (process_paper_id cfg env raw).
Proof.
  unfold process_paper_id, resolve_paper_id, get_pmcid_from_database,
    convert_pmid_to_pmcid, fetch_bioc_paper, parse_bioc, parse_document,
    add_figure, annotate_paper, annotate_figure, init_db, insert_paper,
    db_connect, conn_execute, db_check_fault, conn_close, write_text,
    raise_for_status.
  repeat emits_step; try reflexivity;
    auto using quiet_idconv_loop, quiet_fetch_entities.
Qed.

Lemma add_figure_disabled fig_elem figs :
  bare figs -> returns bare (add_figure cfg env fig_elem figs).
Proof.
  intros Hfigs. unfold add_figure, fetch_entities_from_bern.
  rewrite disabled. cbn [negb].
  destruct (passage_text fig_elem); [|now apply returns_ret].
  intros w a w' H. apply bind_Ok_inv in H. destruct H as (es & w1 & H1 & H).
  apply ret_inv in H1. destruct H1 as [-> ->].
  apply ret_inv in H. destruct H as [-> _].
  apply Forall_app. split; [exact Hfigs|]. now repeat constructor.
Qed.

Lemma parse_document_disabled document st :
  bare (st_figures st) ->
  returns (fun st' => bare (st_figures st')) (parse_document cfg env document st).
Proof.
  intros Hst. unfold parse_document. cbv zeta.
  eapply returns_bind_with.
  - apply (returns_for_each bare); [|exact Hst].
    intros x s Hs. now apply add_figure_disabled.
  - intros figs Hfigs. apply returns_ret. exact Hfigs.
Qed.

Lemma parse_bioc_disabled pmc_id root :
  returns (fun r => forall p, r = Some p -> bare (figures p))
          (parse_bioc cfg env pmc_id root).
Proof.
  unfold parse_bioc. cbv zeta.
  eapply returns_bind_with.
  - apply (returns_for_each (fun st => bare (st_figures st))).
    + intros d st Hst. now apply parse_document_disabled.
    + constructor.
  - intros st Hst. cbv beta.
    repeat returns_step;
      first [ intros p [=]; subst; exact Hst
            | intros w a w' Hr; discriminate Hr ].
Qed.

(** X16: with entity extraction switched off, a run of the pipeline
    never sends a request to the annotation service, whatever its
    outcome, and every figure of a document it returns has an empty
    entity list. *)
Theorem extraction_disabled_never_annotates raw w r w' :
  process_paper_id cfg env raw w = (r, w') ->
  (exists evs, trace w' = trace w ++ evs
               /\ Forall (fun e => is_post e = false) evs)
  /\ (forall doc, r = Ok doc -> bare (figures doc)).
Proof.
  intros H. split; [exact (quiet_process_paper_id raw _ _ _ H)|].
  intros doc ->.
  destruct (process_paper_id_Ok _ _ _ _ _ _ H)
    as (pmc & w1 & fetched & w2 & w3 & w4 & w5 & H1 & H2 & H3 & H4 & H5 & _).
  unfold annotate_paper in H3. rewrite disabled in H3. cbn [andb] in H3.
  apply ret_inv in H3. destruct H3 as [-> _].
  destruct (fetch_Some _ _ _ _ _ _ H2) as (resp & root & evs0 & _ & _ & Hp).
  exact (parse_bioc_disabled _ _ _ _ _ Hp fetched eq_refl).
Qed.

End ExtractionDisabled.

Lemma extraction_disabled_never_annotates_witness :
  (exists evs,
      trace (snd (process_paper_id cfg_off env_one_document "PMC1" w0))
      = trace w0 ++ evs
      /\ Forall (fun e => is_post e = false) evs)
  /\ (forall doc,
         fst (process_paper_id cfg_off env_one_document "PMC1" w0) = Ok doc ->
         bare (figures doc)).
Proof.
  apply (extraction_disabled_never_annotates cfg_off env_one_document eq_refl
           "PMC1" w0).
  vm_compute. reflexivity.
Defined.

(** ** The handlers of the API *)

Lemma returns_raise {A} (Q : A -> Prop) e : returns Q (@raise A e).
Proof. intros w a w' H. discriminate H. Qed.

Lemma select_where_key {R} (key : R -> string) k t row :
  In row (Sql.select_where key k t) -> In row t /\ key row = k.
Proof.
  unfold Sql.select_where. intros H. apply filter_In in H as [Hin Hk].
  split; [exact Hin|]. now apply String.eqb_eq.
Qed.

Lemma hd_error_In {A} (l : list A) x : hd_error l = Some x -> In x l.
Proof. destruct l; [discriminate|]. intros [= ->]. now left. Qed.

Section Handlers.

Context (cfg : Config) (env : Env).

(** One round of the [/extract] loop always gives a response for its
    identifier. *)
Lemma extract_one_always pid w :
  exists r w',
    extract_one cfg env pid w = (Ok r, w')
    /\ resp_id r = pid
    /\ ((resp_status r = "success" /\ resp_error r = None)
        \/ (resp_status r = "failed" /\ resp_note r = None
            /\ exists msg, resp_error r = Some msg)).
Proof.
  unfold extract_one, try_except.
  match goal with |- context [match ?m w with _ => _ end] =>
    assert (Hret : returns (fun r => resp_id r = pid
                                     /\ resp_status r = "success"
                                     /\ resp_error r = None) m);
    [|destruct (m w) as [[r|e] w'] eqn:E]
  end.
  - repeat returns_step; auto.
  - exists r, w'. split; [reflexivity|].
    destruct (Hret _ _ _ E) as (A & B & C). auto.
  - cbn [any_Exception]. eexists _, w'. unfold ret. split; [reflexivity|].
    cbn [resp_id resp_status resp_error resp_note]. split; [reflexivity|].
    right. eauto.
Qed.

(** X17: the [/extract] handler never raises: it answers every
    identifier of the request, once and in order, with either a success
    without error text or a failure with an error text. *)
Theorem extract_answers_every_id paper_ids w :
  exists results w',
    extract_papers cfg env paper_ids w = (Ok results, w')
    /\ map resp_id results = paper_ids
    /\ Forall (fun r => (resp_status r = "success" /\ resp_error r = None)
                        \/ (resp_status r = "failed" /\ resp_note r = None
                            /\ exists msg, resp_error r = Some msg))
              results.
Proof.
  unfold extract_papers.
  assert (Hgen : forall ids done w,
             exists new w',
               for_each ids
                 (fun pid results => r <- extract_one cfg env pid ;; ret (results ++ [r]))
                 done w
               = (Ok (done ++ new), w')
               /\ map resp_id new = ids
               /\ Forall (fun r => (resp_status r = "success" /\ resp_error r = None)
                                   \/ (resp_status r = "failed" /\ resp_note r = None
                                       /\ exists msg, resp_error r = Some msg))
                         new).
  { induction ids as [|pid ids IH]; intros done w1.
    - exists [], w1. cbn [for_each]. unfold ret. rewrite app_nil_r. auto.
    - destruct (extract_one_always pid w1) as (r & w2 & H1 & Hid & Hst).
      destruct (IH (done ++ [r]) w2) as (new & w3 & H2 & Hids & Hall).
      exists (r :: new), w3. cbn [for_each].
      rewrite (bind_Ok _ _ _ _ _ (bind_Ok _ _ _ _ _ H1)). cbv beta.
      rewrite H2, <- app_assoc. split; [reflexivity|].
      cbn [map]. rewrite Hid, Hids. split; [reflexivity|]. now constructor. }
  destruct (Hgen paper_ids [] w) as (new & w' & H & Hids & Hall).
  exists new, w'. auto.
Qed.

Lemma publication_exists_run k w t :
  db_healthy env ->
  publications (db w) = Some t ->
  publication_exists env k w
  = (Ok (match hd_error (map row_pmcid (Sql.select_where row_pmcid k t)) with
         | Some _ => true
         | None => false
         end),
     add_events w cache_events).
Proof.
  intros Hdb Ht. unfold publication_exists.
  rewrite (bind_Ok _ _ _ _ _ (db_connect_run env w Hdb)).
  set (w1 := add_events w [EvDbConnect]).
  assert (Hsel : Sql.select_publication k (db w1)
                 = Ok (hd_error (map row_pmcid (Sql.select_where row_pmcid k t)),
                       db w1)).
  { unfold Sql.select_publication. cbn [db w1 add_events]. now rewrite Ht. }
  rewrite (bind_Ok _ _ _ _ _
             (conn_execute_read_run env _ (Sql.select_publication k) w1 _ Hdb Hsel)).
  unfold bind, conn_close, ret. rewrite emit_run.
  subst w1. rewrite !add_events_app. reflexivity.
Qed.

(** X18: on a working database, once the pipeline has stored the paper of
    an identifier of ASCII characters that starts with the prefix in
    upper case and has no lower-case letter at all (it is its own
    upper-case form), the [/extract] handler answers that identifier
    from the database: one look-up and no request to any remote
    service. *)
Theorem stored_paper_is_not_fetched_again raw w doc w' :
  db_healthy env ->
  Py.isascii raw = true ->
  Py.startswith raw "PMC" = true ->
  Py.upper raw = raw ->
  process_paper_id cfg env raw w = (Ok doc, w') ->
  extract_one cfg env raw w'
  = (Ok {| resp_id := raw; resp_status := "success"; resp_error := None;
           resp_note := Some "Retrieved from database" |},
     add_events w' cache_events)
  /\ requests_made cache_events = 0.
Proof.
  intros Hdb _ Hpre Hup H. split; [|reflexivity].
  destruct (process_paper_id_stored cfg env raw w doc w' Hdb H)
    as (pmc & w1 & Hres & Hid & Hdbw).
  assert (Hpre' : Py.startswith (Py.upper raw) "PMC" = true) by (now rewrite Hup).
  rewrite (resolve_prefixed env raw w Hpre') in Hres. inversion Hres; subst pmc w1.
  rewrite (ensure_prefix_exact_fixed raw Hpre) in Hid.
  unfold extract_one. erewrite try_except_Ok; [reflexivity|].
  unfold stored_note. rewrite Hpre', Hup. cbv iota.
  unfold bind at 1. unfold bind at 1.
  rewrite (publication_exists_run raw w' _ Hdb (f_equal publications Hdbw)).
  assert (Hsel : Sql.select_where row_pmcid raw
                   (Sql.insert_or_replace row_pmcid (row_of_paper doc)
                      (match publications (db w) with Some t => t | None => [] end))
                 = [row_of_paper doc]).
  { rewrite <- Hid. apply (select_insert_same row_pmcid (row_of_paper doc)). }
  rewrite Hsel. cbn [map hd_error]. reflexivity.
Qed.

Lemma get_paper_data_never_raises paper_id :
  never_raises (get_paper_data env paper_id).
Proof.
  unfold get_paper_data. cbv zeta. apply try_any_never_raises.
  intros e w. unfold ret. eauto.
Qed.

Lemma get_pmcid_never_raises pmid : never_raises (get_pmcid_from_database env pmid).
Proof.
  unfold get_pmcid_from_database. apply try_any_never_raises.
  intros e w. unfold ret. eauto.
Qed.

Lemma keeps_get_paper_data paper_id : keeps_db (get_paper_data env paper_id).
Proof.
  unfold get_paper_data. cbv zeta.
  repeat first [apply keeps_conn_execute_read | keeps_step]; auto with keeps.
  intros dd ?x ?d Hsem. unfold select_paper, Sql.no_table in Hsem.
  destruct (publications dd); now inversion Hsem.
Qed.

(** A paper read back is a row of the table, stored under the key asked
    for with the exact prefix. *)
Lemma get_paper_data_Some paper_id w d w' :
  get_paper_data env paper_id w = (Ok (Some d), w') ->
  exists t row,
    publications (db w) = Some t /\ In row t
    /\ row_pmcid row = ensure_prefix_exact paper_id
    /\ d = paper_of_row row.
Proof.
  unfold get_paper_data. cbv zeta. unfold try_except.
  destruct (bind _ _ w) as [[r|e] w1] eqn:E; [|cbn [any_Exception]; discriminate].
  intros H. inversion H; subst r w1. clear H.
  apply bind_Ok_inv in E. destruct E as ([] & w1 & H1 & E).
  pose proof (keeps_db_connect env _ _ _ H1) as K1.
  unfold try_finally in E.
  destruct (bind _ _ w1) as [r2 w2] eqn:E2.
  assert (Hr2 : r2 = Ok (Some d)).
  { unfold conn_close in E. rewrite emit_run in E. now inversion E. }
  subst r2. apply bind_Ok_inv in E2. destruct E2 as (res & w3 & H3 & E2).
  apply conn_execute_Ok_inv in H3. destruct H3 as (d3 & Hsem & _).
  unfold select_paper in Hsem. rewrite K1 in Hsem.
  destruct (publications (db w)) as [t|] eqn:Ht; [|discriminate].
  inversion Hsem; subst res. clear Hsem.
  destruct (hd_error _) as [row|] eqn:Hrow.
  - apply ret_inv in E2. destruct E2 as [[= ->] _].
    apply hd_error_In in Hrow. apply select_where_key in Hrow as [Hin Hk].
    exists t, row. auto.
  - apply ret_inv in E2. destruct E2 as [[=] _].
Qed.

(** X19: the [/papers] handler only reads: it leaves the tables as they
    were, the only exception it raises is the 404, and a paper it
    returns is a row of the table whose identifier starts with PMC; the
    entry for the PMID is only added for an identifier without the
    prefix. *)
Theorem get_paper_finds_or_404 paper_id w r w' :
  get_paper env paper_id w = (r, w') ->
  db w' = db w
  /\ (forall e, r = Raise e -> e = OtherException "404: Paper not found")
  /\ (forall d pm, r = Ok (d, pm) ->
        (exists t row, publications (db w) = Some t /\ In row t
                       /\ d = paper_of_row row)
        /\ Py.startswith (pmcid d) "PMC" = true
        /\ (forall p, pm = Some p ->
              p = paper_id /\ Py.startswith (Py.upper paper_id) "PMC" = false)).
Proof.
  intros H.
  assert (Hkeep : keeps_db (get_paper env paper_id)).
  { unfold get_paper.
    repeat first [apply keeps_get_paper_data | keeps_step]; auto with keeps. }
  split; [exact (Hkeep _ _ _ H)|].
  assert (Hfound : forall raw w1 d w2,
             get_paper_data env raw w1 = (Ok (Some d), w2) -> db w1 = db w ->
             (exists t row, publications (db w) = Some t /\ In row t
                            /\ d = paper_of_row row)
             /\ Py.startswith (pmcid d) "PMC" = true).
  { intros raw w1 d w2 Hd Hw.
    destruct (get_paper_data_Some _ _ _ _ Hd) as (t & row & Ht & Hin & Hk & ->).
    rewrite Hw in Ht. split; [eauto|].
    cbn [paper_of_row pmcid]. rewrite Hk. apply ensure_prefix_exact_prefixed. }
  unfold get_paper in H.
  destruct (get_paper_data_never_raises paper_id w) as (data & w1 & H1).
  rewrite (bind_Ok _ _ _ _ _ H1) in H.
  pose proof (keeps_get_paper_data _ _ _ _ H1) as K1.
  destruct data as [d|].
  { unfold bind, ret in H. inversion H; subst r w'. clear H.
    split; [discriminate|]. intros d' pm [= <- <-].
    destruct (Hfound _ _ _ _ H1 eq_refl) as [A B].
    split; [exact A|]. split; [exact B|]. discriminate. }
  destruct (Py.startswith (Py.upper paper_id) "PMC") eqn:Hp; cbn [negb] in H.
  { unfold bind, ret, raise in H. inversion H; subst r w'.
    split; [now intros e [= <-]|discriminate]. }
  destruct (get_pmcid_never_raises paper_id w1) as (pmcid' & w2 & H2).
  pose proof (keeps_get_pmcid_from_database env _ _ _ _ H2) as K2.
  unfold bind in H. rewrite H2 in H.
  destruct (truthy pmcid').
  2:{ unfold ret, raise in H. inversion H; subst r w'.
      split; [now intros e [= <-]|discriminate]. }
  destruct (get_paper_data_never_raises
              (match pmcid' with Some p => p | None => "" end) w2)
    as (data & w3 & H3).
  rewrite H3 in H.
  destruct data as [d|].
  - unfold ret in H. inversion H; subst r w'. clear H.
    split; [discriminate|]. intros d' pm [= <- <-].
    destruct (Hfound _ _ _ _ H3 (eq_trans K2 K1)) as [A B].
    split; [exact A|]. split; [exact B|]. now intros p [= <-].
  - unfold ret, raise in H. inversion H; subst r w'.
    split; [now intros e [= <-]|discriminate].
Qed.

End Handlers.

Lemma stored_paper_is_not_fetched_again_witness :
  extract_one cfg_on env_one_document "PMC1"
              (snd (process_paper_id cfg_on env_one_document "PMC1" w0))
  = (Ok {| resp_id := "PMC1"; resp_status := "success"; resp_error := None;
           resp_note := Some "Retrieved from database" |},
     add_events (snd (process_paper_id cfg_on env_one_document "PMC1" w0))
                cache_events)
  /\ requests_made cache_events = 0.
Proof.
  apply (stored_paper_is_not_fetched_again cfg_on env_one_document "PMC1" w0
           annotated_one_document).
  - intros h. reflexivity.
  - reflexivity.
  - reflexivity.
  - reflexivity.
  - vm_compute. reflexivity.
Defined.

(** An identifier with a lower-case letter after the prefix is stored as
    it is written but looked up in upper case: the handler does not find
    it and runs the pipeline again. *)
Example mixed_case_identifier_is_fetched_again :
  fst (extract_one cfg_on env_one_document "PMC1a"
                   (snd (process_paper_id cfg_on env_one_document "PMC1a" w0)))
  = Ok {| resp_id := "PMC1a"; resp_status := "success"; resp_error := None;
          resp_note := None |}
  /\ hd_error
       (filter is_network
          (skipn (List.length
                    (trace (snd (process_paper_id cfg_on env_one_document "PMC1a" w0))))
                 (trace (snd (extract_one cfg_on env_one_document "PMC1a"
                                (snd (process_paper_id cfg_on env_one_document
                                                       "PMC1a" w0)))))))
     = Some (EvHttpGet (bioc_url "" "xml" "PMC1a" "unicode")).
Proof. split; vm_compute; reflexivity. Qed.

Lemma get_paper_finds_or_404_witness :
  db (snd (get_paper env_offline "999" w_mapped)) = db w_mapped
  /\ (forall e, fst (get_paper env_offline "999" w_mapped) = Raise e ->
        e = OtherException "404: Paper not found")
  /\ (forall d pm, fst (get_paper env_offline "999" w_mapped) = Ok (d, pm) ->
        (exists t row, publications (db w_mapped) = Some t /\ In row t
                       /\ d = paper_of_row row)
        /\ Py.startswith (pmcid d) "PMC" = true
        /\ (forall p, pm = Some p ->
              p = "999" /\ Py.startswith (Py.upper "999") "PMC" = false)).
Proof.
  apply (get_paper_finds_or_404 env_offline "999" w_mapped).
  vm_compute. reflexivity.
Defined.

(** ** The batch watcher, further *)

Lemma for_each_always_inv {A S} (I : list A -> S -> Prop) (body : A -> S -> M S) :
  (forall x done s, I done s ->
     always_returns (fun s' => I (done ++ [x]) s') (body x s)) ->
  forall l done s, I done s ->
    always_returns (fun s' => I (done ++ l) s') (for_each l body s).
Proof.
  intros Hb. induction l as [|x l IH]; intros done s Hs w.
  - exists s, w. cbn [for_each]. unfold ret. rewrite app_nil_r. auto.
  - destruct (Hb x done s Hs w) as (s1 & w1 & H1 & I1).
    destruct (IH (done ++ [x]) s1 I1 w1) as (s2 & w2 & H2 & I2).
    exists s2, w2. cbn [for_each]. rewrite (bind_Ok _ _ _ _ _ H1).
    split; [exact H2|]. now rewrite <- app_assoc in I2.
Qed.

Lemma append_nil_r (s : string) : (s ++ "")%string = s.
Proof. induction s as [|c s IH]; simpl; [reflexivity|now rewrite IH]. Qed.

Lemma rev_append (a b : string) :
  Py.rev (a ++ b) = (Py.rev b ++ Py.rev a)%string.
Proof.
  induction a as [|c a IH]; simpl.
  - now rewrite append_nil_r.
  - now rewrite IH, append_assoc.
Qed.

Ltac returns_cases :=
  match goal with
  | |- returns _ (ret _) => apply returns_ret
  | |- returns _ (raise _) => apply returns_raise
  | |- returns _ (bind _ _) => apply returns_bind; intro
  | |- returns _ (if ?b then _ else _) => destruct b eqn:?
  | |- returns _ (match ?x with _ => _ end) => destruct x eqn:?
  | |- returns _ (let _ := _ in _) => cbv zeta
  end.

(** The third step of the availability check hands on an identifier
    only with the prefix. *)
Ltac check_cases :=
  match goal with
  | |- returns _ (bind (if truthy _ then _ else ret None) _) =>
      eapply (returns_bind_with
                (fun found => forall s, found = Some s ->
                                        Py.startswith (Py.upper s) "PMC" = true));
      [|intros ? ?]
  | _ => returns_cases
  end.

Lemma bind_ext {A B} (m : M A) (k k' : A -> M B) w :
  (forall a w1, k a w1 = k' a w1) -> bind m k w = bind m k' w.
Proof. intros H. unfold bind. destruct (m w) as [[a|e] w1]; auto. Qed.

Lemma bind_bind_Ok {A B C} (m : M A) (f : A -> M B) (k : B -> M C) w b w' :
  bind m f w = (Ok b, w') -> bind m (fun a => bind (f a) k) w = k b w'.
Proof.
  unfold bind. destruct (m w) as [[a|e] w1]; [|discriminate].
  intros ->. reflexivity.
Qed.

Lemma for_each_app {A S} (a b : list A) (body : A -> S -> M S) : forall s w,
  for_each (a ++ b) body s w = bind (for_each a body s) (for_each b body) w.
Proof.
  induction a as [|x a IH]; intros s w; cbn [app for_each].
  - reflexivity.
  - unfold bind. destruct (body x s w) as [[s1|e] w1]; [|reflexivity].
    rewrite IH. reflexivity.
Qed.

Lemma successes_failures outcomes :
  successes outcomes + failures outcomes = List.length outcomes.
Proof. unfold successes, failures. apply (filter_length (fun b : bool => b)). Qed.

(** The summary file has another name than the dump of the search *)
Lemma sidecar_is_not_the_dump path :
  String.eqb (path ++ ".processed") "pubmed_response.json" = false.
Proof.
  destruct (String.eqb _ _) eqn:E; [|reflexivity].
  apply String.eqb_eq in E. apply (f_equal Py.rev) in E. rewrite rev_append in E.
  change (Py.rev ".processed") with "dessecorp." in E.
  change (Py.rev "pubmed_response.json") with "nosj.esnopser_dembup" in E.
  discriminate E.
Qed.

(** Among the events of the preparation there is no request for a
    document and no writing of the summary file. *)
Lemma preparation_fetches_and_reports_nothing evs path :
  Forall (fun e => is_preparation_event e = true) evs ->
  (forall url, ~ In (EvHttpGet url) evs)
  /\ (forall url text, ~ In (EvHttpPost url text) evs)
  /\ (forall content, ~ In (EvWrite (path ++ ".processed") content) evs).
Proof.
  intros H. rewrite Forall_forall in H. repeat split.
  - intros url Hin. specialize (H _ Hin). discriminate H.
  - intros url text Hin. specialize (H _ Hin). discriminate H.
  - intros content Hin. specialize (H _ Hin).
    unfold is_preparation_event in H. cbn [is_scan_event is_check_event orb] in H.
    now rewrite sidecar_is_not_the_dump in H.
Qed.

Section WatcherMore.

Context (cfg : Config) (env : Env).

(** One round of the availability check puts the identifier in exactly
    one of the two lists. *)
Lemma check_paper_sorts paper_id st :
  always_returns
    (fun st' =>
       (exists pmcid,
           st' = (fst st ++ [{| info_id := paper_id; info_pmcid := pmcid |}], snd st)
           /\ Py.startswith (Py.upper pmcid) "PMC" = true)
       \/ st' = (fst st, snd st ++ [paper_id]))
    (check_paper cfg env paper_id st).
Proof.
  intros w. unfold check_paper. cbv zeta. unfold try_except.
  match goal with |- context [match ?m w with _ => _ end] =>
    assert (Hret : returns
                     (fun st' =>
                        (exists pmcid,
                            st' = (fst st ++ [{| info_id := paper_id;
                                                 info_pmcid := pmcid |}], snd st)
                            /\ Py.startswith (Py.upper pmcid) "PMC" = true)
                        \/ st' = (fst st, snd st ++ [paper_id])) m);
    [|destruct (m w) as [[st'|e] w'] eqn:E]
  end.
  - repeat check_cases;
      first [ now right
            | left; eexists; (split; [reflexivity|]);
              first [ assumption
                    | apply ensure_prefix_upper_prefixed_result
                    | now eauto ]
            | intros ? [= <-]; apply ensure_prefix_upper_prefixed_result
            | intros ? [=] ].
  - exists st', w'. split; [reflexivity|]. eapply Hret; eauto.
  - eexists _, w'. cbn [any_Exception]. unfold ret. split; [reflexivity|]. now right.
Qed.

(** The probe: one HEAD request; it is [True] for the status 200, [False]
    for any other status and for a [RequestException]. *)
Lemma check_pmc_id_exists_run pmc_id w :
  check_pmc_id_exists cfg env pmc_id w
  = (match probe_answer cfg env w pmc_id with
     | Ok status => Ok (status =? 200)
     | Raise e => if is_RequestException e then Ok false else Raise e
     end,
     add_events w [EvHttpHead (probe_url cfg pmc_id)]).
Proof.
  unfold check_pmc_id_exists, probe_answer, probe_url. cbv zeta.
  set (url := bioc_url _ _ _ _).
  unfold try_except, bind at 1. rewrite emit_run. unfold bind at 1, ask at 1.
  cbn [trace add_events].
  destruct (bioc_head env _ url) as [status|e]; [reflexivity|].
  unfold bind, lift. destruct (is_RequestException e); reflexivity.
Qed.

(** One round of the availability check, with what decided it for an
    identifier that carries the prefix *)
Lemma check_paper_verdict paper_id st w :
  exists st' w',
    check_paper cfg env paper_id st w = (Ok st', w')
    /\ ((exists pmcid,
            st' = (fst st ++ [{| info_id := paper_id; info_pmcid := pmcid |}], snd st)
            /\ Py.startswith (Py.upper pmcid) "PMC" = true
            /\ (Py.startswith (Py.upper paper_id) "PMC" = true ->
                pmcid = paper_id /\ probe_answer cfg env w paper_id = Ok 200))
        \/ (st' = (fst st, snd st ++ [paper_id])
            /\ (Py.startswith (Py.upper paper_id) "PMC" = true ->
                probe_answer cfg env w paper_id <> Ok 200))).
Proof.
  destruct (Py.startswith (Py.upper paper_id) "PMC") eqn:Hp.
  - unfold check_paper. cbv zeta. rewrite Hp. unfold try_except, bind.
    rewrite check_pmc_id_exists_run.
    destruct (probe_answer cfg env w paper_id) as [status|e] eqn:E.
    + destruct (status =? 200) eqn:Es; unfold ret; eexists _, _;
        (split; [reflexivity|]).
      * apply Nat.eqb_eq in Es. subst status. left. exists paper_id. auto.
      * right. split; [reflexivity|]. intros _ [= ->]. discriminate Es.
    + destruct (is_RequestException e); cbn [any_Exception]; unfold ret;
        eexists _, _; (split; [reflexivity|]); right;
        (split; [reflexivity|]); intros _; discriminate.
  - destruct (check_paper_sorts paper_id st w) as (st' & w' & H & Hst').
    exists st', w'. split; [exact H|].
    destruct Hst' as [(pm & -> & Hpm)| ->].
    + left. exists pm. split; [reflexivity|]. split; [exact Hpm|discriminate].
    + right. split; [reflexivity|discriminate].
Qed.

(** The availability check as a whole *)
Lemma check_available_papers_verdicts paper_ids w :
  exists available unavailable w',
    check_available_papers cfg env paper_ids w = (Ok (available, unavailable), w')
    /\ Permutation (map info_id available ++ unavailable) paper_ids
    /\ Forall prefixed_info available
    /\ verdicts_follow_probes cfg env (available, unavailable)
    /\ db w' = db w
    /\ exists evs, trace w' = trace w ++ evs
                   /\ Forall (fun e => is_check_event e = true) evs.
Proof.
  unfold check_available_papers.
  destruct (for_each_always_inv
              (fun done st => Permutation (sorted_ids st) done
                              /\ Forall prefixed_info (fst st)
                              /\ verdicts_follow_probes cfg env st)
              (check_paper cfg env)) with (l := paper_ids) (done := @nil string)
              (s := (@nil paper_info, @nil string)) (w := w)
    as ([available unavailable] & w' & Hrun & Hperm & Hpre & Hver).
  - intros x done st (Hperm & Hpre & Ha & Hu) w1.
    destruct (check_paper_verdict x st w1) as (st' & w2 & H & Hst').
    exists st', w2. split; [exact H|].
    destruct Hst' as [(pm & -> & Hpm & Hprobe)|[-> Hprobe]];
      unfold sorted_ids, verdicts_follow_probes; cbn [fst snd].
    + split.
      { rewrite map_app. cbn [map info_id]. rewrite <- app_assoc. cbn [app].
        etransitivity; [symmetry; apply Permutation_middle|].
        etransitivity; [|apply Permutation_cons_append].
        now constructor. }
      split; [apply Forall_app; split; [exact Hpre|now repeat constructor]|].
      split; [|exact Hu].
      intros info Hin Hp. apply in_app_or in Hin. destruct Hin as [Hin|[<-|[]]].
      * now apply Ha.
      * cbn [info_id info_pmcid] in *. destruct (Hprobe Hp) as [-> Hok]. eauto.
    + split; [rewrite app_assoc; now apply Permutation_app_tail|].
      split; [exact Hpre|]. split; [exact Ha|].
      intros id Hin Hp. apply in_app_or in Hin. destruct Hin as [Hin|[<-|[]]].
      * now apply Hu.
      * exists w1. now apply Hprobe.
  - split; [constructor|]. split; [constructor|]. split; intros ? [].
  - exists available, unavailable, w'. split; [exact Hrun|].
    split; [exact Hperm|]. split; [exact Hpre|]. split; [exact Hver|].
    split; [exact (keeps_check_available_papers cfg env _ _ _ _ Hrun)|].
    exact (lookup_check_available_papers cfg env _ _ _ _ Hrun).
Qed.

(** X20: the availability check never raises and leaves the tables as
    they were; it neither fetches a document nor asks for annotations,
    and the only file it writes is the dump of the PubMed search; every
    identifier ends in exactly one of the two lists, every available
    paper has an identifier with the prefix to fetch it under, and for
    an identifier that carries the prefix the verdict is that of the
    probe. *)
Theorem availability_check_partitions_ids paper_ids w :
  exists available unavailable w',
    check_available_papers cfg env paper_ids w = (Ok (available, unavailable), w')
    /\ Permutation (map info_id available ++ unavailable) paper_ids
    /\ Forall prefixed_info available
    /\ verdicts_follow_probes cfg env (available, unavailable)
    /\ db w' = db w
    /\ exists evs, trace w' = trace w ++ evs
                   /\ Forall (fun e => is_check_event e = true) evs.
Proof. exact (check_available_papers_verdicts paper_ids w). Qed.

(** The scan of the response files: the pattern is expanded, every file
    found is read, and nothing is raised. *)
Lemma examine_run w :
  exists evs,
    examine_error_responses env w = (Ok tt, add_events w evs)
    /\ Forall (fun e => is_scan_event e = true) evs.
Proof.
  unfold examine_error_responses. unfold bind at 1. rewrite emit_run.
  unfold bind at 1, ask at 1.
  generalize (glob_glob env (trace (add_events w [EvGlob "PMC*_response.xml"]))
                        "PMC*_response.xml").
  intros files.
  assert (Hloop : forall w1 : World,
             exists evs,
               for_each files
                 (fun file_path (_ : unit) =>
                    try_except (read_text_lines env file_path ;; ret tt)
                               any_Exception (fun _ => ret tt))
                 tt w1
               = (Ok tt, add_events w1 evs)
               /\ Forall (fun e => is_scan_event e = true) evs).
  { induction files as [|f files IH]; intros w1.
    - exists []. cbn [for_each]. unfold ret. rewrite add_events_nil. auto.
    - assert (H1 : try_except (read_text_lines env f ;; ret tt)
                              any_Exception (fun _ => ret tt) w1
                   = (Ok tt, add_events w1 [EvRead f])).
      { unfold try_except, bind, read_text_lines, bind, ask, lift, ret.
        rewrite emit_run.
        destruct (read_lines env _ f); reflexivity. }
      destruct (IH (add_events w1 [EvRead f])) as (evs & H2 & F2).
      exists (EvRead f :: evs). cbn [for_each].
      rewrite (bind_Ok _ _ _ _ _ H1), H2, add_events_app.
      split; [reflexivity|]. now constructor. }
  destruct (Hloop (add_events w [EvGlob "PMC*_response.xml"])) as (evs & H & F).
  exists (EvGlob "PMC*_response.xml" :: evs). rewrite H, add_events_app.
  split; [reflexivity|]. now constructor.
Qed.

(** The statements of [process_file] up to the computation of the
    batches, for a file that can be read. *)
Lemma process_file_checks path w lines :
  read_lines env (trace w ++ [EvRead path]) path = Ok lines ->
  exists w2 available unavailable w3 evs,
    examine_error_responses env (add_events w [EvRead path]) = (Ok tt, w2)
    /\ check_available_papers cfg env (paper_ids_of lines) w2
       = (Ok (available, unavailable), w3)
    /\ trace w3 = trace w ++ [EvRead path] ++ evs
    /\ Forall (fun e => is_preparation_event e = true) evs
    /\ db w3 = db w
    /\ Permutation (map info_id available ++ unavailable) (paper_ids_of lines)
    /\ verdicts_follow_probes cfg env (available, unavailable)
    /\ process_file_body cfg env path w
       = (starts <- match Py.range_step (List.length available) (BATCH_SIZE cfg) with
                    | Some l => ret l
                    | None => raise (ValueError "range() arg 3 must not be zero")
                    end ;;
          counts <- for_each starts
                      (fun i counts =>
                         for_each (Py.slice available i (Z.to_nat (BATCH_SIZE cfg)))
                                  (process_one cfg env) counts)
                      (0, 0) ;;
          write_text env (path ++ ".processed")
            (Some (summary (List.length (paper_ids_of lines)) (List.length available)
                           (fst counts) (snd counts) (List.length unavailable))) ;;
          rename env path (path ++ ".completed")) w3.
Proof.
  intros Hread.
  pose proof (read_text_lines_run env path w lines Hread) as R1.
  destruct (examine_run (add_events w [EvRead path])) as (evs2 & R2 & F2).
  destruct (check_available_papers_verdicts (paper_ids_of lines)
              (add_events (add_events w [EvRead path]) evs2))
    as (available & unavailable & w3 & R3 & Hperm & _ & Hver & K3 & evs3 & T3 & F3).
  exists (add_events (add_events w [EvRead path]) evs2), available, unavailable, w3,
    (evs2 ++ evs3).
  split; [exact R2|]. split; [exact R3|].
  split; [rewrite T3; cbn [trace add_events]; now rewrite <- !app_assoc|].
  split.
  { apply Forall_app. split; eapply Forall_impl; try eassumption;
      intros e He; unfold is_preparation_event; rewrite He;
      [reflexivity|apply orb_true_r]. }
  split; [exact K3|]. split; [exact Hperm|]. split; [exact Hver|].
  unfold process_file_body. rewrite (bind_Ok _ _ _ _ _ R1). cbv zeta.
  rewrite (bind_Ok _ _ _ _ _ R2).
  fold (paper_ids_of lines). rewrite (bind_Ok _ _ _ _ _ R3). reflexivity.
Qed.

(** The batches of a positive size cover the available papers once, in
    order: the two nested loops are one loop over the list. *)
Lemma batches_flatten {S} (l : list paper_info) step
      (body : paper_info -> S -> M S) :
  0 < step -> forall fuel i s w,
  List.length l - i <= fuel ->
  for_each (Py.range_from fuel i (List.length l) step)
           (fun i s => for_each (Py.slice l i step) body s) s w
  = for_each (skipn i l) body s w.
Proof.
  intros Hstep. induction fuel as [|fuel IH]; intros i s w Hfuel.
  - cbn [Py.range_from for_each]. rewrite skipn_all2 by lia. reflexivity.
  - cbn [Py.range_from]. destruct (i <? List.length l) eqn:Hi.
    + cbn [for_each].
      rewrite <- (firstn_skipn step (skipn i l)) at 1.
      rewrite for_each_app. unfold Py.slice. apply bind_ext. intros s1 w1.
      rewrite skipn_skipn, (Nat.add_comm step i). apply IH.
      apply Nat.ltb_lt in Hi. lia.
    + apply Nat.ltb_ge in Hi. cbn [for_each]. rewrite skipn_all2 by lia.
      reflexivity.
Qed.

(** The loop over the papers counts the runs of the pipeline that
    return and those that raise. *)
Lemma process_all_outcomes papers : forall counts w,
  for_each papers (process_one cfg env) counts w
  = (Ok (fst counts + successes (fst (pipeline_outcomes cfg env papers w)),
         snd counts + failures (fst (pipeline_outcomes cfg env papers w))),
     snd (pipeline_outcomes cfg env papers w)).
Proof.
  induction papers as [|info papers IH]; intros [s f] w.
  - cbn [for_each pipeline_outcomes fst snd]. unfold ret, successes, failures.
    cbn [filter List.length]. now rewrite !Nat.add_0_r.
  - cbn [for_each pipeline_outcomes]. unfold bind at 1.
    unfold process_one at 1, try_except, bind.
    destruct (process_paper_id cfg env (info_pmcid info) w) as [[d|e] w1];
      cbn [any_Exception]; unfold ret; rewrite IH;
      destruct (pipeline_outcomes cfg env papers w1) as [outcomes w2];
      unfold successes, failures; cbn [fst snd filter negb List.length];
      f_equal; f_equal; f_equal; lia.
Qed.

Lemma pipeline_outcomes_length papers : forall w,
  List.length (fst (pipeline_outcomes cfg env papers w)) = List.length papers.
Proof.
  induction papers as [|info papers IH]; intros w; cbn [pipeline_outcomes].
  - reflexivity.
  - destruct (process_paper_id cfg env (info_pmcid info) w) as [r w1].
    specialize (IH w1).
    destruct (pipeline_outcomes cfg env papers w1) as [outcomes w2].
    cbn [fst List.length] in *. now rewrite IH.
Qed.

Lemma appends_pipeline_outcomes papers : forall w,
  exists evs, trace (snd (pipeline_outcomes cfg env papers w)) = trace w ++ evs
              /\ Forall not_rename evs.
Proof.
  induction papers as [|info papers IH]; intros w; cbn [pipeline_outcomes].
  - exists []. cbn [snd]. now rewrite app_nil_r.
  - destruct (process_paper_id cfg env (info_pmcid info) w) as [r w1] eqn:E.
    destruct (emits_process_paper_id cfg env _ _ _ _ E) as (e1 & T1 & F1).
    destruct (IH w1) as (e2 & T2 & F2).
    destruct (pipeline_outcomes cfg env papers w1) as [outcomes w2].
    cbn [snd] in *. exists (e1 ++ e2). rewrite T2, T1, app_assoc.
    split; [reflexivity|]. now apply Forall_app.
Qed.


(** X21: with a batch size of zero every readable file ends with the
    failed suffix: the response files are scanned and the identifiers
    checked for availability, but no paper is fetched, no summary is
    written and the tables are untouched. *)
Theorem zero_batch_size_fails_the_file path w lines :
  read_lines env (trace w ++ [EvRead path]) path = Ok lines ->
  BATCH_SIZE cfg = 0%Z ->
  (forall h, os_rename env h path (path ++ ".failed") = Ok tt) ->
  exists w' evs,
    process_file cfg env path w = (Ok tt, w')
    /\ trace w' = trace w ++ [EvRead path] ++ evs
                  ++ [EvRename path (path ++ ".failed")]
    /\ Forall (fun e => is_preparation_event e = true) evs
    /\ (forall url, ~ In (EvHttpGet url) evs)
    /\ (forall content, ~ In (EvWrite (path ++ ".processed") content) evs)
    /\ db w' = db w.
Proof.
  intros Hread Hzero Hrename.
  destruct (process_file_checks path w lines Hread)
    as (w2 & available & unavailable & w3 & evs & _ & _ & T3 & F3 & K3 & _ & _ & Hbody).
  exists (add_events w3 [EvRename path (path ++ ".failed")]), evs.
  split.
  { unfold process_file, try_except. rewrite Hbody, Hzero.
    unfold Py.range_step. cbn [Z.eqb]. unfold bind at 1, raise at 1.
    cbn [any_Exception]. now apply rename_run. }
  cbn [trace db add_events]. rewrite T3, <- !app_assoc.
  destruct (preparation_fetches_and_reports_nothing evs path F3) as (G & _ & S).
  auto 10.
Qed.


(** X23: the observer's callback does nothing for a directory and
    nothing for the files the watcher itself leaves behind, so handling
    a batch file does not start a new round. *)
Theorem watcher_ignores_its_own_output event w :
  is_directory event = true
  \/ (exists path suffix, src_path event = (path ++ suffix)%string
                          /\ In suffix output_suffixes) ->
  on_created cfg env event w = (Ok tt, w).
Proof.
  unfold on_created. intros [Hdir|(path & suffix & Hpath & Hin)].
  - now rewrite Hdir.
  - destruct (is_directory event); [reflexivity|].
    assert (Hend : endswith (src_path event) ".txt" = false).
    { rewrite Hpath. unfold endswith. rewrite rev_append.
      destruct Hin as [<-|[<-|[<-|[]]]]; reflexivity. }
    now rewrite Hend.
Qed.

End WatcherMore.


(** The counts of that file: one paper accepted, whose run raises, and
    one identifier turned down *)
Example batch_counts :
  check_available_papers cfg_on env_batch (paper_ids_of ["PMC1"; ""; "PMC2"])
    (add_events w0 [EvRead "watch/ids.txt"; EvGlob "PMC*_response.xml"])
  = (Ok ([{| info_id := "PMC1"; info_pmcid := "PMC1" |}], ["PMC2"]),
     add_events w0 [EvRead "watch/ids.txt"; EvGlob "PMC*_response.xml";
                    EvHttpHead (bioc_url "" "xml" "PMC1" "unicode");
                    EvHttpHead (bioc_url "" "xml" "PMC2" "unicode")])
  /\ fst (pipeline_outcomes cfg_on env_batch
            [{| info_id := "PMC1"; info_pmcid := "PMC1" |}]
            (add_events w0 [EvRead "watch/ids.txt"; EvGlob "PMC*_response.xml";
                            EvHttpHead (bioc_url "" "xml" "PMC1" "unicode");
                            EvHttpHead (bioc_url "" "xml" "PMC2" "unicode")]))
     = [false].
Proof. split; vm_compute; reflexivity. Qed.

Lemma zero_batch_size_fails_the_file_witness :
  exists w' evs,
    process_file cfg_zero_batch env_batch "watch/ids.txt" w0 = (Ok tt, w')
    /\ trace w' = trace w0 ++ [EvRead "watch/ids.txt"] ++ evs
                  ++ [EvRename "watch/ids.txt" ("watch/ids.txt" ++ ".failed")]
    /\ Forall (fun e => is_preparation_event e = true) evs
    /\ (forall url, ~ In (EvHttpGet url) evs)
    /\ (forall content, ~ In (EvWrite ("watch/ids.txt" ++ ".processed") content) evs)
    /\ db w' = db w0.
Proof.
  apply (zero_batch_size_fails_the_file cfg_zero_batch env_batch "watch/ids.txt" w0
           ["PMC1"; ""; "PMC2"]).
  - reflexivity.
  - reflexivity.
  - intros h. reflexivity.
Defined.


(** A run in which two response files are scanned and the search finds
    the identifier that could not be converted *)
Example batch_with_scan_and_search :
  process_file cfg_on env_scanning "watch/ids.txt" w0
  = (Ok tt,
     add_events w0
       [EvRead "watch/ids.txt"; EvGlob "PMC*_response.xml";
        EvRead "PMC1_response.xml"; EvRead "PMC2_response.xml";
        EvHttpHead (bioc_url "" "xml" "PMC1" "unicode");
        EvDbConnect; EvDbExecute "SHOW TABLES"; EvDbClose;
        EvIdconv "31452104"; EvSleep 2; EvIdconv "31452104"; EvSleep 4;
        EvIdconv "31452104";
        EvSearch "[uid] 31452104"; EvSleepMillis 300; EvSummary ["31452104"];
        EvWrite "pubmed_response.json" None;
        EvHttpGet (bioc_url "" "xml" "PMC1" "unicode");
        EvWrite "watch/ids.txt.processed" (Some (summary 2 1 0 1 1));
        EvRename "watch/ids.txt" "watch/ids.txt.completed"]).
Proof. vm_compute. reflexivity. Qed.

Lemma watcher_ignores_its_own_output_witness :
  on_created cfg_on env_batch
             {| is_directory := false; src_path := "watch/ids.txt.completed" |} w0
  = (Ok tt, w0).
Proof.
  apply (watcher_ignores_its_own_output cfg_on env_batch
           {| is_directory := false; src_path := "watch/ids.txt.completed" |} w0).
  right. exists "watch/ids.txt", ".completed". split; [reflexivity|].
  right. left. reflexivity.
Defined.

(** ** The end of a batch file, and the two look-ups of the mapping *)

Section Outcomes.

Context (cfg : Config) (env : Env).

Lemma rename_world src dst w r w' :
  rename env src dst w = (r, w') ->
  w' = add_events w [EvRename src dst]
  /\ r = os_rename env (trace w ++ [EvRename src dst]) src dst.
Proof.
  unfold rename, bind, ask, lift. rewrite emit_run. cbn [trace add_events].
  destruct (os_rename env _ src dst) as [[]|e]; intros H; inversion H; auto.
Qed.

Lemma appends_process_file_body path :
  emits (fun _ => True) (process_file_body cfg env path).
Proof.
  unfold process_file_body, examine_error_responses, rename.
  repeat emits_step; trivial;
    try (eapply emits_weaken; [|auto with emits]; trivial).
Qed.

(** X24: whatever happens, the last thing [process_file] does is to
    rename the batch file, to the completed or to the failed suffix; the
    completed suffix is only given by a call that returns normally, and
    the call raises only what the renaming to the failed suffix
    raises. *)
Theorem batch_file_is_always_renamed path w r w' :
  process_file cfg env path w = (r, w') ->
  exists evs suffix,
    trace w' = trace w ++ evs ++ [EvRename path (path ++ suffix)]
    /\ (suffix = ".completed" \/ suffix = ".failed")
    /\ (suffix = ".completed" -> r = Ok tt)
    /\ (forall e, r = Raise e ->
          suffix = ".failed"
          /\ os_rename env (trace w') path (path ++ ".failed") = Raise e).
Proof.
  unfold process_file, try_except. intros H.
  destruct (process_file_body cfg env path w) as [[[]|e] wb] eqn:E.
  - inversion H; subst r w'. clear H.
    unfold process_file_body in E.
    apply bind_Ok_inv in E. destruct E as (lines & w1 & H1 & E).
    destruct (emits_read_text_lines env _ _ _ _ H1) as (e1 & T1 & _).
    cbv zeta in E.
    apply bind_Ok_inv in E. destruct E as ([] & w2 & H2 & E).
    destruct (examine_run env w1) as (e2 & R2 & _).
    rewrite R2 in H2. injection H2 as H2.
    apply bind_Ok_inv in E. destruct E as (st & w3 & H3 & E).
    destruct (emits_check_available_papers cfg env _ _ _ _ H3) as (e3 & T3 & _).
    apply bind_Ok_inv in E. destruct E as (starts & w4 & H4 & E).
    assert (T4 : w4 = w3).
    { destruct (Py.range_step _ _); [|discriminate].
      apply ret_inv in H4. now destruct H4. }
    subst w4.
    apply bind_Ok_inv in E. destruct E as (counts & w5 & H5 & E).
    destruct (emits_batches cfg env _ _ _ _ _ _ H5) as (e5 & T5 & _).
    apply bind_Ok_inv in E. destruct E as ([] & w6 & H6 & E).
    destruct (emits_write_text env _ _ _ _ _ H6) as (e6 & T6 & _).
    apply rename_world in E. destruct E as [-> _].
    exists (e1 ++ e2 ++ e3 ++ e5 ++ e6), ".completed".
    split.
    { cbn [trace add_events]. rewrite T6, T5, T3, <- H2. cbn [trace add_events].
      rewrite T1, <- !app_assoc. reflexivity. }
    split; [now left|]. split; [reflexivity|]. discriminate.
  - cbn [any_Exception] in H.
    destruct (appends_process_file_body path _ _ _ E) as (evs & T & _).
    apply rename_world in H. destruct H as [-> Hr].
    rewrite T, <- app_assoc in Hr.
    exists evs, ".failed". cbn [trace add_events]. rewrite T, <- app_assoc.
    split; [reflexivity|]. split; [now right|]. split; [discriminate|].
    intros e' ->. split; [reflexivity|]. now symmetry.
Qed.

Lemma lookup_pmcid_run pmid w t :
  db_healthy env ->
  pmid_to_pmcid (db w) = Some t ->
  lookup_pmcid env pmid w
  = (Ok (hd_error (map snd (Sql.select_where fst pmid t))),
     add_events w plain_lookup_events).
Proof.
  intros Hdb Ht. unfold lookup_pmcid.
  erewrite try_except_Ok; [reflexivity|].
  rewrite (bind_Ok _ _ _ _ _ (db_connect_run env w Hdb)).
  set (w1 := add_events w [EvDbConnect]).
  assert (Hsel : Sql.select_pmcid pmid (db w1)
                 = Ok (hd_error (map snd (Sql.select_where fst pmid t)), db w1)).
  { unfold Sql.select_pmcid. cbn [db w1 add_events]. now rewrite Ht. }
  rewrite (bind_Ok _ _ _ _ _
             (conn_execute_read_run env _ (Sql.select_pmcid pmid) w1 _ Hdb Hsel)).
  unfold bind, conn_close, ret. rewrite emit_run.
  subst w1. rewrite !add_events_app. reflexivity.
Qed.

(** X25: on a working database whose mapping table holds only values
    with the prefix, as the import leaves it, the look-up of [help.py]
    and the look-up of the pipeline give the same answer for a key
    without surrounding blanks. *)
Theorem lookups_agree_on_imported_table pmid w t :
  db_healthy env ->
  pmid_to_pmcid (db w) = Some t ->
  well_formed_mapping t ->
  Py.strip pmid = pmid ->
  fst (lookup_pmcid env pmid w) = fst (get_pmcid_from_database env pmid w).
Proof.
  intros Hdb Ht [_ Hvals] Hstrip.
  rewrite (lookup_pmcid_run pmid w t Hdb Ht).
  rewrite (get_pmcid_run env pmid w t Hdb Ht). cbn [fst]. rewrite Hstrip.
  destruct (hd_error _) as [v|] eqn:Hv; [|reflexivity].
  do 2 f_equal. symmetry. apply ensure_prefix_upper_prefixed. apply upper_keeps_prefix.
  apply hd_error_In in Hv. apply in_map_iff in Hv as (row & <- & Hin).
  apply filter_In in Hin as [Hin _].
  rewrite Forall_forall in Hvals. now apply Hvals.
Qed.

(** The run on an identifier that carries the prefix starts with the
    request for the document *)
Lemma pipeline_starts_with_get raw w r w' :
  Py.startswith (Py.upper raw) "PMC" = true ->
  process_paper_id cfg env raw w = (r, w') ->
  exists evs,
    trace w' = trace w
               ++ EvHttpGet (bioc_url (NCBI_API_KEY cfg) "xml"
                                      (ensure_prefix_exact raw) "unicode") :: evs.
Proof.
  intros Hp. unfold process_paper_id.
  rewrite (bind_Ok _ _ _ _ _ (resolve_prefixed env raw w Hp)).
  unfold bind at 1.
  destruct (fetch_bioc_paper cfg env raw "xml" "unicode" w) as [r1 w1] eqn:E.
  destruct (fetch_starts_with_get _ _ _ _ _ _ _ _ E) as (evs & Ht).
  destruct r1 as [[data|]|e].
  - match goal with
    | |- ?m w1 = _ -> _ =>
        assert (Hm : emits not_rename m) by emits_prog;
        destruct (m w1) as [r2 w2] eqn:E2
    end.
    destruct (Hm _ _ _ E2) as (evs2 & Ht2 & _).
    intros [= <- <-]. exists (evs ++ evs2). rewrite Ht2, Ht. now rewrite <- app_assoc.
  - intros [= <- <-]. now exists evs.
  - intros [= <- <-]. now exists evs.
Qed.

(** X5: an identifier whose prefix is not in upper case (as [pmc123])
    is probed by [check_pmc_id_exists] under its own name, but the
    pipeline fetches it under the name with a second prefix and, on a
    working database, returns and stores the document under that name:
    the one row under the doubled name has the columns of the document
    returned, and the rows under the identifier itself are as before. *)
Theorem lower_case_prefix_is_doubled raw w doc w' :
  db_healthy env ->
  Py.startswith (Py.upper raw) "PMC" = true ->
  Py.startswith raw "PMC" = false ->
  process_paper_id cfg env raw w = (Ok doc, w') ->
  pmcid doc = ("PMC" ++ raw)%string
  /\ (exists evs,
        trace w' = trace w
                   ++ EvHttpGet (bioc_url (NCBI_API_KEY cfg) "xml" ("PMC" ++ raw)
                                          "unicode") :: evs)
  /\ stored_rows ("PMC" ++ raw) (db w')
     = [{| row_pmcid := ("PMC" ++ raw)%string; row_title := title doc;
           row_abstract := abstract doc; row_figures := figures doc |}]
  /\ stored_rows raw (db w') = stored_rows raw (db w)
  /\ (forall w0,
        snd (check_pmc_id_exists cfg env raw w0)
        = add_events w0 [EvHttpHead (bioc_url (NCBI_API_KEY cfg) "xml" raw "unicode")])
  /\ bioc_url (NCBI_API_KEY cfg) "xml" raw "unicode"
     <> bioc_url (NCBI_API_KEY cfg) "xml" ("PMC" ++ raw) "unicode".
Proof.
  intros Hdb Hup Hex H.
  assert (He : ensure_prefix_exact raw = ("PMC" ++ raw)%string)
    by (unfold ensure_prefix_exact; now rewrite Hex).
  assert (Hu : ensure_prefix_upper raw = raw)
    by (unfold ensure_prefix_upper; now rewrite Hup).
  destruct (process_paper_id_stored cfg env raw w doc w' Hdb H)
    as (pmc & w1 & H1 & Hid & Hdbw).
  rewrite (resolve_prefixed env raw w Hup) in H1. inversion H1; subst pmc w1.
  rewrite He in Hid.
  assert (Hrow : row_of_paper doc
                 = {| row_pmcid := ("PMC" ++ raw)%string; row_title := title doc;
                      row_abstract := abstract doc; row_figures := figures doc |})
    by (unfold row_of_paper; now rewrite Hid).
  split; [exact Hid|].
  split.
  { destruct (pipeline_starts_with_get raw w _ _ Hup H) as (evs & Ht).
    exists evs. now rewrite Ht, He. }
  split.
  { unfold stored_rows. rewrite Hdbw. cbn [publications]. rewrite <- Hrow.
    rewrite <- Hid.
    apply (select_insert_same row_pmcid (row_of_paper doc)). }
  split.
  { unfold stored_rows. rewrite Hdbw. cbn [publications].
    rewrite select_insert_other.
    - now destruct (publications (db w)).
    - cbn [row_of_paper row_pmcid]. rewrite Hid. intros Heq.
      apply (f_equal String.length) in Heq. cbn [String.length append] in Heq. lia. }
  split.
  { intros w0. rewrite check_pmc_id_exists_run. cbn [snd]. unfold probe_url.
    now rewrite Hu. }
  apply bioc_url_length. cbn [String.length append]. lia.
Qed.

End Outcomes.

(** The identifier [pmc1] with a service that has the document *)
Lemma lower_case_prefix_is_doubled_witness :
  pmcid (match fst (process_paper_id cfg_on env_one_document "pmc1" w0) with
         | Ok d => d
         | Raise _ => paper_other
         end) = ("PMC" ++ "pmc1")%string
  /\ (exists evs,
        trace (snd (process_paper_id cfg_on env_one_document "pmc1" w0))
        = trace w0
          ++ EvHttpGet (bioc_url (NCBI_API_KEY cfg_on) "xml" ("PMC" ++ "pmc1")
                                 "unicode") :: evs)
  /\ stored_rows ("PMC" ++ "pmc1")
                 (db (snd (process_paper_id cfg_on env_one_document "pmc1" w0)))
     = [{| row_pmcid := ("PMC" ++ "pmc1")%string;
           row_title := title (match fst (process_paper_id cfg_on env_one_document
                                                            "pmc1" w0) with
                               | Ok d => d
                               | Raise _ => paper_other
                               end);
           row_abstract := abstract (match fst (process_paper_id cfg_on
                                                  env_one_document "pmc1" w0) with
                                     | Ok d => d
                                     | Raise _ => paper_other
                                     end);
           row_figures := figures (match fst (process_paper_id cfg_on
                                                env_one_document "pmc1" w0) with
                                   | Ok d => d
                                   | Raise _ => paper_other
                                   end) |}]
  /\ stored_rows "pmc1" (db (snd (process_paper_id cfg_on env_one_document "pmc1" w0)))
     = stored_rows "pmc1" (db w0)
  /\ (forall w1,
        snd (check_pmc_id_exists cfg_on env_one_document "pmc1" w1)
        = add_events w1 [EvHttpHead (bioc_url (NCBI_API_KEY cfg_on) "xml" "pmc1"
                                              "unicode")])
  /\ bioc_url (NCBI_API_KEY cfg_on) "xml" "pmc1" "unicode"
     <> bioc_url (NCBI_API_KEY cfg_on) "xml" ("PMC" ++ "pmc1") "unicode".
Proof.
  apply (lower_case_prefix_is_doubled cfg_on env_one_document "pmc1" w0
           (match fst (process_paper_id cfg_on env_one_document "pmc1" w0) with
            | Ok d => d
            | Raise _ => paper_other
            end)
           (snd (process_paper_id cfg_on env_one_document "pmc1" w0))).
  - intros h. reflexivity.
  - reflexivity.
  - reflexivity.
  - vm_compute. reflexivity.
Defined.

(** The probe and the fetch of [pmc1] ask for two different documents *)
Example lower_case_identifier_run :
  snd (check_pmc_id_exists cfg_on env_one_document "pmc1" w0)
  = add_events w0 [EvHttpHead (bioc_url "" "xml" "pmc1" "unicode")]
  /\ hd_error (trace (snd (process_paper_id cfg_on env_one_document "pmc1" w0)))
     = Some (EvHttpGet (bioc_url "" "xml" "PMCpmc1" "unicode"))
  /\ map row_pmcid
         (match publications
                  (db (snd (process_paper_id cfg_on env_one_document "pmc1" w0))) with
          | Some t => t
          | None => []
          end)
     = ["PMCpmc1"].
Proof. repeat split; vm_compute; reflexivity. Qed.

Lemma batch_file_is_always_renamed_witness :
  exists evs suffix,
    trace (snd (process_file cfg_on env_batch "watch/ids.txt" w0))
    = trace w0 ++ evs ++ [EvRename "watch/ids.txt" ("watch/ids.txt" ++ suffix)]
    /\ (suffix = ".completed" \/ suffix = ".failed")
    /\ (suffix = ".completed"
        -> fst (process_file cfg_on env_batch "watch/ids.txt" w0) = Ok tt)
    /\ (forall e, fst (process_file cfg_on env_batch "watch/ids.txt" w0) = Raise e ->
          suffix = ".failed"
          /\ os_rename env_batch
                       (trace (snd (process_file cfg_on env_batch "watch/ids.txt" w0)))
                       "watch/ids.txt" ("watch/ids.txt" ++ ".failed")
             = Raise e).
Proof.
  apply (batch_file_is_always_renamed cfg_on env_batch "watch/ids.txt" w0).
  vm_compute. reflexivity.
Defined.

Lemma lookups_agree_on_imported_table_witness :
  fst (lookup_pmcid env_offline "999" w_mapped)
  = fst (get_pmcid_from_database env_offline "999" w_mapped).
Proof.
  apply (lookups_agree_on_imported_table env_offline "999" w_mapped
           [("111", "PMC1"); ("999", "PMC123")]).
  - intros h. reflexivity.
  - reflexivity.
  - split; repeat constructor; simpl; intuition discriminate.
  - vm_compute. reflexivity.
Defined.

(** Without the prefix in the table the two look-ups differ *)
Example lookups_differ_on_bare_value :
  fst (lookup_pmcid env_offline "999" w_bare_mapping) = Ok (Some "123")
  /\ fst (get_pmcid_from_database env_offline "999" w_bare_mapping)
     = Ok (Some "PMC123").
Proof. split; vm_compute; reflexivity. Qed.
